(** * Data_Analysis-Tool: outlier detection and feature importance

    A shallow embedding of [outlier_detector.py] and [feature_analyzer.py].

    A pandas [DataFrame] is kept column-major, as pandas keeps it: a row
    index and a list of named, typed columns.  Floating-point cells are
    read as exact rationals, with [None] standing for NaN; a z-score, which
    needs a square root, is kept symbolic as a deviation over the square
    root of a variance; its comparison with a threshold is shown to be the
    comparison of that quotient in the reals.

    The calls into scikit-learn (the shuffled split, the random forest) and
    the unspecified tie order of [sort_values] are an interface
    ([Learner]) that the theorems are stated over.

    The same tables carry [DataCleaner.drop_columns] and [drop_rows],
    [DataLoader] with the file system as a parameter of each call, and the
    grid of [DataVisualizer.visualize_data_distribution]. *)

From Stdlib Require Import List Ascii String Bool Arith ZArith QArith Qabs Qround.
From Stdlib Require DecimalString.
From Stdlib Require Import Lia Lqa Permutation Sorted.
From Stdlib Require Import Reals Qreals Lra.
Import ListNotations.

Open Scope string_scope.
Open Scope Q_scope.

(** ** Tables *)

(** The cells of one column.  [NumCol] is an int64 or float64 column,
    [BoolCol] a bool column, [ObjCol] an object (text) column. *)
Inductive coldata : Type :=
| NumCol (xs : list (option Q))
| BoolCol (xs : list bool)
| ObjCol (xs : list string).

Record Column : Type := { name : string; values : coldata }.

Record DataFrame : Type := { index : list Z; columns : list Column }.

(** [pd.DataFrame()] *)
Definition empty_frame : DataFrame := {| index := []; columns := [] |}.

Definition nrows (df : DataFrame) : nat := List.length (index df).

(** [np.issubdtype(dtype, np.number)]: bool is not a number dtype. *)
Definition is_number (v : coldata) : bool :=
  match v with NumCol _ => true | _ => false end.

(** [df.select_dtypes(include=['number'])] *)
Definition select_dtypes_number (df : DataFrame) : DataFrame :=
  {| index := index df;
     columns := filter (fun c => is_number (values c)) (columns df) |}.

(** The cells of a numeric column; a column of another dtype has none. *)
Definition cells (c : Column) : list (option Q) :=
  match values c with NumCol xs => xs | _ => [] end.

(** Applying one row operation to whatever the column holds. *)
Definition on_values (f : forall A : Type, list A -> list A) (v : coldata)
  : coldata :=
  match v with
  | NumCol xs => NumCol (f _ xs)
  | BoolCol xs => BoolCol (f _ xs)
  | ObjCol xs => ObjCol (f _ xs)
  end.

Definition on_rows (f : forall A : Type, list A -> list A) (df : DataFrame)
  : DataFrame :=
  {| index := f _ (index df);
     columns := map (fun c => {| name := name c;
                                 values := on_values f (values c) |})
                    (columns df) |}.

(** Rows kept by a Boolean mask, position by position. *)
Fixpoint mask_select {A : Type} (mask : list bool) (xs : list A) : list A :=
  match mask, xs with
  | b :: m, x :: r => if b then x :: mask_select m r else mask_select m r
  | _, _ => []
  end.

(** [df[mask]] for a Boolean row mask. *)
Definition getitem_mask (df : DataFrame) (mask : list bool) : DataFrame :=
  on_rows (fun A => mask_select mask) df.

(** Rows taken at the given positions, in the order given. *)
Definition take {A : Type} (ps : list nat) (xs : list A) : list A :=
  flat_map (fun p => match nth_error xs p with
                     | Some x => [x]
                     | None => []
                     end) ps.

(** [df.iloc[ps]] *)
Definition iloc (df : DataFrame) (ps : list nat) : DataFrame :=
  on_rows (fun A => take ps) df.

(** Positions at which a mask is true, counted from [k]. *)
Fixpoint true_positions (k : nat) (mask : list bool) : list nat :=
  match mask with
  | [] => []
  | b :: m => if b then k :: true_positions (S k) m
              else true_positions (S k) m
  end.

(** [mask2d.any(axis=1)] over [n] rows; [cols] holds the mask column by
    column. *)
Definition any_axis1 (n : nat) (cols : list (list bool)) : list bool :=
  map (fun i => existsb (fun col => nth i col false) cols) (seq 0 n).

(** ** Column statistics *)

Definition Qltb (x y : Q) : bool := negb (Qle_bool y x).

(** The cells as plain numbers, when none of them is NaN. *)
Fixpoint all_numbers (xs : list (option Q)) : option (list Q) :=
  match xs with
  | [] => Some []
  | None :: _ => None
  | Some x :: r =>
      match all_numbers r with
      | Some vs => Some (x :: vs)
      | None => None
      end
  end.

(** The cells that are not NaN. *)
Fixpoint dropna (xs : list (option Q)) : list Q :=
  match xs with
  | [] => []
  | None :: r => dropna r
  | Some x :: r => x :: dropna r
  end.

Definition Qsum (vs : list Q) : Q := fold_right Qplus 0 vs.

Definition count (vs : list Q) : Q := inject_Z (Z.of_nat (List.length vs)).

(** [a.mean(axis=0)] *)
Definition mean (vs : list Q) : Q := Qsum vs / count vs.

(** [a.std(axis=0, ddof=0)] squared: the population variance. *)
Definition variance (vs : list Q) : Q :=
  let m := mean vs in mean (map (fun v => (v - m) * (v - m)) vs).

(** *** z-scores *)

(** One entry of the array [stats.zscore] returns: NaN, or the quotient
    [dev / sqrt var] with [var] a non-zero variance. *)
Inductive zval : Type :=
| ZNaN
| ZRatio (dev var : Q).

(** [stats.zscore(a)] along one column: the mean and the standard
    deviation are NaN as soon as one cell is; a column of zero variance
    gives NaN throughout. *)
Definition stats_zscore (xs : list (option Q)) : list zval :=
  match all_numbers xs with
  | None => map (fun _ => ZNaN) xs
  | Some vs =>
      let m := mean vs in
      let s2 := variance vs in
      if Qeq_bool s2 0 then map (fun _ => ZNaN) vs
      else map (fun v => ZRatio (v - m) s2) vs
  end.

(** [np.abs] *)
Definition np_abs (z : zval) : zval :=
  match z with
  | ZNaN => ZNaN
  | ZRatio d s2 => ZRatio (Qabs d) s2
  end.

(** [z > threshold]; NaN compares false.  For [dev / sqrt var > t] with
    [t >= 0] both sides are squared. *)
Definition zval_gt (z : zval) (t : Q) : bool :=
  match z with
  | ZNaN => false
  | ZRatio d s2 =>
      if Qltb d 0 then Qltb (d * d) (t * t * s2) && Qltb t 0
      else Qltb t 0 || Qltb (t * t * s2) (d * d)
  end.

(** *** Quantiles *)

Fixpoint insert_sorted (x : Q) (s : list Q) : list Q :=
  match s with
  | [] => [x]
  | y :: r => if Qle_bool x y then x :: y :: r else y :: insert_sorted x r
  end.

Definition sort_ascending (vs : list Q) : list Q :=
  fold_right insert_sorted [] vs.

(** The point at fractional rank [(n - 1) * q] of the sorted values,
    interpolated linearly between its two neighbours. *)
Definition interpolate (q : Q) (s : list Q) : option Q :=
  match s with
  | [] => None
  | x0 :: _ =>
      let h := inject_Z (Z.of_nat (List.length s - 1)) * q in
      let lo := Z.to_nat (Qfloor h) in
      let g := h - inject_Z (Qfloor h) in
      let a := nth lo s x0 in
      let b := nth (S lo) s a in
      Some (a + g * (b - a))
  end.

(** [column.quantile(q)] with the default [interpolation='linear']: NaN
    cells are skipped; a column with no number left gives NaN. *)
Definition quantile (q : Q) (xs : list (option Q)) : option Q :=
  interpolate q (sort_ascending (dropna xs)).

(** Arithmetic and comparison with NaN. *)
Definition nan2 (f : Q -> Q -> Q) (x y : option Q) : option Q :=
  match x, y with
  | Some a, Some b => Some (f a b)
  | _, _ => None
  end.

Definition nan_lt (x y : option Q) : bool :=
  match x, y with
  | Some a, Some b => Qltb a b
  | _, _ => false
  end.

(** One column of
    [(numeric_df < (Q1 - 1.5 * IQR)) | (numeric_df > (Q3 + 1.5 * IQR))]. *)
Definition iqr_fence (xs : list (option Q)) : list bool :=
  let Q1 := quantile (1 # 4) xs in
  let Q3 := quantile (3 # 4) xs in
  let IQR := nan2 Qminus Q3 Q1 in
  let low := nan2 Qminus Q1 (nan2 Qmult (Some (3 # 2)) IQR) in
  let high := nan2 Qplus Q3 (nan2 Qmult (Some (3 # 2)) IQR) in
  map (fun v => nan_lt v low || nan_lt high v) xs.

(** One column of [np.abs(stats.zscore(numeric_df)) > threshold]. *)
Definition zscore_exceeds (threshold : Q) (xs : list (option Q)) : list bool :=
  let zscore := map np_abs (stats_zscore xs) in
  map (fun z => zval_gt z threshold) zscore.

(** ** Programs *)

Inductive exn : Type :=
| ValueError (msg : string)
| AttributeError (msg : string)
| KeyError (msg : string).

(** [str(e)] *)
Definition str (e : exn) : string :=
  match e with ValueError m | AttributeError m | KeyError m => m end.

Inductive outcome (A : Type) : Type :=
| Returned (a : A)
| Raised (e : exn).
Arguments Returned {A} a.
Arguments Raised {A} e.

(** A bar chart handed to [plt.show()]. *)
Record Figure : Type := { title : string; bars : list (string * Q) }.

Section Program.

(** The state of numpy's global random generator. *)
Variable rng : Type.

(** What a method can read and change: the table its object holds, the
    lines printed so far, the figures shown so far, and the global
    random generator. *)
Record Env : Type := {
  self_df : DataFrame;
  stdout : list string;
  shown : list Figure;
  np_random : rng
}.

Definition Py (A : Type) : Type := Env -> outcome A * Env.

Definition ret {A : Type} (a : A) : Py A := fun e => (Returned a, e).

Definition raise {A : Type} (x : exn) : Py A := fun e => (Raised x, e).

Definition bind {A B : Type} (m : Py A) (k : A -> Py B) : Py B :=
  fun e => match m e with
           | (Returned a, e') => k a e'
           | (Raised x, e') => (Raised x, e')
           end.

(** [try: body except Exception as e: handler(e)] *)
Definition try_except {A : Type} (body : Py A) (handler : exn -> Py A)
  : Py A :=
  fun e => match body e with
           | (Returned a, e') => (Returned a, e')
           | (Raised x, e') => handler x e'
           end.

Definition get_df : Py DataFrame := fun e => (Returned (self_df e), e).

Definition print (line : string) : Py unit :=
  fun e => (Returned tt,
            {| self_df := self_df e; stdout := stdout e ++ [line];
               shown := shown e; np_random := np_random e |}).

(** [plt.figure(); sns.barplot(...); plt.title(...); plt.show()] *)
Definition show (f : Figure) : Py unit :=
  fun e => (Returned tt,
            {| self_df := self_df e; stdout := stdout e;
               shown := shown e ++ [f]; np_random := np_random e |}).

Definition get_random : Py rng := fun e => (Returned (np_random e), e).

Definition set_random (g : rng) : Py unit :=
  fun e => (Returned tt,
            {| self_df := self_df e; stdout := stdout e;
               shown := shown e; np_random := g |}).

End Program.

Arguments ret {rng A} a.
Arguments raise {rng A} x.
Arguments bind {rng A B} m k.
Arguments try_except {rng A} body handler.
Arguments get_df {rng}.
Arguments print {rng} line.
Arguments show {rng} f.
Arguments get_random {rng}.
Arguments set_random {rng} g.
Arguments self_df {rng} e.
Arguments stdout {rng} e.
Arguments shown {rng} e.
Arguments np_random {rng} e.

Notation "x <- m ;; k" := (bind m (fun x => k))
  (at level 61, m at next level, right associativity).
Notation "m ;;; k" := (bind m (fun _ => k))
  (at level 61, right associativity).

(** ** [OutlierDetector.detect_outliers] *)

Definition invalid_method : string :=
  "Invalid method. Use 'zscore' or 'iqr'. ".

Definition detect_outliers {rng : Type} (method : string) (threshold : Q)
  : Py rng DataFrame :=
  df <- get_df ;;
  let numeric_df := select_dtypes_number df in
  let outliers := empty_frame in
  if String.eqb method "zscore" then
    let mask := map (fun c => zscore_exceeds threshold (cells c))
                    (columns numeric_df) in
    let outliers := getitem_mask numeric_df
                      (any_axis1 (nrows numeric_df) mask) in
    ret outliers
  else if String.eqb method "iqr" then
    let mask := map (fun c => iqr_fence (cells c)) (columns numeric_df) in
    let outliers := getitem_mask numeric_df
                      (any_axis1 (nrows numeric_df) mask) in
    ret outliers
  else
    print invalid_method ;;;
    ret outliers.

(** ** [FeatureAnalyzer.feature_importance] *)

Definition ImportanceRanking : Type := list (string * Q).

(** What the method takes from scikit-learn and from pandas without the
    source fixing it: the generator behind a seed, the shuffled split, the
    fitted forest's importances, and the order [sort_values] leaves ties
    in. *)
Class Learner : Type := {
  rng : Type;
  (** [np.random.RandomState(seed)] *)
  RandomState : Z -> rng;
  (** the train and test row positions of a shuffled split of [n] rows *)
  shuffle_split : Q -> nat -> rng -> outcome (list nat * list nat) * rng;
  (** [RandomForestRegressor(n_estimators).fit(X, y).feature_importances_] *)
  forest_importances :
    nat -> DataFrame -> list (option Q) -> rng -> outcome (list Q) * rng;
  (** [frame.sort_values('importance', ascending=False)] *)
  sort_values_descending : ImportanceRanking -> ImportanceRanking;
  sort_values_permutes :
    forall l, Permutation (sort_values_descending l) l;
  sort_values_sorts :
    forall l, StronglySorted (fun a b => snd b <= snd a)
                             (sort_values_descending l)
}.

Section Analyzer.

Context {L : Learner}.

(** [check_random_state]: an integer seeds a generator of its own, [None]
    is numpy's global generator, which then advances. *)
Definition with_random_state {A : Type} (random_state : option Z)
  (f : rng -> outcome A * rng) : Py rng A :=
  match random_state with
  | Some seed => fun e => (fst (f (RandomState seed)), e)
  | None => g <- get_random ;;
            let (r, g') := f g in
            set_random g' ;;;
            (fun e => (r, e))
  end.

(** [train_test_split(X, y, test_size=..., random_state=...)] *)
Definition train_test_split (X : DataFrame) (y : list (option Q))
  (test_size : Q) (random_state : option Z)
  : Py rng (DataFrame * DataFrame * list (option Q) * list (option Q)) :=
  parts <- with_random_state random_state
             (shuffle_split test_size (nrows X)) ;;
  let (train, test) := parts : list nat * list nat in
  ret (iloc X train, iloc X test, take train y, take test y).

(** [RandomForestRegressor(n_estimators=..., random_state=...)] followed by
    [fit], read at [feature_importances_]. *)
Definition RandomForestRegressor_fit (n_estimators : nat)
  (random_state : option Z) (X : DataFrame) (y : list (option Q))
  : Py rng (list Q) :=
  with_random_state random_state (forest_importances n_estimators X y).

(** [df[key]] for one label: every column carrying it. *)
Definition getitem (df : DataFrame) (key : string) : list Column :=
  filter (fun c => String.eqb (name c) key) (columns df).

(** [df[keys]] for a list of labels. *)
Definition getitem_list (df : DataFrame) (keys : list string) : DataFrame :=
  {| index := index df; columns := flat_map (getitem df) keys |}.

(** [df[key].dtype]: a label carried by several columns selects a frame,
    which has no [dtype]. *)
Definition getitem_series (df : DataFrame) (key : string) : Py rng Column :=
  match getitem df key with
  | [c] => ret c
  | [] => raise (KeyError key)
  | _ => raise (AttributeError "'DataFrame' object has no attribute 'dtype'")
  end.

(** [df.drop(columns=[key], errors='ignore')] *)
Definition drop (df : DataFrame) (key : string) : DataFrame :=
  {| index := index df;
     columns := filter (fun c => negb (String.eqb (name c) key))
                       (columns df) |}.

(** [df.empty] *)
Definition empty (df : DataFrame) : bool :=
  (nrows df =? 0)%nat || (List.length (columns df) =? 0)%nat.

Fixpoint insert_level (v : string) (s : list string) : list string :=
  match s with
  | [] => [v]
  | w :: r => if String.eqb v w then s
              else if String.leb v w then v :: s
              else w :: insert_level v r
  end.

(** The distinct values of a text column, sorted. *)
Definition levels (xs : list string) : list string :=
  fold_right insert_level [] xs.

(** The indicator columns of one column: none unless it is a text column. *)
Definition dummies (c : Column) : list Column :=
  match values c with
  | ObjCol xs =>
      map (fun v => {| name := name c ++ "_" ++ v;
                       values := BoolCol (map (String.eqb v) xs) |})
          (levels xs)
  | _ => []
  end.

Definition is_object (v : coldata) : bool :=
  match v with ObjCol _ => true | _ => false end.

(** [pd.get_dummies(X)]: the columns that are not text, then the indicator
    columns of each text column. *)
Definition get_dummies (X : DataFrame) : DataFrame :=
  {| index := index X;
     columns := filter (fun c => negb (is_object (values c))) (columns X)
                ++ flat_map dummies (columns X) |}.

(** [pd.DataFrame({'feature': ..., 'importance': ...})] *)
Definition feature_frame (feature : list string) (importance : list Q)
  : Py rng ImportanceRanking :=
  if (List.length feature =? List.length importance)%nat
  then ret (combine feature importance)
  else raise (ValueError "All arrays must be of same length").

Definition target_not_found (target_column : string) : string :=
  "Target Column '" ++ target_column ++ "' not founded in the dataset.".

Definition target_not_numeric (target_column : string) : string :=
  "Error: Target Column '" ++ target_column ++ "' must be numeric.".

Definition no_features : string :=
  "Error: No numberic features founded for analysis".

Definition analysis_failed (e : exn) : string :=
  "An error occured during feature importance analysis: " ++ str e.

Definition top10_title (target_column : string) : string :=
  "Top 10 important features for '" ++ target_column ++ "'".

(** The feature table [X] and the target [y] as the method builds them. *)
Definition features (df : DataFrame) (target_column : string) : DataFrame :=
  let numeric_columns := map name (columns (select_dtypes_number df)) in
  drop (getitem_list df numeric_columns) target_column.

(** Every [return] of the method is a bare one and its end falls through:
    the value handed back is Python's [None] on every path. *)
Definition feature_importance (target_column : string)
  : Py rng (option ImportanceRanking) :=
  df <- get_df ;;
  if negb (existsb (String.eqb target_column) (map name (columns df))) then
    print (target_not_found target_column) ;;;
    ret None
  else
    target <- getitem_series df target_column ;;
    if negb (is_number (values target)) then
      print (target_not_numeric target_column) ;;;
      ret None
    else
      let X := features df target_column in
      let y := target in
      if empty X then
        print no_features ;;;
        ret None
      else
        try_except
          (let X := get_dummies X in
           split <- train_test_split X (cells y) (1 # 5) (Some 42%Z) ;;
           let '(X_train, X_test, y_train, y_test) := split in
           importances <- RandomForestRegressor_fit 100 (Some 42%Z)
                            X_train y_train ;;
           frame <- feature_frame (map name (columns X)) importances ;;
           let feature_importance := sort_values_descending frame in
           show {| title := top10_title target_column;
                   bars := firstn 10 feature_importance |} ;;;
           ret None)
          (fun e => print (analysis_failed e) ;;; ret None).

End Analyzer.

(** ** Rows *)

Inductive cell : Type :=
| NumCell (x : option Q)
| BoolCell (b : bool)
| ObjCell (s : string).

Definition cell_at (v : coldata) (i : nat) : option cell :=
  match v with
  | NumCol xs => option_map NumCell (nth_error xs i)
  | BoolCol xs => option_map BoolCell (nth_error xs i)
  | ObjCol xs => option_map ObjCell (nth_error xs i)
  end.

(** The row at position [i]: its index label and its cells, column by
    column. *)
Definition row (df : DataFrame) (i : nat)
  : option (Z * list (string * option cell)) :=
  match nth_error (index df) i with
  | Some label =>
      Some (label,
            map (fun c => (name c, cell_at (values c) i)) (columns df))
  | None => None
  end.

Definition height (v : coldata) : nat :=
  match v with
  | NumCol xs => List.length xs
  | BoolCol xs => List.length xs
  | ObjCol xs => List.length xs
  end.

(** The invariant pandas keeps: every column is as long as the index. *)
Definition aligned (df : DataFrame) : Prop :=
  Forall (fun c => height (values c) = nrows df) (columns df).

(** ** What the specification says of a flagged cell *)

(** Row [i] of column [c] has [|value - mean| / stddev > t], with the
    population mean and standard deviation of the column. *)
Definition zscore_flagged (t : Q) (c : Column) (i : nat) : Prop :=
  exists v vs,
    nth_error (cells c) i = Some (Some v) /\
    all_numbers (cells c) = Some vs /\
    ~ variance vs == 0 /\
    (Rabs (Q2R v - Q2R (mean vs)) / sqrt (Q2R (variance vs)) > Q2R t)%R.

(** Row [i] of column [c] lies strictly outside
    [[Q1 - 1.5 * IQR, Q3 + 1.5 * IQR]]. *)
Definition iqr_flagged (c : Column) (i : nat) : Prop :=
  exists v q1 q3,
    nth_error (cells c) i = Some (Some v) /\
    quantile (1 # 4) (cells c) = Some q1 /\
    quantile (3 # 4) (cells c) = Some q3 /\
    (v < q1 - (3 # 2) * (q3 - q1) \/ q3 + (3 # 2) * (q3 - q1) < v).

(** [r] is the [p]-th quantile of [vs] by linear interpolation: on some
    ascending rearrangement [s] of [vs], [r] sits at fractional rank
    [(n - 1) * p], between the order statistics [a] and [b] around it. *)
Definition linear_quantile (p : Q) (vs : list Q) (r : Q) : Prop :=
  exists s k a b,
    Permutation s vs /\
    StronglySorted Qle s /\
    (inject_Z (Z.of_nat k) <= inject_Z (Z.of_nat (List.length s - 1)) * p
       < inject_Z (Z.of_nat k) + 1) /\
    nth_error s k = Some a /\
    (nth_error s (S k) = Some b \/ (S k = List.length s /\ b = a)) /\
    r = a + (inject_Z (Z.of_nat (List.length s - 1)) * p
             - inject_Z (Z.of_nat k)) * (b - a).

(** ** What the specification says of a result *)

(** [outliers] is a row-subset of [numeric_df]: it has no column name that
    [numeric_df] lacks, and each of its rows is a row of [numeric_df]. *)
Definition row_subset (outliers numeric_df : DataFrame) : Prop :=
  incl (map name (columns outliers)) (map name (columns numeric_df)) /\
  forall j r, row outliers j = Some r ->
              exists i, row numeric_df i = Some r.

(** The rows of [outliers] are rows of [numeric_df] in the order they have
    there: row [j] of the one is row [ps[j]] of the other, for ascending
    positions [ps]. *)
Definition in_input_order (outliers numeric_df : DataFrame) : Prop :=
  exists ps : list nat,
    StronglySorted lt ps /\
    List.length ps = nrows outliers /\
    forall j p, nth_error ps j = Some p ->
                row numeric_df p <> None /\
                row outliers j = row numeric_df p.

(** ** A table to run the methods on *)

Definition sample_df : DataFrame :=
  {| index := [0; 1; 2; 3; 4]%Z;
     columns :=
       [ {| name := "x";
            values := NumCol [Some 1; Some 1; Some 1; Some 1; Some 100] |};
         {| name := "k";
            values := NumCol [Some 5; Some 5; Some 5; Some 5; Some 5] |};
         {| name := "label";
            values := ObjCol ["a"; "b"; "a"; "b"; "a"] |};
         {| name := "y";
            values := NumCol [Some 2; Some 4; Some 6; Some 8; Some 10] |} ]
  |}.

Definition sample_target : Column :=
  {| name := "y";
     values := NumCol [Some 2; Some 4; Some 6; Some 8; Some 10] |}.

Definition env_of {rng : Type} (g : rng) (df : DataFrame) : Env rng :=
  {| self_df := df; stdout := []; shown := []; np_random := g |}.

(** ** What a call leaves behind *)

Definition after_print {rng : Type} (e : Env rng) (line : string) : Env rng :=
  {| self_df := self_df e; stdout := stdout e ++ [line];
     shown := shown e; np_random := np_random e |}.

Definition after_show {rng : Type} (e : Env rng) (f : Figure) : Env rng :=
  {| self_df := self_df e; stdout := stdout e;
     shown := shown e ++ [f]; np_random := np_random e |}.

Section Ranking.

Context {L : Learner}.

(** The frame the method sorts and charts, or the exception its [try]
    block stops at: split and forest both run on generators seeded 42. *)
Definition fitted_ranking (df : DataFrame) (target_column : string)
  (y : list (option Q)) : outcome ImportanceRanking :=
  let X := get_dummies (features df target_column) in
  match fst (shuffle_split (1 # 5) (nrows X) (RandomState 42)) with
  | Raised x => Raised x
  | Returned (train, test) =>
      match fst (forest_importances 100 (iloc X train) (take train y)
                                    (RandomState 42)) with
      | Raised x => Raised x
      | Returned importances =>
          if (List.length (columns X) =? List.length importances)%nat
          then Returned (sort_values_descending
                           (combine (map name (columns X)) importances))
          else Raised (ValueError "All arrays must be of same length")
      end
  end.

(** The three checks the method makes before it fits anything. *)
Definition target_exists (df : DataFrame) (target_column : string) : Prop :=
  In target_column (map name (columns df)).

Definition target_is_numeric (df : DataFrame) (target_column : string)
  : Prop :=
  exists c, getitem df target_column = [c] /\ is_number (values c) = true.

Definition feature_remains (df : DataFrame) (target_column : string) : Prop :=
  exists c, In c (columns df) /\ is_number (values c) = true /\
            name c <> target_column.

End Ranking.

(** ** A learner to run the method on *)

(** A descending insertion sort that keeps ties in the order given. *)
Fixpoint insert_descending (a : string * Q) (l : ImportanceRanking)
  : ImportanceRanking :=
  match l with
  | [] => [a]
  | b :: r => if Qltb (snd a) (snd b) then b :: insert_descending a r
              else a :: l
  end.

Definition sort_descending (l : ImportanceRanking) : ImportanceRanking :=
  fold_right insert_descending [] l.

(** The split without the shuffle: the first rows train, the last
    [ceil(test_size * n)] test; an empty training set is refused. *)
Definition plain_split (test_size : Q) (n : nat) (g : nat)
  : outcome (list nat * list nat) * nat :=
  let n_test := Z.to_nat (Qceiling (test_size * inject_Z (Z.of_nat n))) in
  let n_train := (n - n_test)%nat in
  if (n_train =? 0)%nat
  then (Raised (ValueError "the resulting train set will be empty"), g)
  else (Returned (seq 0 n_train, seq n_train n_test), S g).

(** Importances that grow with the column position and sum to one. *)
Definition ramp_importances (n_estimators : nat) (X : DataFrame)
  (y : list (option Q)) (g : nat) : outcome (list Q) * nat :=
  let k := List.length (columns X) in
  let total := inject_Z (Z.of_nat (k * (k + 1) / 2)) in
  (Returned (map (fun i => Qred (inject_Z (Z.of_nat (S i)) / total))
                 (seq 0 k)),
   S g).

(** A table whose only numeric column is the target. *)
Definition target_only_df : DataFrame :=
  {| index := [0; 1; 2]%Z;
     columns :=
       [ {| name := "label"; values := ObjCol ["a"; "b"; "a"] |};
         {| name := "y"; values := NumCol [Some 2; Some 4; Some 6] |} ] |}.

(** ** A change of unit *)

(** The column with every number [v] replaced by [k * v + c]; NaN stays
    NaN. *)
Definition rescale (k c : Q) (xs : list (option Q)) : list (option Q) :=
  map (option_map (fun v => k * v + c)) xs.

(** The table with each numeric column rescaled by the pair [unit] gives
    for its name; the other columns and the index are kept. *)
Definition rescale_frame (unit : string -> Q * Q) (df : DataFrame)
  : DataFrame :=
  {| index := index df;
     columns :=
       map (fun c =>
              match values c with
              | NumCol xs =>
                  {| name := name c;
                     values := NumCol (rescale (fst (unit (name c)))
                                               (snd (unit (name c))) xs) |}
              | _ => c
              end)
           (columns df) |}.

(** The same state around another table. *)
Definition with_df {rng : Type} (e : Env rng) (df : DataFrame) : Env rng :=
  {| self_df := df; stdout := stdout e; shown := shown e;
     np_random := np_random e |}.

(** ** Logging and the other exceptions *)

Inductive level : Type := INFO | WARNING | ERROR.

(** One call of [logging.info], [logging.warning], [logging.error] or
    [logging.exception]: its level and its message. *)
Definition LogRecord : Type := (level * string)%type.

(** What the remaining classes raise: [ValueError] is [Other (ValueError
    _)]. *)
Inductive raised : Type :=
| TypeError (msg : string)
| FileNotFoundError (msg : string)
| Other (e : exn).

Inductive result (A : Type) : Type :=
| Done (a : A)
| Failed (r : raised).
Arguments Done {A} a.
Arguments Failed {A} r.

(** [str(n)] for an integer. *)
Definition str_int (n : Z) : string :=
  DecimalString.NilZero.string_of_int (Z.to_int n).

(** ** [DataCleaner] *)

Module DataCleaner.

(** The object and the log records written so far. *)
Record state : Type := {
  df : DataFrame;
  changes_log : list string;
  logged : list LogRecord
}.

(** [DataCleaner(df)]: the cleaner works on a copy. *)
Definition init (table : DataFrame) (earlier : list LogRecord) : state :=
  {| df := table; changes_log := []; logged := earlier |}.

Definition log (l : level) (msg : string) (s : state) : state :=
  {| df := df s; changes_log := changes_log s;
     logged := logged s ++ [(l, msg)] |}.

(** The argument of [drop_columns]: a string, a list of strings, or
    anything else. *)
Inductive columns_arg : Type :=
| OneName (column : string)
| Names (columns : list string)
| NotNames.

(** The argument of [drop_rows]: a tuple of two integers, or anything
    else. *)
Inductive range_arg : Type :=
| Range (start_idx end_idx : Z)
| NotRange.

Definition mem (x : string) (l : list string) : bool :=
  existsb (String.eqb x) l.

(** [df.columns] *)
Definition column_names (table : DataFrame) : list string :=
  map name (columns table).

(** [df.drop(columns=labels)] *)
Definition drop_column_labels (table : DataFrame) (labels : list string)
  : DataFrame :=
  {| index := index table;
     columns := filter (fun c => negb (mem (name c) labels))
                       (columns table) |}.

(** [df.drop(labels)] along the rows: every row carrying one of the labels
    goes. *)
Definition drop_row_labels (table : DataFrame) (labels : list Z)
  : DataFrame :=
  getitem_mask table
    (map (fun l => negb (existsb (Z.eqb l) labels)) (index table)).

Section Formatting.

(** How an f-string prints a list of strings. *)
Variable format_list : list string -> string.

Definition drop_columns (columns : columns_arg) (s : state)
  : result DataFrame * state :=
  let must_be_names :=
    "The 'columns' argument must be a string or a list of strings." in
  let none_found :=
    "None of the specified columns were found in the DataFrame." in
  match match columns with
        | OneName column => Some [column]
        | Names columns => Some columns
        | NotNames => None
        end with
  | None => (Failed (TypeError must_be_names), log ERROR must_be_names s)
  | Some columns_to_drop =>
      let valid_columns :=
        filter (fun col => mem col (column_names (df s)))
               columns_to_drop in
      match valid_columns with
      | _ :: _ =>
          let table := drop_column_labels (df s) valid_columns in
          let message :=
            "Dropped columns: " ++ format_list valid_columns ++ "." in
          (Done table,
           {| df := table;
              changes_log := changes_log s ++ [message];
              logged := logged s ++ [(INFO, message)] |})
      | [] =>
          (Failed (Other (ValueError none_found)), log ERROR none_found s)
      end
  end.

End Formatting.

Definition drop_rows (index_range : range_arg) (s : state)
  : result DataFrame * state :=
  let must_be_pair :=
    "The 'index_range' must be a tuple of two integers (start, end)." in
  let out_of_bounds :=
    "Invalid index range. Indices must be within the DataFrame's index bounds."
  in
  match index_range with
  | NotRange => (Failed (TypeError must_be_pair), log ERROR must_be_pair s)
  | Range start_idx end_idx =>
      let num_rows := Z.of_nat (nrows (df s)) in
      if ((0 <=? start_idx) && (start_idx <=? end_idx)
          && (end_idx <? num_rows))%Z
      then
        let indices_to_drop :=
          firstn (Z.to_nat (end_idx + 1) - Z.to_nat start_idx)
                 (skipn (Z.to_nat start_idx) (index (df s))) in
        let table := drop_row_labels (df s) indices_to_drop in
        let message :=
          "Dropped rows from index " ++ str_int start_idx ++ " to "
          ++ str_int end_idx ++ "." in
        (Done table,
         {| df := table;
            changes_log := changes_log s ++ [message];
            logged := logged s ++ [(INFO, message)] |})
      else
        (Failed (Other (ValueError out_of_bounds)),
         log ERROR out_of_bounds s)
  end.

(** [show_changes_log] *)
Definition show_changes_log (s : state) : state :=
  match changes_log s with
  | [] => log INFO "No changes made yet." s
  | entries =>
      {| df := df s; changes_log := changes_log s;
         logged := logged s ++ map (fun entry => (INFO, entry)) entries |}
  end.

(** [get_clean_data] *)
Definition get_clean_data (s : state) : DataFrame := df s.

End DataCleaner.

(** ** [DataLoader] *)

(** [str(e)] *)
Definition str_raised (r : raised) : string :=
  match r with
  | TypeError msg => msg
  | FileNotFoundError msg => msg
  | Other e => str e
  end.

Module DataLoader.

(** The files as one call finds them: whether a path exists, and what
    each pandas reader returns or raises for a path and keyword
    arguments. *)
Record FileSystem (kwargs : Type) : Type := {
  os_path_exists : string -> bool;
  read_csv : string -> kwargs -> result DataFrame;
  read_json : string -> kwargs -> result DataFrame;
  read_parquet : string -> kwargs -> result DataFrame
}.
Arguments os_path_exists {kwargs} f path.
Arguments read_csv {kwargs} f path kw.
Arguments read_json {kwargs} f path kw.
Arguments read_parquet {kwargs} f path kw.

(** The object and the log records written so far. *)
Record state : Type := {
  file_path : string;
  file_format : string;
  df : option DataFrame;
  selected_columns : option DataFrame;
  logged : list LogRecord
}.

Definition log (l : level) (msg : string) (s : state) : state :=
  {| file_path := file_path s; file_format := file_format s;
     df := df s; selected_columns := selected_columns s;
     logged := logged s ++ [(l, msg)] |}.

(** [df.shape] as an f-string prints it. *)
Definition shape (table : DataFrame) : string :=
  "(" ++ str_int (Z.of_nat (nrows table)) ++ ", "
  ++ str_int (Z.of_nat (List.length (columns table))) ++ ")".

Section Strings.

(** [os.path.splitext(path)[1]], [str.lower] and the way an f-string
    prints a list of strings. *)
Variable splitext_ext : string -> string.
Variable lower : string -> string.
Variable format_list : list string -> string.

Definition _infer_format (path : string) (earlier : list LogRecord)
  : result string * list LogRecord :=
  let ext := lower (splitext_ext path) in
  if String.eqb ext ".csv" then (Done "csv", earlier)
  else if String.eqb ext ".json" then (Done "json", earlier)
  else if String.eqb ext ".parquet" then (Done "parquet", earlier)
  else
    let msg := "Unsupported file extension '" ++ ext ++ "' for file: "
               ++ path in
    (Failed (Other (ValueError msg)), (earlier ++ [(ERROR, msg)])%list).

Section Files.

Variable kwargs : Type.

Definition _load_data (fs : FileSystem kwargs) (loader_kwargs : kwargs)
  (s : state) : result unit * state :=
  if negb (os_path_exists fs (file_path s)) then
    let msg := "File not found: " ++ file_path s in
    (Failed (FileNotFoundError msg), log ERROR msg s)
  else
    let read :=
      if String.eqb (file_format s) "csv"
      then (read_csv fs (file_path s) loader_kwargs, s)
      else if String.eqb (file_format s) "json"
      then (read_json fs (file_path s) loader_kwargs, s)
      else if String.eqb (file_format s) "parquet"
      then (read_parquet fs (file_path s) loader_kwargs, s)
      else
        let msg := "Unsupported file format: " ++ file_format s in
        (Failed (Other (ValueError msg)), log ERROR msg s) in
    match read with
    | (Done table, s1) =>
        (Done tt,
         {| file_path := file_path s1; file_format := file_format s1;
            df := Some table; selected_columns := Some table;
            logged := logged s1
                      ++ [(INFO, ("Data loaded successfully from '"
                                  ++ file_path s1 ++ "' with shape "
                                  ++ shape table ++ ".")%string)] |})
    | (Failed e, s1) =>
        (Failed e,
         log ERROR ("Failed to load data from '" ++ file_path s1
                    ++ "'. Error: " ++ str_raised e) s1)
    end.

(** [DataLoader(file_path, file_format, **loader_kwargs)]: the object, when
    no exception leaves the constructor. *)
Definition init (fs : FileSystem kwargs) (path : string)
  (format : option string) (loader_kwargs : kwargs)
  (earlier : list LogRecord) : result state * list LogRecord :=
  let chosen :=
    match format with
    | Some f => if String.eqb f "" then _infer_format path earlier
                else (Done (lower f), earlier)
    | None => _infer_format path earlier
    end in
  match chosen with
  | (Failed e, records) => (Failed e, records)
  | (Done f, records) =>
      let s := {| file_path := path; file_format := f; df := None;
                  selected_columns := None; logged := records |} in
      match _load_data fs loader_kwargs s with
      | (Done _, s') => (Done s', logged s')
      | (Failed e, s') => (Failed e, logged s')
      end
  end.

Definition select_columns (column_names : option (list string)) (s : state)
  : result DataFrame * state :=
  match df s with
  | None =>
      (Failed (Other (ValueError "Data not loaded.")),
       log ERROR "Data not loaded. Cannot select columns." s)
  | Some table =>
      match column_names with
      | Some (n :: rest) =>
          let available_columns :=
            filter (fun col => existsb (String.eqb col)
                                       (map name (columns table)))
                   (n :: rest) in
          match available_columns with
          | _ :: _ =>
              let selected := getitem_list table available_columns in
              (Done selected,
               {| file_path := file_path s; file_format := file_format s;
                  df := df s; selected_columns := Some selected;
                  logged := logged s
                            ++ [(INFO, ("Selected columns: "
                                        ++ format_list available_columns)%string)]
               |})
          | [] =>
              (Done empty_frame,
               {| file_path := file_path s; file_format := file_format s;
                  df := df s; selected_columns := Some empty_frame;
                  logged := logged s
                            ++ [(WARNING,
                                 "No matching columns found. Returning an empty DataFrame.")]
               |})
          end
      | _ =>
          (Done table,
           {| file_path := file_path s; file_format := file_format s;
              df := df s; selected_columns := Some table;
              logged := logged s
                        ++ [(INFO,
                             "No specific columns selected. Using all columns.")]
           |})
      end
  end.

Definition get_dataframe (s : state) : result DataFrame * state :=
  match df s with
  | None => (Failed (Other (ValueError "Data not loaded.")),
             log ERROR "Data not loaded." s)
  | Some table => (Done table, s)
  end.

Definition get_selected_columns (s : state) : result DataFrame * state :=
  match selected_columns s with
  | None => (Failed (Other (ValueError "Selected columns not set.")),
             log ERROR
               "Selected columns not set. Please use select_columns() first."
               s)
  | Some table => (Done table, s)
  end.

Definition reload_data (fs : FileSystem kwargs) (loader_kwargs : kwargs)
  (s : state) : result unit * state :=
  match _load_data fs loader_kwargs s with
  | (Done _, s') => (Done tt, log INFO "Data reloaded successfully." s')
  | (Failed e, s') => (Failed e, s')
  end.

(** One call on a loader, and the state it leaves, raised or not. *)
Inductive call : Type :=
| SelectColumns (column_names : option (list string))
| GetDataframe
| GetSelectedColumns
| ReloadData (fs : FileSystem kwargs) (loader_kwargs : kwargs).

Definition after (c : call) (s : state) : state :=
  match c with
  | SelectColumns column_names => snd (select_columns column_names s)
  | GetDataframe => snd (get_dataframe s)
  | GetSelectedColumns => snd (get_selected_columns s)
  | ReloadData fs loader_kwargs => snd (reload_data fs loader_kwargs s)
  end.

End Files.

End Strings.

End DataLoader.

(** ** Paths and files to run the loader on *)

Definition ascii_lower (c : Ascii.ascii) : Ascii.ascii :=
  let n := Ascii.nat_of_ascii c in
  if ((65 <=? n) && (n <=? 90))%nat then Ascii.ascii_of_nat (n + 32) else c.

(** [str.lower] on ASCII strings. *)
Fixpoint lower_ascii (s : string) : string :=
  match s with
  | EmptyString => EmptyString
  | String c r => String (ascii_lower c) (lower_ascii r)
  end.

(** The part of a string after its last occurrence of [sep], the whole
    string when there is none. *)
Fixpoint after_last (sep : Ascii.ascii) (s : string) : string :=
  match s with
  | EmptyString => EmptyString
  | String c r =>
      if existsb (Ascii.eqb sep) (list_ascii_of_string r) then after_last sep r
      else if Ascii.eqb c sep then r else s
  end.

(** The extension of a file name without directory: from its last dot on,
    unless only dots come before that dot. *)
Fixpoint name_ext (only_dots : bool) (base : string) : string :=
  match base with
  | EmptyString => EmptyString
  | String c r =>
      if Ascii.eqb c "."%char then
        if existsb (Ascii.eqb "."%char) (list_ascii_of_string r)
        then name_ext only_dots r
        else if only_dots then EmptyString else base
      else name_ext false r
  end.

(** [posixpath.splitext(path)[1]] *)
Definition posix_splitext_ext (path : string) : string :=
  name_ext true (after_last "/"%char path).

(** A directory holding the one file "data.csv", whose content reads as
    the sample table by any reader. *)
Definition sample_files : DataLoader.FileSystem unit :=
  {| DataLoader.os_path_exists := String.eqb "data.csv";
     DataLoader.read_csv := fun _ _ => Done sample_df;
     DataLoader.read_json := fun _ _ => Done sample_df;
     DataLoader.read_parquet := fun _ _ => Done sample_df |}.

(** The same directory after the file was removed. *)
Definition no_files : DataLoader.FileSystem unit :=
  {| DataLoader.os_path_exists := fun _ => false;
     DataLoader.read_csv := fun _ _ => Done sample_df;
     DataLoader.read_json := fun _ _ => Done sample_df;
     DataLoader.read_parquet := fun _ _ => Done sample_df |}.

Definition sample_loader : DataLoader.state :=
  {| DataLoader.file_path := "data.csv";
     DataLoader.file_format := "csv";
     DataLoader.df := Some sample_df;
     DataLoader.selected_columns := Some sample_df;
     DataLoader.logged :=
       [(INFO,
         "Data loaded successfully from 'data.csv' with shape (5, 4).")] |}.

(** ** [DataVisualizer.visualize_data_distribution] *)

Module DataVisualizer.

(** The axes of a figure in reading order: the title of each, [None] for
    an axes nothing was drawn on. *)
Definition Axes : Type := list (option string).

Record state : Type := {
  df : DataFrame;
  logged : list LogRecord;
  shown : list Axes
}.

(** [sns.histplot(..., ax=axes[i]); axes[i].set_title(title)]: [None] is
    the [IndexError] of [axes[i]], which the loop can only meet at the
    first index past the last axes. *)
Fixpoint draw (i : nat) (title : string) (axes : Axes) : option Axes :=
  match i, axes with
  | O, _ :: r => Some (Some title :: r)
  | S i', a :: r => option_map (cons a) (draw i' title r)
  | _, [] => None
  end.

(** The loop over [enumerate(numeric_cols)], from index [i] on. *)
Fixpoint draw_columns (i : nat) (numeric_cols : list string) (axes : Axes)
  : option Axes :=
  match numeric_cols with
  | [] => Some axes
  | col :: rest =>
      match draw i ("Distribution of " ++ col) axes with
      | Some axes' => draw_columns (S i) rest axes'
      | None => None
      end
  end.

Definition visualize_data_distribution (s : state) : state :=
  let numeric_cols := map name (columns (select_dtypes_number (df s))) in
  match numeric_cols with
  | [] =>
      {| df := df s;
         logged := logged s
                   ++ [(ERROR, "No numerical columns found in the DataFrame.")];
         shown := shown s |}
  | _ :: _ =>
      let n_cols := 3%nat in
      let n_rows := ((List.length numeric_cols - 1) / n_cols + 1)%nat in
      let axes := repeat None (n_rows * n_cols) in
      match draw_columns 0 numeric_cols axes with
      | Some axes' =>
          let i := (List.length numeric_cols - 1)%nat in
          {| df := df s;
             logged := logged s
                       ++ [(INFO,
                            "Data distribution plots displayed successfully.")];
             shown := shown s ++ [firstn (i + 1) axes'] |}
      | None =>
          {| df := df s;
             logged := logged s
                       ++ [(ERROR,
                            ("Failed to visualize data distribution: index "
                             ++ str_int (Z.of_nat (List.length axes))
                             ++ " is out of bounds for axis 0 with size "
                             ++ str_int (Z.of_nat (List.length axes)))%string)];
             shown := shown s |}
      end
  end.

End DataVisualizer.

(** ** Objects to run the other classes on *)

Definition none_found : string :=
  "None of the specified columns were found in the DataFrame.".

Definition sample_cleaner : DataCleaner.state :=
  DataCleaner.init sample_df [].

Definition out_of_bounds : string :=
  "Invalid index range. Indices must be within the DataFrame's index bounds.".

(** A table whose labels repeat: the label of row 0 is also the label of
    row 2. *)
Definition repeated_labels : DataFrame :=
  {| index := [7; 8; 7]%Z;
     columns := [ {| name := "x"; values := NumCol [Some 1; Some 2; Some 3] |} ]
  |}.

Definition repeated_labels_left : DataFrame :=
  {| index := [8]%Z;
     columns := [ {| name := "x"; values := NumCol [Some 2] |} ] |}.

Definition sample_visualizer : DataVisualizer.state :=
  {| DataVisualizer.df := sample_df;
     DataVisualizer.logged := [];
     DataVisualizer.shown := [] |}.

(** A loader that holds a table and a selection. *)
Definition loaded (s : DataLoader.state) : Prop :=
  DataLoader.df s <> None /\ DataLoader.selected_columns s <> None.

(** * Properties *)

(** ** Masks and positions *)

Lemma take_nil {A : Type} (ps : list nat) : take ps (@nil A) = [].
Proof.
  unfold take. induction ps as [|p ps IH]; simpl; [reflexivity|].
  rewrite IH. now destruct p.
Qed.

Lemma take_cons_S {A : Type} (x : A) (xs : list A) (ps : list nat) :
  take (map S ps) (x :: xs) = take ps xs.
Proof.
  unfold take. induction ps as [|p ps IH]; simpl; [reflexivity|].
  now rewrite IH.
Qed.

Lemma true_positions_shift (k : nat) (mask : list bool) :
  true_positions (S k) mask = map S (true_positions k mask).
Proof.
  revert k. induction mask as [|b m IH]; intros k; simpl; [reflexivity|].
  destruct b; simpl; now rewrite IH.
Qed.

Lemma mask_select_take {A : Type} (mask : list bool) (xs : list A) :
  mask_select mask xs = take (true_positions 0 mask) xs.
Proof.
  revert xs. induction mask as [|b m IH]; intros xs.
  - now destruct xs.
  - destruct xs as [|x r].
    + now rewrite take_nil.
    + simpl. rewrite true_positions_shift. destruct b.
      * change (take (0%nat :: map S (true_positions 0 m)) (x :: r))
          with (x :: take (map S (true_positions 0 m)) (x :: r)).
        now rewrite take_cons_S, IH.
      * now rewrite take_cons_S, IH.
Qed.

Lemma true_positions_In (mask : list bool) (k i : nat) :
  In i (true_positions k mask) <->
  (k <= i)%nat /\ nth (i - k) mask false = true.
Proof.
  revert k. induction mask as [|b m IH]; intros k; simpl.
  - split; [tauto|]. intros [_ H]. now destruct (i - k)%nat.
  - destruct b; simpl; rewrite IH.
    + split.
      * intros [<-|[Hk Hn]].
        -- split; [lia|]. now rewrite Nat.sub_diag.
        -- split; [lia|].
           replace (i - k)%nat with (S (i - S k)) by lia. exact Hn.
      * intros [Hk Hn]. destruct (Nat.eq_dec k i) as [->|Hne]; [now left|].
        right. split; [lia|].
        replace (i - k)%nat with (S (i - S k)) in Hn by lia. exact Hn.
    + split.
      * intros [Hk Hn]. split; [lia|].
        replace (i - k)%nat with (S (i - S k)) by lia. exact Hn.
      * intros [Hk Hn]. destruct (Nat.eq_dec k i) as [->|Hne].
        -- now rewrite Nat.sub_diag in Hn.
        -- split; [lia|].
           replace (i - k)%nat with (S (i - S k)) in Hn by lia. exact Hn.
Qed.

Lemma true_positions_sorted (mask : list bool) (k : nat) :
  StronglySorted lt (true_positions k mask).
Proof.
  revert k. induction mask as [|b m IH]; intros k; simpl.
  - constructor.
  - destruct b; [|apply IH].
    constructor; [apply IH|].
    apply Forall_forall. intros i Hi.
    apply true_positions_In in Hi. lia.
Qed.

Lemma true_positions_bound (mask : list bool) (i : nat) :
  In i (true_positions 0 mask) -> (i < List.length mask)%nat.
Proof.
  intros Hi. apply true_positions_In in Hi as [_ Hn].
  rewrite Nat.sub_0_r in Hn.
  destruct (Nat.lt_ge_cases i (List.length mask)) as [Hlt|Hge];
    [exact Hlt|].
  now rewrite nth_overflow in Hn.
Qed.

Lemma any_axis1_length (n : nat) (cols : list (list bool)) :
  List.length (any_axis1 n cols) = n.
Proof. unfold any_axis1. now rewrite length_map, length_seq. Qed.

Lemma any_axis1_nth (n : nat) (cols : list (list bool)) (i : nat) :
  nth i (any_axis1 n cols) false = true <->
  (i < n)%nat /\ exists col, In col cols /\ nth i col false = true.
Proof.
  unfold any_axis1. split.
  - intros H.
    destruct (Nat.lt_ge_cases i n) as [Hlt|Hge].
    + split; [exact Hlt|].
      rewrite nth_indep with (d' := existsb (fun col => nth 0 col false) cols)
        in H by now rewrite length_map, length_seq.
      rewrite (map_nth (fun i => existsb (fun col => nth i col false) cols))
        in H.
      rewrite seq_nth in H by exact Hlt. simpl in H.
      now apply existsb_exists in H.
    + rewrite nth_overflow in H by now rewrite length_map, length_seq.
      discriminate.
  - intros [Hlt Hex].
    rewrite nth_indep with (d' := existsb (fun col => nth 0 col false) cols)
      by now rewrite length_map, length_seq.
    rewrite (map_nth (fun i => existsb (fun col => nth i col false) cols)).
    rewrite seq_nth by exact Hlt. simpl.
    now apply existsb_exists.
Qed.

Lemma on_rows_ext (f g : forall A : Type, list A -> list A)
  (df : DataFrame) :
  (forall (A : Type) (xs : list A), f A xs = g A xs) ->
  on_rows f df = on_rows g df.
Proof.
  intros H. unfold on_rows. rewrite H. f_equal.
  apply map_ext. intros c. f_equal.
  destruct (values c); simpl; now rewrite H.
Qed.

(** Selecting by a mask is taking the rows at its true positions. *)
Lemma getitem_mask_iloc (df : DataFrame) (mask : list bool) :
  getitem_mask df mask = iloc df (true_positions 0 mask).
Proof.
  unfold getitem_mask, iloc. apply on_rows_ext.
  intros A xs. apply mask_select_take.
Qed.

(** ** Comparisons in [Q] and in [R] *)

Lemma Qltb_lt (x y : Q) : Qltb x y = true <-> x < y.
Proof.
  unfold Qltb. rewrite negb_true_iff. split.
  - intros H. apply Qnot_le_lt. intros Hle.
    apply Qle_bool_iff in Hle. congruence.
  - intros H. destruct (Qle_bool y x) eqn:E; [|reflexivity].
    apply Qle_bool_iff in E. exfalso. now apply (Qlt_not_le x y).
Qed.

Lemma Qltb_Rlt (x y : Q) : Qltb x y = true <-> (Q2R x < Q2R y)%R.
Proof.
  rewrite Qltb_lt. split; [apply Qlt_Rlt | apply Rlt_Qlt].
Qed.

Lemma Q2R_Qabs (d : Q) : Q2R (Qabs d) = Rabs (Q2R d).
Proof.
  apply Qabs_case; intros H.
  - apply Qle_Rle in H. rewrite RMicromega.Q2R_0 in H.
    now rewrite Rabs_right by lra.
  - apply Qle_Rle in H. rewrite RMicromega.Q2R_0 in H.
    rewrite Q2R_opp. rewrite Rabs_left1 by lra. reflexivity.
Qed.

(** Comparing [d / sqrt v] with [t] by squares. *)
Lemma ratio_gt_squares (d t v s : R) :
  (0 < s)%R -> (s * s = v)%R ->
  ((d / s > t)%R <->
   ((d < 0)%R /\ (d * d < t * t * v)%R /\ (t < 0)%R) \/
   ((0 <= d)%R /\ ((t < 0)%R \/ (t * t * v < d * d)%R))).
Proof.
  intros Hs Hv. subst v.
  assert (Hdiv : (d / s > t)%R <-> (t * s < d)%R).
  { unfold Rgt. split; intros H.
    - apply (Rmult_lt_compat_r s) in H; [|exact Hs].
      unfold Rdiv in H. rewrite Rmult_assoc, Rinv_l in H by lra. lra.
    - apply (Rmult_lt_reg_r s); [exact Hs|].
      unfold Rdiv. rewrite Rmult_assoc, Rinv_l by lra. lra. }
  rewrite Hdiv. split.
  - intros H. destruct (Rlt_le_dec d 0) as [Hd|Hd].
    + left. assert (Ht : (t < 0)%R) by nra.
      repeat split; [exact Hd | nra | exact Ht].
    + right. split; [exact Hd|].
      destruct (Rlt_le_dec t 0) as [Ht|Ht]; [now left|right].
      assert (Hts : (0 <= t * s)%R) by nra.
      replace (t * t * (s * s))%R with ((t * s) * (t * s))%R by ring.
      nra.
  - intros [[Hd [Hsq Ht]]|[Hd [Ht|Hsq]]].
    + replace (t * t * (s * s))%R with ((t * s) * (t * s))%R in Hsq by ring.
      assert (Hts : (t * s < 0)%R) by nra.
      nra.
    + nra.
    + replace (t * t * (s * s))%R with ((t * s) * (t * s))%R in Hsq by ring.
      destruct (Rlt_le_dec (t * s) d) as [H|H]; [exact H|].
      destruct (Rlt_le_dec t 0) as [Ht|Ht]; nra.
Qed.

Lemma zval_gt_real (d s2 t : Q) :
  0 < s2 ->
  zval_gt (ZRatio d s2) t = true <-> (Q2R d / sqrt (Q2R s2) > Q2R t)%R.
Proof.
  intros Hpos. apply Qlt_Rlt in Hpos. rewrite RMicromega.Q2R_0 in Hpos.
  rewrite (ratio_gt_squares (Q2R d) (Q2R t) (Q2R s2) (sqrt (Q2R s2)));
    [| now apply sqrt_lt_R0 | apply sqrt_sqrt; lra].
  unfold zval_gt.
  destruct (Qltb d 0) eqn:Ed.
  - apply Qltb_Rlt in Ed. rewrite RMicromega.Q2R_0 in Ed.
    rewrite andb_true_iff, !Qltb_Rlt, !Q2R_mult, RMicromega.Q2R_0.
    split.
    + intros [H1 H2]. left. now repeat split.
    + intros [[_ [H1 H2]]|[H _]]; [now split | lra].
  - assert (Hd : (0 <= Q2R d)%R).
    { destruct (Rlt_le_dec (Q2R d) 0) as [H|H]; [|exact H].
      rewrite <- RMicromega.Q2R_0 in H. apply Qltb_Rlt in H. congruence. }
    rewrite orb_true_iff, !Qltb_Rlt, !Q2R_mult, RMicromega.Q2R_0.
    split.
    + intros H. right. now split.
    + intros [[H _]|[_ H]]; [lra | exact H].
Qed.

(** ** Mean and variance *)

Lemma Qsum_nonneg (vs : list Q) :
  Forall (fun v => 0 <= v) vs -> 0 <= Qsum vs.
Proof.
  induction 1 as [|v r Hv _ IH]; simpl; [apply Qle_refl|].
  apply Qle_trans with (0 + 0); [apply Qle_refl|].
  now apply Qplus_le_compat.
Qed.

Lemma count_nonneg (vs : list Q) : 0 <= count vs.
Proof.
  unfold count, Qle. simpl. lia.
Qed.

Lemma mean_nonneg (vs : list Q) :
  Forall (fun v => 0 <= v) vs -> 0 <= mean vs.
Proof.
  intros H. unfold mean, Qdiv.
  apply Qmult_le_0_compat; [now apply Qsum_nonneg|].
  apply Qinv_le_0_compat, count_nonneg.
Qed.

Lemma variance_nonneg (vs : list Q) : 0 <= variance vs.
Proof.
  unfold variance. apply mean_nonneg.
  apply Forall_forall. intros x Hx.
  apply in_map_iff in Hx as [v [<- _]].
  generalize (v - mean vs). intros d.
  destruct (Qlt_le_dec d 0) as [H|H].
  - setoid_replace (d * d) with ((- d) * (- d)) by ring.
    apply Qmult_le_0_compat; Lqa.lra.
  - now apply Qmult_le_0_compat.
Qed.

Lemma variance_pos (vs : list Q) : ~ variance vs == 0 -> 0 < variance vs.
Proof.
  intros H. pose proof (variance_nonneg vs) as Hn.
  apply Qle_lteq in Hn as [Hlt|Heq]; [exact Hlt|].
  exfalso. apply H. now symmetry.
Qed.

Lemma all_numbers_Some (xs : list (option Q)) (vs : list Q) :
  all_numbers xs = Some vs <-> xs = map Some vs.
Proof.
  revert vs. induction xs as [|[x|] r IH]; intros vs; simpl.
  - split; [intros [= <-]; reflexivity|]. now destruct vs.
  - destruct (all_numbers r) as [ws|] eqn:E.
    + split.
      * intros [= <-]. simpl. f_equal. now apply IH.
      * destruct vs as [|v vs']; [discriminate|].
        intros [= -> Hr]. f_equal. f_equal.
        apply IH in Hr. congruence.
    + split; [discriminate|].
      destruct vs as [|v vs']; [discriminate|].
      intros [= -> Hr]. apply IH in Hr. discriminate.
  - split; [discriminate|]. now destruct vs.
Qed.

Lemma nth_map_true {A : Type} (f : A -> bool) (l : list A) (i : nat) :
  nth i (map f l) false = true <->
  exists x, nth_error l i = Some x /\ f x = true.
Proof.
  revert i. induction l as [|a l IH]; intros i; simpl.
  - split.
    + now destruct i.
    + intros [x [H _]]. now destruct i.
  - destruct i as [|i]; simpl.
    + split; [intros H; now exists a|]. now intros [x [[= ->] H]].
    + apply IH.
Qed.

(** ** The two masks, cell by cell *)

Lemma zscore_exceeds_nth (t : Q) (xs : list (option Q)) (i : nat) :
  nth i (zscore_exceeds t xs) false = true <->
  exists v vs,
    nth_error xs i = Some (Some v) /\
    all_numbers xs = Some vs /\
    ~ variance vs == 0 /\
    (Rabs (Q2R v - Q2R (mean vs)) / sqrt (Q2R (variance vs)) > Q2R t)%R.
Proof.
  unfold zscore_exceeds, stats_zscore. rewrite map_map.
  destruct (all_numbers xs) as [vs|] eqn:Hall.
  - apply all_numbers_Some in Hall. subst xs.
    destruct (Qeq_bool (variance vs) 0) eqn:Hvar.
    + apply Qeq_bool_iff in Hvar. rewrite map_map, nth_map_true. split.
      * intros [x [_ H]]. discriminate.
      * intros [v [vs' [_ [[= <-] [Hne _]]]]]. contradiction.
    + assert (Hne : ~ variance vs == 0).
      { intros H. apply Qeq_bool_iff in H. congruence. }
      rewrite map_map, nth_map_true. split.
      * intros [v [Hv Hgt]]. exists v, vs.
        split; [now rewrite nth_error_map, Hv|].
        split; [reflexivity|]. split; [exact Hne|].
        unfold np_abs in Hgt.
        apply zval_gt_real in Hgt; [|now apply variance_pos].
        now rewrite Q2R_Qabs, Q2R_minus in Hgt.
      * intros [v [vs' [Hv [[= <-] [_ Hgt]]]]].
        rewrite nth_error_map in Hv.
        destruct (nth_error vs i) as [w|] eqn:Hw; [|discriminate].
        injection Hv as ->. exists v. split; [reflexivity|].
        unfold np_abs. apply zval_gt_real; [now apply variance_pos|].
        now rewrite Q2R_Qabs, Q2R_minus.
  - rewrite map_map, nth_map_true. split.
    + intros [x [_ H]]. discriminate.
    + intros [v [vs [_ [H _]]]]. discriminate.
Qed.

Lemma iqr_fence_nth (xs : list (option Q)) (i : nat) :
  nth i (iqr_fence xs) false = true <->
  exists v q1 q3,
    nth_error xs i = Some (Some v) /\
    quantile (1 # 4) xs = Some q1 /\
    quantile (3 # 4) xs = Some q3 /\
    (v < q1 - (3 # 2) * (q3 - q1) \/ q3 + (3 # 2) * (q3 - q1) < v).
Proof.
  unfold iqr_fence. rewrite nth_map_true.
  destruct (quantile (1 # 4) xs) as [q1|], (quantile (3 # 4) xs) as [q3|];
    simpl.
  - split.
    + intros [[v|] [Hv H]]; simpl in H; [|discriminate].
      exists v, q1, q3. repeat split; try assumption; try reflexivity.
      apply orb_true_iff in H as [H|H]; apply Qltb_lt in H; tauto.
    + intros [v [a [b [Hv [[= <-] [[= <-] H]]]]]].
      exists (Some v). split; [exact Hv|]. simpl.
      apply orb_true_iff. rewrite !Qltb_lt. exact H.
  - split.
    + intros [[v|] [_ H]]; simpl in H; discriminate.
    + intros [v [a [b [_ [_ [H _]]]]]]. discriminate.
  - split.
    + intros [[v|] [_ H]]; simpl in H; discriminate.
    + intros [v [a [b [_ [H _]]]]]. discriminate.
  - split.
    + intros [[v|] [_ H]]; simpl in H; discriminate.
    + intros [v [a [b [_ [H _]]]]]. discriminate.
Qed.

(** A column of zero variance has NaN for every z-score and so no cell
    above any threshold. *)
Lemma zero_variance_never_exceeds (t : Q) (xs : list (option Q))
  (vs : list Q) :
  all_numbers xs = Some vs -> variance vs == 0 ->
  Forall (fun z => z = ZNaN) (stats_zscore xs) /\
  Forall (fun b => b = false) (zscore_exceeds t xs).
Proof.
  intros Hall Hvar. unfold zscore_exceeds, stats_zscore. rewrite Hall.
  apply Qeq_bool_iff in Hvar. rewrite Hvar. split.
  - apply Forall_forall. intros z Hz.
    now apply in_map_iff in Hz as [_ [<- _]].
  - apply Forall_forall. intros b Hb.
    apply in_map_iff in Hb as [z [<- Hz]].
    apply in_map_iff in Hz as [z' [<- Hz']].
    now apply in_map_iff in Hz' as [_ [<- _]].
Qed.

(** The rows a column-wise mask keeps, by position. *)
Lemma mask_rows (n : nat) (flags : Column -> list bool)
  (cols : list Column) (i : nat) :
  In i (true_positions 0 (any_axis1 n (map flags cols))) <->
  (i < n)%nat /\ exists c, In c cols /\ nth i (flags c) false = true.
Proof.
  rewrite true_positions_In, Nat.sub_0_r, any_axis1_nth. split.
  - intros [_ [Hi [col [Hcol Hn]]]]. split; [exact Hi|].
    apply in_map_iff in Hcol as [c [<- Hc]]. now exists c.
  - intros [Hi [c [Hc Hn]]]. split; [lia|]. split; [exact Hi|].
    exists (flags c). split; [now apply in_map|exact Hn].
Qed.

(** ** Quantiles are interpolated order statistics *)

Lemma insert_sorted_perm (x : Q) (s : list Q) :
  Permutation (insert_sorted x s) (x :: s).
Proof.
  induction s as [|y r IH]; simpl; [reflexivity|].
  destruct (Qle_bool x y); [reflexivity|].
  rewrite IH. apply perm_swap.
Qed.

Lemma sort_ascending_perm (vs : list Q) : Permutation (sort_ascending vs) vs.
Proof.
  induction vs as [|v r IH]; simpl; [reflexivity|].
  rewrite insert_sorted_perm. now constructor.
Qed.

Lemma insert_sorted_sorted (x : Q) (s : list Q) :
  StronglySorted Qle s -> StronglySorted Qle (insert_sorted x s).
Proof.
  induction 1 as [|y r Hr IH Hy]; simpl.
  - repeat constructor.
  - destruct (Qle_bool x y) eqn:E.
    + apply Qle_bool_iff in E.
      constructor; [now constructor|].
      constructor; [exact E|].
      eapply Forall_impl; [|exact Hy].
      intros z Hz. now apply Qle_trans with y.
    + assert (Hyx : y <= x).
      { apply Qlt_le_weak, Qltb_lt. unfold Qltb. now rewrite E. }
      constructor; [exact IH|].
      apply Forall_forall. intros z Hz.
      apply (Permutation_in _ (insert_sorted_perm x r)) in Hz.
      destruct Hz as [<-|Hz]; [exact Hyx|].
      rewrite Forall_forall in Hy. now apply Hy.
Qed.

Lemma sort_ascending_sorted (vs : list Q) :
  StronglySorted Qle (sort_ascending vs).
Proof.
  induction vs as [|v r IH]; simpl; [constructor|].
  now apply insert_sorted_sorted.
Qed.

Lemma interpolate_linear (p : Q) (s : list Q) (r : Q) :
  0 <= p <= 1 ->
  interpolate p s = Some r ->
  exists k a b,
    (inject_Z (Z.of_nat k) <= inject_Z (Z.of_nat (List.length s - 1)) * p
       < inject_Z (Z.of_nat k) + 1) /\
    nth_error s k = Some a /\
    (nth_error s (S k) = Some b \/ (S k = List.length s /\ b = a)) /\
    r = a + (inject_Z (Z.of_nat (List.length s - 1)) * p
             - inject_Z (Z.of_nat k)) * (b - a).
Proof.
  intros [Hp0 Hp1]. unfold interpolate.
  destruct s as [|x0 s']; [discriminate|].
  set (s := x0 :: s').
  set (n1 := inject_Z (Z.of_nat (List.length s - 1))).
  set (h := n1 * p).
  intros [= <-].
  assert (Hn1 : 0 <= n1) by (unfold n1, Qle; simpl; lia).
  assert (Hh0 : 0 <= h) by (now apply Qmult_le_0_compat).
  assert (Hh1 : h <= n1).
  { unfold h. clearbody n1. Lqa.nra. }
  assert (Hf0 : (0 <= Qfloor h)%Z).
  { change 0%Z with (Qfloor 0). now apply Qfloor_resp_le. }
  assert (Hf1 : (Qfloor h <= Z.of_nat (List.length s - 1))%Z).
  { rewrite <- (Qfloor_Z (Z.of_nat (List.length s - 1))).
    now apply Qfloor_resp_le. }
  assert (Hk : Z.of_nat (Z.to_nat (Qfloor h)) = Qfloor h)
    by now apply Z2Nat.id.
  set (k := Z.to_nat (Qfloor h)) in *.
  assert (Hlt : (k < List.length s)%nat) by (simpl in *; lia).
  exists k, (nth k s x0), (nth (S k) s (nth k s x0)).
  rewrite Hk. split; [|split; [|split]].
  - split; [apply Qfloor_le|].
    pose proof (Qlt_floor h) as H. rewrite inject_Z_plus in H. exact H.
  - now apply nth_error_nth'.
  - destruct (Nat.lt_ge_cases (S k) (List.length s)) as [H|H].
    + left. now apply nth_error_nth'.
    + right. split; [lia|]. now apply nth_overflow.
  - reflexivity.
Qed.

(** [quantile] returns the linearly interpolated quantile of the numbers
    of the column. *)
Lemma quantile_linear (p : Q) (xs : list (option Q)) (r : Q) :
  0 <= p <= 1 ->
  quantile p xs = Some r -> linear_quantile p (dropna xs) r.
Proof.
  intros Hp Hq. unfold quantile in Hq.
  destruct (interpolate_linear p _ r Hp Hq) as [k [a [b [H1 [H2 [H3 H4]]]]]].
  exists (sort_ascending (dropna xs)), k, a, b.
  split; [apply sort_ascending_perm|].
  split; [apply sort_ascending_sorted|].
  now repeat split.
Qed.

(** ** [detect_outliers]: which rows come back *)



(** ** Rows of a selection *)

Lemma take_nth_error {A : Type} (xs : list A) (ps : list nat) (j : nat) :
  Forall (fun p => (p < List.length xs)%nat) ps ->
  nth_error (take ps xs) j =
  match nth_error ps j with
  | Some p => nth_error xs p
  | None => None
  end.
Proof.
  intros Hps. revert j. induction Hps as [|p ps Hp _ IH]; intros j.
  - now destruct j.
  - unfold take. simpl. fold (take ps xs).
    destruct (nth_error xs p) as [x|] eqn:Hx.
    + destruct j as [|j]; simpl; [now rewrite Hx | apply IH].
    + apply nth_error_None in Hx. lia.
Qed.

Lemma take_length {A : Type} (xs : list A) (ps : list nat) :
  Forall (fun p => (p < List.length xs)%nat) ps ->
  List.length (take ps xs) = List.length ps.
Proof.
  induction 1 as [|p ps Hp _ IH]; [reflexivity|].
  unfold take. simpl. fold (take ps xs).
  destruct (nth_error xs p) as [x|] eqn:Hx.
  - simpl. now rewrite IH.
  - apply nth_error_None in Hx. lia.
Qed.

Lemma cell_at_take (v : coldata) (ps : list nat) (j : nat) :
  Forall (fun p => (p < height v)%nat) ps ->
  cell_at (on_values (fun A => take ps) v) j =
  match nth_error ps j with
  | Some p => cell_at v p
  | None => None
  end.
Proof.
  intros Hps. destruct v; simpl in *; rewrite take_nth_error by exact Hps;
    now destruct (nth_error ps j).
Qed.

(** Row [j] of [df.iloc[ps]] is row [ps[j]] of [df]. *)
Lemma row_iloc (df : DataFrame) (ps : list nat) (j : nat) :
  aligned df ->
  Forall (fun p => (p < nrows df)%nat) ps ->
  row (iloc df ps) j =
  match nth_error ps j with
  | Some p => row df p
  | None => None
  end.
Proof.
  intros Hal Hps. unfold row, iloc, on_rows. simpl.
  rewrite take_nth_error by exact Hps.
  destruct (nth_error ps j) as [p|] eqn:Hp; [|reflexivity].
  destruct (nth_error (index df) p) as [label|]; [|reflexivity].
  f_equal. f_equal. rewrite map_map. apply map_ext_in.
  intros c Hc. simpl. f_equal.
  rewrite cell_at_take, Hp; [reflexivity|].
  unfold aligned in Hal. rewrite Forall_forall in Hal.
  now rewrite (Hal c Hc).
Qed.

Lemma nrows_iloc (df : DataFrame) (ps : list nat) :
  Forall (fun p => (p < nrows df)%nat) ps ->
  nrows (iloc df ps) = List.length ps.
Proof. intros H. unfold nrows, iloc, on_rows. simpl. now apply take_length. Qed.

Lemma names_iloc (df : DataFrame) (ps : list nat) :
  map name (columns (iloc df ps)) = map name (columns df).
Proof. unfold iloc, on_rows. simpl. now rewrite map_map. Qed.

Lemma aligned_select_dtypes (df : DataFrame) :
  aligned df -> aligned (select_dtypes_number df).
Proof.
  unfold aligned, select_dtypes_number, nrows. simpl.
  rewrite !Forall_forall. intros H c Hc.
  apply filter_In in Hc as [Hc _]. now apply H.
Qed.

Lemma ascending_length_from (ps : list nat) (k n : nat) :
  StronglySorted lt ps ->
  (k <= n)%nat ->
  Forall (fun p => (k <= p < n)%nat) ps ->
  (List.length ps + k <= n)%nat.
Proof.
  intros Hs. revert k. induction Hs as [|p ps Hs IH Hp]; intros k Hk Hb.
  - simpl. exact Hk.
  - inversion Hb as [|? ? Hpk Hrest]; subst. simpl.
    assert (H : (List.length ps + S p <= n)%nat).
    { apply IH; [lia|]. rewrite Forall_forall in *. intros x Hx.
      specialize (Hp x Hx). specialize (Hrest x Hx). lia. }
    lia.
Qed.

Lemma ascending_length (ps : list nat) (n : nat) :
  StronglySorted lt ps ->
  Forall (fun p => (p < n)%nat) ps ->
  (List.length ps <= n)%nat.
Proof.
  intros Hs Hb.
  pose proof (ascending_length_from ps 0 n Hs (Nat.le_0_l n)) as H.
  rewrite Nat.add_0_r in H. apply H.
  eapply Forall_impl; [|exact Hb]. simpl. intros; lia.
Qed.

(** What [detect_outliers] returns for the two methods it knows: the rows
    of the numeric columns at an ascending list of positions. *)
Lemma detect_outliers_positions (rng : Type) (e : Env rng)
  (method : string) (t : Q) :
  method = "zscore" \/ method = "iqr" ->
  exists ps : list nat,
    detect_outliers method t e =
      (Returned (iloc (select_dtypes_number (self_df e)) ps), e) /\
    StronglySorted lt ps /\
    Forall (fun p => (p < nrows (self_df e))%nat) ps.
Proof.
  assert (Hmask : forall cols : list (list bool),
             let mask := any_axis1 (nrows (self_df e)) cols in
             StronglySorted lt (true_positions 0 mask) /\
             Forall (fun p => (p < nrows (self_df e))%nat)
                    (true_positions 0 mask)).
  { intros cols mask. split; [apply true_positions_sorted|].
    apply Forall_forall. intros p Hp.
    apply true_positions_bound in Hp.
    unfold mask in Hp. now rewrite any_axis1_length in Hp. }
  intros [-> | ->]; eexists; (split; [|apply Hmask]);
    unfold detect_outliers, bind, get_df, ret; simpl;
    now rewrite getitem_mask_iloc.
Qed.

(** ** [detect_outliers]: what never happens *)

(** C6.  A method other than "zscore" and "iqr" raises nothing: the call
    prints one diagnostic line, returns the empty frame, and leaves the
    table it was given as it was. *)
Theorem unknown_method_soft_fails (rng : Type) (e : Env rng)
  (method : string) (t : Q) :
  method <> "zscore" -> method <> "iqr" ->
  exists e' : Env rng,
    detect_outliers method t e = (Returned empty_frame, e') /\
    stdout e' = (stdout e ++ [invalid_method])%list /\
    self_df e' = self_df e /\
    nrows empty_frame = 0%nat /\ columns empty_frame = [].
Proof.
  intros Hz Hi. apply String.eqb_neq in Hz, Hi.
  unfold detect_outliers, bind, get_df, print, ret. simpl.
  rewrite Hz, Hi. eexists. split; [reflexivity|]. now repeat split.
Qed.

Lemma unknown_method_soft_fails_witness :
  "mad" <> "zscore" /\ "mad" <> "iqr" /\
  exists e' : Env unit,
    detect_outliers "mad" 3 (env_of tt sample_df)
      = (Returned empty_frame, e') /\
    stdout e' = [invalid_method] /\
    self_df e' = sample_df /\
    nrows empty_frame = 0%nat /\ columns empty_frame = [].
Proof.
  split; [discriminate|]. split; [discriminate|].
  apply (unknown_method_soft_fails unit (env_of tt sample_df) "mad" 3);
    discriminate.
Defined.

(** C7.  Whatever the method and the threshold, the call returns a
    row-subset of the numeric columns of its table (no row and no column of
    the result is new) and leaves the table as it was; this covers the
    unknown-method path. *)
Theorem result_is_row_subset (rng : Type) (e : Env rng)
  (method : string) (t : Q) :
  aligned (self_df e) ->
  exists (outliers : DataFrame) (e' : Env rng),
    detect_outliers method t e = (Returned outliers, e') /\
    self_df e' = self_df e /\
    (nrows outliers <= nrows (self_df e))%nat /\
    row_subset outliers (select_dtypes_number (self_df e)).
Proof.
  intros Hal.
  destruct (String.eqb_spec method "zscore") as [Hz|Hz];
    [|destruct (String.eqb_spec method "iqr") as [Hi|Hi]].
  3: { apply String.eqb_neq in Hz, Hi.
       unfold detect_outliers, bind, get_df, print, ret. simpl.
       rewrite Hz, Hi. eexists. eexists. split; [reflexivity|].
       split; [reflexivity|]. split; [apply Nat.le_0_l|]. split.
       - intros x [].
       - intros j r H. unfold row in H. simpl in H. now destruct j. }
  all: destruct (detect_outliers_positions rng e method t)
         as [ps [Hrun [Hsorted Hps]]]; [tauto|].
  all: exists (iloc (select_dtypes_number (self_df e)) ps), e.
  all: split; [exact Hrun|]; split; [reflexivity|].
  all: split; [rewrite nrows_iloc by exact Hps;
               now apply ascending_length|].
  all: split; [rewrite names_iloc; apply incl_refl|].
  all: intros j r Hr;
       rewrite row_iloc in Hr
         by (try apply aligned_select_dtypes; assumption);
       destruct (nth_error ps j) as [p|]; [now exists p | discriminate].
Qed.

Lemma result_is_row_subset_witness :
  aligned sample_df /\
  exists (outliers : DataFrame) (e' : Env unit),
    detect_outliers "iqr" 3 (env_of tt sample_df) = (Returned outliers, e') /\
    self_df e' = sample_df /\
    (nrows outliers <= nrows sample_df)%nat /\
    row_subset outliers (select_dtypes_number sample_df).
Proof.
  assert (H : aligned sample_df) by (repeat constructor).
  split; [exact H|].
  exact (result_is_row_subset unit (env_of tt sample_df) "iqr" 3 H).
Defined.

(** C10.  For "zscore" and for "iqr" the rows returned are rows of the
    numeric columns of the table in the order they have there: the mask is
    applied position by position. *)
Theorem rows_keep_input_order (rng : Type) (e : Env rng)
  (method : string) (t : Q) :
  aligned (self_df e) ->
  method = "zscore" \/ method = "iqr" ->
  exists outliers : DataFrame,
    detect_outliers method t e = (Returned outliers, e) /\
    in_input_order outliers (select_dtypes_number (self_df e)).
Proof.
  intros Hal Hm.
  destruct (detect_outliers_positions rng e method t Hm)
    as [ps [Hrun [Hsorted Hps]]].
  exists (iloc (select_dtypes_number (self_df e)) ps).
  split; [exact Hrun|].
  exists ps. split; [exact Hsorted|].
  split; [now rewrite nrows_iloc|].
  intros j p Hj. split.
  - rewrite Forall_forall in Hps.
    assert (Hp : (p < nrows (self_df e))%nat)
      by (apply Hps; eapply nth_error_In; exact Hj).
    unfold row. simpl.
    destruct (nth_error (index (self_df e)) p) eqn:E; [discriminate|].
    apply nth_error_None in E. unfold nrows in Hp. lia.
  - rewrite row_iloc, Hj;
      [reflexivity | now apply aligned_select_dtypes | exact Hps].
Qed.

Lemma rows_keep_input_order_witness :
  aligned sample_df /\
  ("zscore" = "zscore" \/ "zscore" = "iqr") /\
  exists outliers : DataFrame,
    detect_outliers "zscore" (3 # 2) (env_of tt sample_df)
      = (Returned outliers, env_of tt sample_df) /\
    in_input_order outliers (select_dtypes_number sample_df).
Proof.
  assert (H : aligned sample_df) by (repeat constructor).
  split; [exact H|]. split; [now left|].
  exact (rows_keep_input_order unit (env_of tt sample_df) "zscore" (3 # 2)
           H (or_introl eq_refl)).
Defined.

(** The sample table: "zscore" at threshold 3 returns no row (the largest
    z-score is 2), at threshold 3/2 it returns the last row, and so does
    "iqr". *)
Example sample_zscore_3 :
  fst (detect_outliers "zscore" 3 (env_of tt sample_df))
  = Returned (iloc (select_dtypes_number sample_df) []).
Proof. reflexivity. Qed.

Example sample_zscore_3_2 :
  fst (detect_outliers "zscore" (3 # 2) (env_of tt sample_df))
  = Returned (iloc (select_dtypes_number sample_df) [4%nat]).
Proof. reflexivity. Qed.

Example sample_iqr :
  fst (detect_outliers "iqr" 3 (env_of tt sample_df))
  = Returned (iloc (select_dtypes_number sample_df) [4%nat]).
Proof. reflexivity. Qed.

(** ** [feature_importance], path by path *)

Section AnalyzerPaths.

Context {L : Learner}.

Lemma target_exists_b (df : DataFrame) (target_column : string) :
  existsb (String.eqb target_column) (map name (columns df)) = true <->
  target_exists df target_column.
Proof.
  unfold target_exists. rewrite existsb_exists. split.
  - intros [n [Hn Heq]]. apply String.eqb_eq in Heq. now subst.
  - intros H. exists target_column. split; [exact H|apply String.eqb_refl].
Qed.

Lemma getitem_In (df : DataFrame) (key : string) (c : Column) :
  In c (getitem df key) <-> In c (columns df) /\ name c = key.
Proof.
  unfold getitem. rewrite filter_In. now rewrite String.eqb_eq.
Qed.

Lemma getitem_exists (df : DataFrame) (key : string) (c : Column) :
  getitem df key = [c] -> target_exists df key.
Proof.
  intros H. assert (Hc : In c (getitem df key)) by (rewrite H; now left).
  apply getitem_In in Hc as [Hc <-]. unfold target_exists. now apply in_map.
Qed.

Lemma path_target_not_found (e : Env rng) (target_column : string) :
  ~ target_exists (self_df e) target_column ->
  feature_importance target_column e =
    (Returned None, after_print e (target_not_found target_column)).
Proof.
  intros H. unfold feature_importance, bind, get_df.
  destruct (existsb (String.eqb target_column)
                    (map name (columns (self_df e)))) eqn:E.
  - apply target_exists_b in E. contradiction.
  - reflexivity.
Qed.

Lemma path_target_not_numeric (e : Env rng) (target_column : string)
  (c : Column) :
  getitem (self_df e) target_column = [c] ->
  is_number (values c) = false ->
  feature_importance target_column e =
    (Returned None, after_print e (target_not_numeric target_column)).
Proof.
  intros Hc Hn. unfold feature_importance, bind, get_df.
  rewrite (proj2 (target_exists_b _ _) (getitem_exists _ _ _ Hc)). simpl.
  unfold getitem_series. rewrite Hc. unfold ret. now rewrite Hn.
Qed.

Lemma path_no_features (e : Env rng) (target_column : string) (c : Column) :
  getitem (self_df e) target_column = [c] ->
  is_number (values c) = true ->
  empty (features (self_df e) target_column) = true ->
  feature_importance target_column e =
    (Returned None, after_print e no_features).
Proof.
  intros Hc Hn He. unfold feature_importance, bind, get_df.
  rewrite (proj2 (target_exists_b _ _) (getitem_exists _ _ _ Hc)). simpl.
  unfold getitem_series. rewrite Hc. unfold ret. now rewrite Hn, He.
Qed.

Lemma path_fit (e : Env rng) (target_column : string) (c : Column) :
  getitem (self_df e) target_column = [c] ->
  is_number (values c) = true ->
  empty (features (self_df e) target_column) = false ->
  feature_importance target_column e =
    match fitted_ranking (self_df e) target_column (cells c) with
    | Returned ranking =>
        (Returned None,
         after_show e {| title := top10_title target_column;
                         bars := firstn 10 ranking |})
    | Raised x => (Returned None, after_print e (analysis_failed x))
    end.
Proof.
  intros Hc Hn He. unfold feature_importance, bind, get_df.
  rewrite (proj2 (target_exists_b _ _) (getitem_exists _ _ _ Hc)).
  cbn [negb]. unfold getitem_series. rewrite Hc. unfold ret.
  rewrite Hn. cbn [negb]. cbv zeta. rewrite He.
  unfold fitted_ranking.
  set (X := get_dummies (features (self_df e) target_column)).
  unfold try_except, train_test_split, RandomForestRegressor_fit,
    with_random_state, feature_frame, bind, ret, raise.
  destruct (shuffle_split (1 # 5) (nrows X) (RandomState 42))
    as [[[train test]|x] g]; cbn [fst snd]; [|reflexivity].
  destruct (forest_importances 100 (iloc X train) (take train (cells c))
              (RandomState 42)) as [[importances|x] g'];
    cbn [fst snd]; [|reflexivity].
  rewrite length_map.
  destruct (List.length (columns X) =? List.length importances)%nat;
    reflexivity.
Qed.

(** No numeric column but the target: the feature table has no column. *)
Lemma features_none (df : DataFrame) (target_column : string) :
  ~ feature_remains df target_column ->
  columns (features df target_column) = [].
Proof.
  intros H. unfold features, drop, getitem_list. simpl.
  destruct (filter _ _) as [|c r] eqn:E; [reflexivity|]. exfalso.
  assert (Hc : In c (c :: r)) by now left.
  rewrite <- E in Hc. apply filter_In in Hc as [Hc Hne].
  apply negb_true_iff, String.eqb_neq in Hne.
  apply in_flat_map in Hc as [n [Hn Hc]].
  apply getitem_In in Hc as [Hc Hname].
  apply in_map_iff in Hn as [c' [Hc' Hin]].
  apply filter_In in Hin as [Hin Hnum].
  apply H. exists c'. repeat split; try assumption. congruence.
Qed.

Lemma filter_none {A : Type} (f : A -> bool) (l : list A) :
  (forall x, In x l -> f x = false) -> filter f l = [].
Proof.
  induction l as [|a r IH]; intros H; simpl; [reflexivity|].
  rewrite (H a) by now left. apply IH. intros x Hx. apply H. now right.
Qed.

Lemma getitem_unique (df : DataFrame) (c : Column) :
  NoDup (map name (columns df)) -> In c (columns df) ->
  getitem df (name c) = [c].
Proof.
  unfold getitem. induction (columns df) as [|a r IH]; simpl; [tauto|].
  intros Hnd Hin. inversion Hnd as [|? ? Ha Hr]; subst.
  destruct Hin as [->|Hin].
  - rewrite String.eqb_refl. f_equal.
    apply filter_none. intros c' Hc'.
    apply String.eqb_neq. intros Heq.
    apply Ha. rewrite <- Heq. now apply in_map.
  - destruct (String.eqb_spec (name a) (name c)) as [Heq|Hne].
    + exfalso. apply Ha. rewrite Heq. now apply in_map.
    + now apply IH.
Qed.

Lemma getitem_list_names (df : DataFrame) (l : list Column) :
  NoDup (map name (columns df)) -> incl l (columns df) ->
  flat_map (getitem df) (map name l) = l.
Proof.
  intros Hnd. induction l as [|c l IH]; intros Hl; simpl; [reflexivity|].
  rewrite getitem_unique; [|exact Hnd|apply Hl; now left].
  simpl. f_equal. apply IH. intros x Hx. apply Hl. now right.
Qed.

(** With distinct column names the feature table is the numeric columns
    other than the target, and [get_dummies], finding no text column in
    it, hands it back as it is. *)
Lemma features_numeric_only (df : DataFrame) (target_column : string) :
  NoDup (map name (columns df)) ->
  columns (features df target_column) =
    filter (fun c => negb (String.eqb (name c) target_column))
           (filter (fun c => is_number (values c)) (columns df)) /\
  get_dummies (features df target_column) = features df target_column.
Proof.
  intros Hnd.
  assert (Hcols : columns (features df target_column) =
            filter (fun c => negb (String.eqb (name c) target_column))
                   (filter (fun c => is_number (values c)) (columns df))).
  { unfold features, drop, getitem_list. simpl.
    rewrite getitem_list_names; [reflexivity|exact Hnd|].
    intros c Hc. now apply filter_In in Hc as [Hc _]. }
  split; [exact Hcols|].
  unfold get_dummies. rewrite Hcols.
  set (X := filter _ (filter _ (columns df))).
  assert (Hnum : Forall (fun c => is_number (values c) = true) X).
  { apply Forall_forall. intros c Hc. unfold X in Hc.
    apply filter_In in Hc as [Hc _]. now apply filter_In in Hc as [_ Hc]. }
  assert (Hkeep : filter (fun c => negb (is_object (values c))) X = X).
  { clear Hcols. induction Hnum as [|c r Hc _ IH]; simpl; [reflexivity|].
    destruct (values c); try discriminate. simpl. now rewrite IH. }
  assert (Hdum : flat_map dummies X = []).
  { clear Hcols Hkeep. induction Hnum as [|c r Hc _ IH]; simpl;
      [reflexivity|].
    unfold dummies at 1. destruct (values c); try discriminate. exact IH. }
  rewrite Hkeep, Hdum, app_nil_r.
  unfold features, drop, getitem_list in *. simpl in *.
  now rewrite Hcols.
Qed.

End AnalyzerPaths.

(** ** The sample learner meets the interface *)

Lemma insert_descending_perm (a : string * Q) (l : ImportanceRanking) :
  Permutation (insert_descending a l) (a :: l).
Proof.
  induction l as [|b r IH]; simpl; [reflexivity|].
  destruct (Qltb (snd a) (snd b)); [|reflexivity].
  rewrite IH. apply perm_swap.
Qed.

Lemma sort_descending_perm (l : ImportanceRanking) :
  Permutation (sort_descending l) l.
Proof.
  induction l as [|a r IH]; simpl; [reflexivity|].
  rewrite insert_descending_perm. now constructor.
Qed.

Lemma insert_descending_sorted (a : string * Q) (l : ImportanceRanking) :
  StronglySorted (fun x y => snd y <= snd x) l ->
  StronglySorted (fun x y => snd y <= snd x) (insert_descending a l).
Proof.
  induction 1 as [|b r Hr IH Hb]; simpl.
  - repeat constructor.
  - destruct (Qltb (snd a) (snd b)) eqn:E.
    + apply Qltb_lt in E.
      constructor; [exact IH|].
      apply Forall_forall. intros z Hz.
      apply (Permutation_in _ (insert_descending_perm a r)) in Hz.
      destruct Hz as [<-|Hz]; [now apply Qlt_le_weak|].
      rewrite Forall_forall in Hb. now apply Hb.
    + assert (Hba : snd b <= snd a).
      { apply Qle_bool_iff. unfold Qltb in E.
        now apply negb_false_iff in E. }
      constructor; [now constructor|].
      constructor; [exact Hba|].
      eapply Forall_impl; [|exact Hb].
      intros z Hz. now apply Qle_trans with (snd b).
Qed.

Lemma sort_descending_sorted (l : ImportanceRanking) :
  StronglySorted (fun x y => snd y <= snd x) (sort_descending l).
Proof.
  induction l as [|a r IH]; simpl; [constructor|].
  now apply insert_descending_sorted.
Qed.

#[export] Instance sample_learner : Learner := {|
  rng := nat;
  RandomState := Z.to_nat;
  shuffle_split := plain_split;
  forest_importances := ramp_importances;
  sort_values_descending := sort_descending;
  sort_values_permutes := sort_descending_perm;
  sort_values_sorts := sort_descending_sorted
|}.

(** ** [feature_importance]: the three checks *)

(** C5.  Each of the three checks, when it fails, ends the call with one
    printed line of its own and nothing else: no ranking is handed back,
    no figure is shown, and the table is as it was.  The checks are, in
    order: the target names a column; that column is numeric; a numeric
    column other than the target remains. *)
Theorem failed_check_aborts (L : Learner) (e : Env rng)
  (target_column : string) :
  (~ target_exists (self_df e) target_column ->
   feature_importance target_column e =
     (Returned None, after_print e (target_not_found target_column))) /\
  (forall c, getitem (self_df e) target_column = [c] ->
             is_number (values c) = false ->
   feature_importance target_column e =
     (Returned None, after_print e (target_not_numeric target_column))) /\
  (target_is_numeric (self_df e) target_column ->
   ~ feature_remains (self_df e) target_column ->
   feature_importance target_column e =
     (Returned None, after_print e no_features)) /\
  target_not_found target_column <> target_not_numeric target_column /\
  target_not_found target_column <> no_features /\
  target_not_numeric target_column <> no_features.
Proof.
  split; [apply path_target_not_found|].
  split; [apply path_target_not_numeric|].
  split.
  - intros [c [Hc Hn]] Hnone.
    apply (path_no_features e target_column c Hc Hn).
    unfold empty. rewrite (features_none _ _ Hnone). simpl.
    apply orb_true_r.
  - unfold target_not_found, target_not_numeric, no_features.
    repeat split; intros H; simpl in H; discriminate H.
Qed.

Lemma failed_check_aborts_witness :
  (~ target_exists sample_df "price" /\
   feature_importance "price" (env_of 0%nat sample_df) =
     (Returned None,
      after_print (env_of 0%nat sample_df) (target_not_found "price"))) /\
  (getitem sample_df "label"
     = [ {| name := "label"; values := ObjCol ["a"; "b"; "a"; "b"; "a"] |} ]
   /\
   feature_importance "label" (env_of 0%nat sample_df) =
     (Returned None,
      after_print (env_of 0%nat sample_df) (target_not_numeric "label"))) /\
  (target_is_numeric target_only_df "y" /\
   ~ feature_remains target_only_df "y" /\
   feature_importance "y" (env_of 0%nat target_only_df) =
     (Returned None, after_print (env_of 0%nat target_only_df) no_features)).
Proof.
  assert (H1 : ~ target_exists sample_df "price").
  { unfold target_exists. simpl.
    intros [H|[H|[H|[H|[]]]]]; discriminate H. }
  assert (H2 : target_is_numeric target_only_df "y").
  { eexists. split; reflexivity. }
  assert (H3 : ~ feature_remains target_only_df "y").
  { intros [c [[<-|[<-|[]]] [Hn Hne]]]; [discriminate Hn|now apply Hne]. }
  split; [split; [exact H1|]|split; [split; [reflexivity|]|]].
  - exact (proj1 (failed_check_aborts sample_learner
                    (env_of 0%nat sample_df) "price") H1).
  - exact (proj1 (proj2 (failed_check_aborts sample_learner
                           (env_of 0%nat sample_df) "label"))
                 _ eq_refl eq_refl).
  - split; [exact H2|]. split; [exact H3|].
    exact (proj1 (proj2 (proj2 (failed_check_aborts sample_learner
                                  (env_of 0%nat target_only_df) "y")))
                 H2 H3).
Defined.

(** ** [feature_importance]: what a call produces *)

Lemma map_fst_combine {A B : Type} (l : list A) (l' : list B) :
  List.length l = List.length l' -> map fst (combine l l') = l.
Proof.
  revert l'. induction l as [|a l IH]; intros [|b l'] H; simpl in *;
    try reflexivity; try discriminate.
  f_equal. apply IH. now injection H.
Qed.

(** C3, as the code has it.  On a table and a numeric target that pass the
    checks the call hands Python's [None] back to its caller.  The ranking
    is built inside: one (feature, importance) pair per feature column,
    sorted by descending importance; its first ten pairs are drawn as a
    bar chart.  When the split or the fit raises, one line is printed and
    nothing is drawn. *)
Theorem ranking_is_charted (L : Learner) (e : Env rng)
  (target_column : string) (c : Column) :
  getitem (self_df e) target_column = [c] ->
  is_number (values c) = true ->
  empty (features (self_df e) target_column) = false ->
  exists e' : Env rng,
    feature_importance target_column e = (Returned None, e') /\
    ((exists ranking : ImportanceRanking,
         fitted_ranking (self_df e) target_column (cells c)
           = Returned ranking /\
         e' = after_show e {| title := top10_title target_column;
                              bars := firstn 10 ranking |} /\
         StronglySorted (fun a b => snd b <= snd a) ranking /\
         Permutation
           (map fst ranking)
           (map name (columns (get_dummies
                                 (features (self_df e) target_column)))))
     \/
     (exists x : exn,
         fitted_ranking (self_df e) target_column (cells c) = Raised x /\
         e' = after_print e (analysis_failed x))).
Proof.
  intros Hc Hn He. rewrite (path_fit e target_column c Hc Hn He).
  destruct (fitted_ranking (self_df e) target_column (cells c))
    as [ranking|x] eqn:Hfit.
  - eexists. split; [reflexivity|]. left. exists ranking.
    split; [reflexivity|]. split; [reflexivity|].
    unfold fitted_ranking in Hfit.
    set (X := get_dummies (features (self_df e) target_column)) in *.
    destruct (fst (shuffle_split (1 # 5) (nrows X) (RandomState 42)))
      as [[train test]|x]; [|discriminate].
    destruct (fst (forest_importances 100 (iloc X train)
                     (take train (cells c)) (RandomState 42)))
      as [importances|x]; [|discriminate].
    destruct (List.length (columns X) =? List.length importances)%nat
      eqn:Hlen; [|discriminate].
    injection Hfit as <-. apply Nat.eqb_eq in Hlen.
    split; [apply sort_values_sorts|].
    rewrite (Permutation_map fst (sort_values_permutes _)).
    rewrite map_fst_combine; [reflexivity|].
    now rewrite length_map.
  - eexists. split; [reflexivity|]. right. now exists x.
Qed.

Lemma ranking_is_charted_witness :
  getitem sample_df "y" = [sample_target] /\
  is_number (values sample_target) = true /\
  empty (features sample_df "y") = false /\
  exists e' : Env nat,
    feature_importance "y" (env_of 0%nat sample_df) = (Returned None, e') /\
    ((exists ranking : ImportanceRanking,
         fitted_ranking sample_df "y" (cells sample_target)
           = Returned ranking /\
         e' = after_show (env_of 0%nat sample_df)
                {| title := top10_title "y"; bars := firstn 10 ranking |} /\
         StronglySorted (fun a b => snd b <= snd a) ranking /\
         Permutation
           (map fst ranking)
           (map name (columns (get_dummies (features sample_df "y")))))
     \/
     (exists x : exn,
         fitted_ranking sample_df "y" (cells sample_target) = Raised x /\
         e' = after_print (env_of 0%nat sample_df) (analysis_failed x))).
Proof.
  split; [reflexivity|]. split; [reflexivity|]. split; [reflexivity|].
  exact (ranking_is_charted sample_learner (env_of 0%nat sample_df) "y"
           sample_target eq_refl eq_refl eq_refl).
Defined.

(** On the sample table the chart shows "k" before "x". *)
Example sample_chart :
  shown (snd (feature_importance "y" (env_of 0%nat sample_df)))
  = [ {| title := "Top 10 important features for 'y'";
         bars := [("k", 2 # 3); ("x", 1 # 3)] |} ].
Proof. reflexivity. Qed.

(** C3 as claimed fails: on the sample table, whose target "y" passes the
    checks, no ranking comes back to the caller, and a chart is drawn. *)
Lemma ranking_not_returned :
  (exists c, getitem sample_df "y" = [c] /\ is_number (values c) = true) /\
  empty (features sample_df "y") = false /\
  fst (feature_importance "y" (env_of 0%nat sample_df)) = Returned None /\
  (forall ranking : ImportanceRanking,
      fst (feature_importance "y" (env_of 0%nat sample_df))
      <> Returned (Some ranking)) /\
  List.length (shown (snd (feature_importance "y" (env_of 0%nat sample_df))))
  = 1%nat.
Proof.
  split; [eexists; split; reflexivity|].
  split; [reflexivity|]. split; [reflexivity|].
  split; [|reflexivity].
  intros ranking H. vm_compute in H. discriminate H.
Qed.

(** C4, as the code has it.  On the sample table the text column "label",
    with the two values "a" and "b", gives no indicator feature: the
    feature table the forest is fitted on and the chart hold "x" and "k"
    only, where expanding "label" would give four features. *)
Theorem text_columns_not_expanded :
  map name (columns (get_dummies (features sample_df "y"))) = ["x"; "k"] /\
  map fst (flat_map bars
             (shown (snd (feature_importance "y" (env_of 0%nat sample_df)))))
    = ["k"; "x"] /\
  map name (columns (get_dummies (drop sample_df "y")))
    = ["x"; "k"; "label_a"; "label_b"].
Proof. repeat split. Qed.

(** C8.  What a call returns, prints and draws is fixed by the table and
    the target alone: it is the same from any state of the printed lines,
    of the figures and of the global random generator, which the call
    leaves untouched.  On the fitting path both the split and the forest
    run on generators seeded with 42. *)
Theorem same_input_same_ranking (L : Learner) (df : DataFrame)
  (target_column : string) :
  exists (r : outcome (option ImportanceRanking))
         (out : list string) (figs : list Figure),
    (forall (printed : list string) (drawn : list Figure) (g : rng),
        feature_importance target_column
          {| self_df := df; stdout := printed; shown := drawn;
             np_random := g |}
        = (r, {| self_df := df; stdout := printed ++ out;
                 shown := drawn ++ figs; np_random := g |})) /\
    (forall c, getitem df target_column = [c] ->
               is_number (values c) = true ->
               empty (features df target_column) = false ->
     (r, out, figs) =
       match fitted_ranking df target_column (cells c) with
       | Returned ranking =>
           (Returned None, [],
            [ {| title := top10_title target_column;
                 bars := firstn 10 ranking |} ])
       | Raised x => (Returned None, [analysis_failed x], [])
       end).
Proof.
  destruct (existsb (String.eqb target_column) (map name (columns df)))
    eqn:Hex.
  2: { exists (Returned None), [target_not_found target_column], [].
       split.
       - intros printed drawn g.
         unfold feature_importance, bind, get_df. simpl. rewrite Hex. simpl.
         unfold print, ret. simpl. now rewrite app_nil_r.
       - intros c Hc _ _. apply getitem_exists, target_exists_b in Hc.
         congruence. }
  destruct (getitem df target_column) as [|c [|c' rest]] eqn:Hget.
  - exists (Raised (KeyError target_column)), [], []. split.
    + intros printed drawn g.
      unfold feature_importance, bind, get_df. simpl. rewrite Hex. simpl.
      unfold getitem_series. rewrite Hget. unfold raise.
      now rewrite !app_nil_r.
    + intros c Hc. discriminate Hc.
  - destruct (is_number (values c)) eqn:Hn;
      [destruct (empty (features df target_column)) eqn:He|].
    + exists (Returned None), [no_features], []. split.
      * intros printed drawn g.
        rewrite (path_no_features
          {| self_df := df; stdout := printed; shown := drawn;
             np_random := g |} target_column c Hget Hn He).
        unfold after_print. simpl. now rewrite app_nil_r.
      * intros c0 _ _ H. discriminate H.
    + destruct (fitted_ranking df target_column (cells c))
        as [ranking|x] eqn:Hfit.
      * exists (Returned None), [],
          [ {| title := top10_title target_column;
               bars := firstn 10 ranking |} ].
        split.
        -- intros printed drawn g.
           rewrite (path_fit
          {| self_df := df; stdout := printed; shown := drawn;
             np_random := g |} target_column c Hget Hn He). simpl.
           rewrite Hfit. unfold after_show. simpl. now rewrite app_nil_r.
        -- intros c0 [= <-] _ _. now rewrite Hfit.
      * exists (Returned None), [analysis_failed x], []. split.
        -- intros printed drawn g.
           rewrite (path_fit
          {| self_df := df; stdout := printed; shown := drawn;
             np_random := g |} target_column c Hget Hn He). simpl.
           rewrite Hfit. unfold after_print. simpl. now rewrite app_nil_r.
        -- intros c0 [= <-] _ _. now rewrite Hfit.
    + exists (Returned None), [target_not_numeric target_column], [].
      split.
      * intros printed drawn g.
        rewrite (path_target_not_numeric
          {| self_df := df; stdout := printed; shown := drawn;
             np_random := g |} target_column c Hget Hn).
        unfold after_print. simpl. now rewrite app_nil_r.
      * intros c0 [= <-] H. congruence.
  - exists (Raised (AttributeError
                      "'DataFrame' object has no attribute 'dtype'")),
      [], []. split.
    + intros printed drawn g.
      unfold feature_importance, bind, get_df. simpl. rewrite Hex. simpl.
      unfold getitem_series. rewrite Hget. unfold raise.
      now rewrite !app_nil_r.
    + intros c0 Hc. discriminate Hc.
Qed.

Lemma same_input_same_ranking_witness :
  getitem sample_df "y" = [sample_target] /\
  is_number (values sample_target) = true /\
  empty (features sample_df "y") = false /\
  exists (r : outcome (option ImportanceRanking))
         (out : list string) (figs : list Figure),
    (forall (printed : list string) (drawn : list Figure) (g : nat),
        feature_importance "y"
          {| self_df := sample_df; stdout := printed; shown := drawn;
             np_random := g |}
        = (r, {| self_df := sample_df; stdout := printed ++ out;
                 shown := drawn ++ figs; np_random := g |})) /\
    (r, out, figs) =
      match fitted_ranking sample_df "y" (cells sample_target) with
      | Returned ranking =>
          (Returned None, [],
           [ {| title := top10_title "y"; bars := firstn 10 ranking |} ])
      | Raised x => (Returned None, [analysis_failed x], [])
      end.
Proof.
  split; [reflexivity|]. split; [reflexivity|]. split; [reflexivity|].
  destruct (same_input_same_ranking sample_learner sample_df "y")
    as [r [out [figs [Hrun Hfit]]]].
  exists r, out, figs. split; [exact Hrun|].
  exact (Hfit sample_target eq_refl eq_refl eq_refl).
Defined.

(** * Further properties of [detect_outliers] *)

Lemma mask_select_none {A : Type} (mask : list bool) (xs : list A) :
  Forall (fun b => b = false) mask -> mask_select mask xs = [].
Proof.
  intros H. revert xs. induction H as [|b m Hb _ IH]; intros xs.
  - now destruct xs.
  - subst b. destruct xs; simpl; [reflexivity|apply IH].
Qed.

Lemma any_axis1_no_columns (n : nat) :
  Forall (fun b => b = false) (any_axis1 n []).
Proof.
  unfold any_axis1. apply Forall_forall. intros b Hb.
  now apply in_map_iff in Hb as [i [<- _]].
Qed.

(** X1.  A table without a numeric column gets the frame with no row and no
    column back from both methods: a mask over no column is false on
    every row. *)
Theorem no_numeric_column_no_row (rng : Type) (e : Env rng)
  (method : string) (t : Q) :
  Forall (fun c => is_number (values c) = false) (columns (self_df e)) ->
  method = "zscore" \/ method = "iqr" ->
  detect_outliers method t e = (Returned empty_frame, e).
Proof.
  intros Hnone Hm.
  assert (Hcols : filter (fun c => is_number (values c))
                         (columns (self_df e)) = []).
  { apply filter_none. rewrite Forall_forall in Hnone. exact Hnone. }
  destruct Hm as [-> | ->];
    unfold detect_outliers, bind, get_df, ret; simpl;
    unfold getitem_mask, on_rows, select_dtypes_number; simpl;
    rewrite Hcols; simpl;
    rewrite mask_select_none by apply any_axis1_no_columns;
    reflexivity.
Qed.

Lemma no_numeric_column_no_row_witness :
  Forall (fun c => is_number (values c) = false)
         (columns (drop (drop (drop sample_df "x") "k") "y")) /\
  ("iqr" = "zscore" \/ "iqr" = "iqr") /\
  detect_outliers "iqr" 3 (env_of tt (drop (drop (drop sample_df "x") "k") "y"))
  = (Returned empty_frame,
     env_of tt (drop (drop (drop sample_df "x") "k") "y")).
Proof.
  assert (H : Forall (fun c => is_number (values c) = false)
                (columns (drop (drop (drop sample_df "x") "k") "y")))
    by (repeat constructor).
  split; [exact H|]. split; [now right|].
  exact (no_numeric_column_no_row unit
           (env_of tt (drop (drop (drop sample_df "x") "k") "y"))
           "iqr" 3 H (or_intror eq_refl)).
Defined.

(** ** No z-score exceeds the square root of [n - 1] *)

Lemma Qsum_app (l1 l2 : list Q) : Qsum (l1 ++ l2) == Qsum l1 + Qsum l2.
Proof.
  induction l1 as [|a r IH]; simpl; [ring|]. rewrite IH. ring.
Qed.

Lemma count_cons (a : Q) (r : list Q) : count (a :: r) == count r + 1.
Proof.
  unfold count. simpl List.length. rewrite Nat2Z.inj_succ.
  unfold Z.succ. rewrite inject_Z_plus. reflexivity.
Qed.

Lemma count_app (l1 l2 : list Q) : count (l1 ++ l2) == count l1 + count l2.
Proof.
  unfold count. rewrite length_app, Nat2Z.inj_add, inject_Z_plus.
  reflexivity.
Qed.

Lemma squares_nonneg (ds : list Q) : 0 <= Qsum (map (fun d => d * d) ds).
Proof.
  apply Qsum_nonneg, Forall_forall. intros x Hx.
  apply in_map_iff in Hx as [d [<- _]].
  destruct (Qlt_le_dec d 0) as [H|H].
  - setoid_replace (d * d) with ((- d) * (- d)) by ring.
    apply Qmult_le_0_compat; Lqa.lra.
  - now apply Qmult_le_0_compat.
Qed.

(** The square of a sum is at most the count times the sum of squares. *)
Lemma square_of_sum (ds : list Q) :
  Qsum ds * Qsum ds <= count ds * Qsum (map (fun d => d * d) ds).
Proof.
  induction ds as [|a r IH].
  - simpl. unfold count. simpl. Lqa.lra.
  - pose proof (squares_nonneg r) as HT.
    pose proof (count_nonneg r) as Hk.
    rewrite count_cons. simpl.
    set (S := Qsum r) in *. set (T := Qsum (map (fun d => d * d) r)) in *.
    set (k := count r) in *.
    assert (Hsq : 0 <= (k * a - S) * (k * a - S)).
    { destruct (Qlt_le_dec (k * a - S) 0) as [H|H].
      - setoid_replace ((k * a - S) * (k * a - S))
          with ((- (k * a - S)) * (- (k * a - S))) by ring.
        apply Qmult_le_0_compat; Lqa.lra.
      - now apply Qmult_le_0_compat. }
    destruct (Qlt_le_dec 0 k) as [Hpos|Hzero].
    + assert (Hmid : 2 * a * S <= k * (a * a) + T).
      { apply Qmult_lt_0_le_reg_r with k; [exact Hpos|]. Lqa.nra. }
      Lqa.nra.
    + assert (Hk0 : k == 0) by Lqa.lra.
      assert (HS : S * S <= 0) by (rewrite Hk0 in IH; Lqa.lra).
      assert (HS0 : S == 0) by Lqa.nra.
      rewrite Hk0, HS0. Lqa.nra.
Qed.

Lemma Qsum_shift (m : Q) (vs : list Q) :
  Qsum (map (fun v => v - m) vs) == Qsum vs - count vs * m.
Proof.
  induction vs as [|a r IH].
  - simpl. unfold count. simpl. ring.
  - simpl map. simpl Qsum. rewrite IH, count_cons. ring.
Qed.

Lemma count_pos (a : Q) (r : list Q) : 0 < count (a :: r).
Proof.
  rewrite count_cons. pose proof (count_nonneg r). Lqa.lra.
Qed.

(** The deviations from the mean sum to zero. *)
Lemma deviations_sum_zero (vs : list Q) :
  vs <> [] -> Qsum (map (fun v => v - mean vs) vs) == 0.
Proof.
  intros Hne. rewrite Qsum_shift. unfold mean.
  destruct vs as [|a r]; [contradiction|].
  pose proof (count_pos a r) as Hpos.
  field. Lqa.lra.
Qed.

(** Each squared deviation is at most [n - 1] times the variance. *)
Lemma deviation_bound (vs : list Q) (v : Q) :
  In v vs ->
  (v - mean vs) * (v - mean vs) <= (count vs - 1) * variance vs.
Proof.
  intros Hin.
  assert (Hne : vs <> []) by (intros ->; contradiction).
  pose proof (deviations_sum_zero vs Hne) as Hzero.
  unfold variance. cbv zeta. unfold mean at 3.
  replace (count (map (fun v0 => (v0 - mean vs) * (v0 - mean vs)) vs))
    with (count vs) by (unfold count; now rewrite length_map).
  set (m := mean vs) in *.
  assert (Hsq : map (fun v0 => (v0 - m) * (v0 - m)) vs
                = map (fun d => d * d) (map (fun v0 => v0 - m) vs))
    by now rewrite map_map.
  rewrite Hsq. clear Hsq.
  destruct (in_split v vs Hin) as [l1 [l2 ->]].
  rewrite map_app in Hzero. simpl map in Hzero.
  rewrite Qsum_app in Hzero. simpl Qsum in Hzero.
  rewrite map_app. simpl map. rewrite map_app. simpl map.
  rewrite Qsum_app. simpl Qsum.
  rewrite count_app, count_cons.
  set (d := v - m) in *.
  set (ds1 := map (fun v0 => v0 - m) l1) in *.
  set (ds2 := map (fun v0 => v0 - m) l2) in *.
  pose proof (square_of_sum (ds1 ++ ds2)) as Hcs.
  rewrite map_app, !Qsum_app, count_app in Hcs.
  replace (count ds1) with (count l1) in Hcs
    by (unfold count, ds1; now rewrite length_map).
  replace (count ds2) with (count l2) in Hcs
    by (unfold count, ds2; now rewrite length_map).
  pose proof (squares_nonneg ds1) as H1.
  pose proof (squares_nonneg ds2) as H2.
  pose proof (count_nonneg l1) as Hn1.
  pose proof (count_nonneg l2) as Hn2.
  set (S1 := Qsum ds1) in *. set (S2 := Qsum ds2) in *.
  set (T1 := Qsum (map (fun d0 => d0 * d0) ds1)) in *.
  set (T2 := Qsum (map (fun d0 => d0 * d0) ds2)) in *.
  set (k := count l1 + count l2) in *.
  assert (Hd : d == - (S1 + S2)) by Lqa.lra.
  assert (Hdd : d * d <= k * (T1 + T2)).
  { setoid_replace (d * d) with ((S1 + S2) * (S1 + S2))
      by (rewrite Hd; ring).
    exact Hcs. }
  setoid_replace (count l1 + (count l2 + 1) - 1) with k by (unfold k; ring).
  setoid_replace (count l1 + (count l2 + 1)) with (k + 1)
    by (unfold k; ring).
  assert (Hk : 0 <= k) by (unfold k; Lqa.lra).
  apply Qmult_lt_0_le_reg_r with (k + 1); [Lqa.lra|].
  setoid_replace (k * ((T1 + (d * d + T2)) / (k + 1)) * (k + 1))
    with (k * (T1 + (d * d + T2))) by (field; Lqa.lra).
  Lqa.nra.
Qed.

Lemma Qabs_square (d : Q) : Qabs d * Qabs d == d * d.
Proof.
  apply Qabs_case; intros _; ring.
Qed.

Lemma all_numbers_length (xs : list (option Q)) (vs : list Q) :
  all_numbers xs = Some vs -> List.length vs = List.length xs.
Proof.
  intros H. apply all_numbers_Some in H. subst xs. now rewrite length_map.
Qed.

(** In a column of [n] cells no cell is flagged once [n - 1 <= t * t]. *)
Lemma zscore_quiet_column (t : Q) (xs : list (option Q)) :
  0 <= t ->
  inject_Z (Z.of_nat (List.length xs)) - 1 <= t * t ->
  Forall (fun b => b = false) (zscore_exceeds t xs).
Proof.
  intros Ht Hn. unfold zscore_exceeds, stats_zscore.
  destruct (all_numbers xs) as [vs|] eqn:Hall.
  - rewrite <- (all_numbers_length xs vs Hall) in Hn. clear Hall.
    destruct (Qeq_bool (variance vs) 0).
    + rewrite !map_map. apply Forall_forall. intros b Hb.
      now apply in_map_iff in Hb as [v [<- _]].
    + rewrite !map_map. apply Forall_forall. intros b Hb.
      apply in_map_iff in Hb as [v [<- Hv]].
      unfold np_abs, zval_gt.
      pose proof (Qabs_nonneg (v - mean vs)) as Habs.
      destruct (Qltb (Qabs (v - mean vs)) 0) eqn:E1.
      { apply Qltb_lt in E1. Lqa.lra. }
      destruct (Qltb t 0) eqn:E2.
      { apply Qltb_lt in E2. Lqa.lra. }
      destruct (Qltb (t * t * variance vs)
                     (Qabs (v - mean vs) * Qabs (v - mean vs))) eqn:E3;
        [|reflexivity].
      apply Qltb_lt in E3. rewrite Qabs_square in E3.
      pose proof (deviation_bound vs v Hv) as Hb.
      pose proof (variance_nonneg vs) as Hvar.
      fold (count vs) in Hn.
      assert (Hle : (count vs - 1) * variance vs <= t * t * variance vs)
        by (apply Qmult_le_compat_r; assumption).
      Lqa.lra.
  - rewrite !map_map. apply Forall_forall. intros b Hb.
    now apply in_map_iff in Hb as [v [<- _]].
Qed.

Lemma nth_all_false (l : list bool) (i : nat) :
  Forall (fun b => b = false) l -> nth i l false = false.
Proof.
  intros H. revert i. induction H as [|b r Hb _ IH]; intros [|i]; simpl;
    try reflexivity; [exact Hb|apply IH].
Qed.

Lemma no_flag_no_row (n : nat) (flags : Column -> list bool)
  (cols : list Column) :
  (forall c, In c cols -> Forall (fun b => b = false) (flags c)) ->
  true_positions 0 (any_axis1 n (map flags cols)) = [].
Proof.
  intros H.
  destruct (true_positions 0 (any_axis1 n (map flags cols))) as [|i r] eqn:E;
    [reflexivity|].
  assert (Hi : In i (true_positions 0 (any_axis1 n (map flags cols))))
    by (rewrite E; now left).
  apply mask_rows in Hi as [_ [c [Hc Hn]]].
  rewrite (nth_all_false _ i (H c Hc)) in Hn. discriminate.
Qed.

Lemma aligned_cells (df : DataFrame) (c : Column) :
  aligned df -> In c (columns (select_dtypes_number df)) ->
  List.length (cells c) = nrows df.
Proof.
  intros Hal Hc. apply filter_In in Hc as [Hc Hn].
  unfold aligned in Hal. rewrite Forall_forall in Hal.
  specialize (Hal c Hc). unfold cells.
  destruct (values c); try discriminate. exact Hal.
Qed.



(** ** Thresholds *)

Lemma zscore_exceeds_weaken (t t' : Q) (xs : list (option Q)) (i : nat) :
  t <= t' ->
  nth i (zscore_exceeds t' xs) false = true ->
  nth i (zscore_exceeds t xs) false = true.
Proof.
  intros Hle H. apply zscore_exceeds_nth in H as [v [vs [Hv [Hall [Hne Hgt]]]]].
  apply zscore_exceeds_nth. exists v, vs.
  repeat (split; [assumption|]).
  apply Qle_Rle in Hle. lra.
Qed.

(** X3.  Raising the threshold never adds a row: the rows returned at [t'] are
    among those returned at any [t <= t']. *)
Theorem higher_threshold_fewer_outliers (rng : Type) (e : Env rng)
  (t t' : Q) :
  t <= t' ->
  exists ps ps' : list nat,
    detect_outliers "zscore" t e
      = (Returned (iloc (select_dtypes_number (self_df e)) ps), e) /\
    detect_outliers "zscore" t' e
      = (Returned (iloc (select_dtypes_number (self_df e)) ps'), e) /\
    StronglySorted lt ps /\ StronglySorted lt ps' /\
    incl ps' ps.
Proof.
  intros Hle.
  set (numeric_df := select_dtypes_number (self_df e)).
  set (mask := fun th =>
         any_axis1 (nrows numeric_df)
           (map (fun c => zscore_exceeds th (cells c)) (columns numeric_df))).
  exists (true_positions 0 (mask t)), (true_positions 0 (mask t')).
  split; [|split; [|split; [|split]]].
  - unfold detect_outliers, bind, get_df, ret. simpl.
    now rewrite getitem_mask_iloc.
  - unfold detect_outliers, bind, get_df, ret. simpl.
    now rewrite getitem_mask_iloc.
  - apply true_positions_sorted.
  - apply true_positions_sorted.
  - intros i Hi. unfold mask in *.
    apply (mask_rows _ (fun c => zscore_exceeds t' (cells c))) in Hi
      as [Hn [c [Hc Hf]]].
    apply (mask_rows _ (fun c => zscore_exceeds t (cells c))).
    split; [exact Hn|]. exists c. split; [exact Hc|].
    now apply (zscore_exceeds_weaken t t').
Qed.

Lemma higher_threshold_fewer_outliers_witness :
  (3 # 2) <= 3 /\
  exists ps ps' : list nat,
    detect_outliers "zscore" (3 # 2) (env_of tt sample_df)
      = (Returned (iloc (select_dtypes_number sample_df) ps),
         env_of tt sample_df) /\
    detect_outliers "zscore" 3 (env_of tt sample_df)
      = (Returned (iloc (select_dtypes_number sample_df) ps'),
         env_of tt sample_df) /\
    StronglySorted lt ps /\ StronglySorted lt ps' /\
    incl ps' ps.
Proof.
  assert (H : (3 # 2) <= 3) by discriminate.
  split; [exact H|].
  exact (higher_threshold_fewer_outliers unit (env_of tt sample_df)
           (3 # 2) 3 H).
Defined.

Lemma mask_select_all {A : Type} (mask : list bool) (xs : list A) :
  Forall (fun b => b = true) mask ->
  List.length mask = List.length xs ->
  mask_select mask xs = xs.
Proof.
  intros H. revert xs. induction H as [|b m Hb _ IH]; intros [|x r] Hlen;
    simpl in *; try reflexivity; try discriminate.
  subst b. f_equal. apply IH. now injection Hlen.
Qed.

Lemma getitem_mask_all (df : DataFrame) (mask : list bool) :
  aligned df ->
  Forall (fun b => b = true) mask ->
  List.length mask = nrows df ->
  getitem_mask df mask = df.
Proof.
  intros Hal Htrue Hlen. destruct df as [idx cols].
  unfold getitem_mask, on_rows, aligned, nrows in *. simpl in *.
  rewrite mask_select_all by assumption. f_equal.
  rewrite <- (map_id cols) at 2. apply map_ext_in.
  intros [n v] Hc. rewrite Forall_forall in Hal.
  specialize (Hal _ Hc). simpl in *. f_equal.
  destruct v; simpl in *; rewrite mask_select_all; congruence.
Qed.



(** ** Quartiles *)

Lemma sorted_nth_le (s : list Q) (i j : nat) (a b : Q) :
  StronglySorted Qle s -> (i <= j)%nat ->
  nth_error s i = Some a -> nth_error s j = Some b -> a <= b.
Proof.
  intros Hs. revert i j. induction Hs as [|x r Hr IH Hx]; intros i j Hij Ha Hb.
  - now destruct i.
  - destruct i as [|i], j as [|j]; simpl in *.
    + injection Ha as <-. injection Hb as <-. apply Qle_refl.
    + injection Ha as <-. rewrite Forall_forall in Hx.
      apply Hx. eapply nth_error_In. exact Hb.
    + lia.
    + apply (IH i j); [lia|assumption|assumption].
Qed.

Lemma nat_le_of_Q (k k' : nat) (h h' : Q) :
  inject_Z (Z.of_nat k) <= h -> h <= h' ->
  h' < inject_Z (Z.of_nat k') + 1 -> (k <= k')%nat.
Proof.
  intros H1 H2 H3.
  assert (H : inject_Z (Z.of_nat k) < inject_Z (Z.of_nat k' + 1)).
  { rewrite inject_Z_plus. change (inject_Z 1) with 1. Lqa.lra. }
  rewrite <- Zlt_Qlt in H. lia.
Qed.

(** On sorted values the interpolated quantile grows with its rank. *)
Lemma interpolate_monotone (p q : Q) (s : list Q) (rp rq : Q) :
  StronglySorted Qle s ->
  0 <= p -> p <= q -> q <= 1 ->
  interpolate p s = Some rp -> interpolate q s = Some rq ->
  rp <= rq.
Proof.
  intros Hs Hp Hpq Hq Hrp Hrq.
  destruct (interpolate_linear p s rp) as [k [a [b [[Hk1 Hk2] [Ha [Hb ->]]]]]];
    [split; Lqa.lra | exact Hrp |].
  destruct (interpolate_linear q s rq)
    as [k' [a' [b' [[Hk1' Hk2'] [Ha' [Hb' ->]]]]]];
    [split; Lqa.lra | exact Hrq |].
  set (n1 := inject_Z (Z.of_nat (List.length s - 1))) in *.
  assert (Hn1 : 0 <= n1) by (unfold n1, Qle; simpl; lia).
  assert (Hh : n1 * p <= n1 * q) by Lqa.nra.
  assert (Hkk : (k <= k')%nat) by (eapply nat_le_of_Q; eassumption).
  assert (Hab : a <= b).
  { destruct Hb as [Hb|[_ ->]]; [|apply Qle_refl].
    apply (sorted_nth_le s k (S k)); auto. }
  assert (Hab' : a' <= b').
  { destruct Hb' as [Hb'|[_ ->]]; [|apply Qle_refl].
    apply (sorted_nth_le s k' (S k')); auto. }
  set (g := n1 * p - inject_Z (Z.of_nat k)) in *.
  set (g' := n1 * q - inject_Z (Z.of_nat k')) in *.
  assert (Hg : 0 <= g < 1) by (unfold g; split; Lqa.lra).
  assert (Hg' : 0 <= g' < 1) by (unfold g'; split; Lqa.lra).
  destruct (Nat.eq_dec k k') as [<-|Hne].
  - rewrite Ha in Ha'. injection Ha' as <-.
    assert (Hbb : b' = b).
    { destruct Hb as [Hb|[Hlen ->]], Hb' as [Hb'|[Hlen' ->]].
      - congruence.
      - rewrite Hlen' in Hb.
        assert (H : nth_error s (List.length s) = None)
          by now apply nth_error_None.
        congruence.
      - rewrite Hlen in Hb'.
        assert (H : nth_error s (List.length s) = None)
          by now apply nth_error_None.
        congruence.
      - reflexivity. }
    subst b'.
    assert (Hgg : g <= g') by (unfold g, g'; Lqa.lra).
    Lqa.nra.
  - assert (Hlt : (S k <= k')%nat) by lia.
    assert (Hba : b <= a').
    { destruct Hb as [Hb|[_ ->]].
      - apply (sorted_nth_le s (S k) k'); auto.
      - apply (sorted_nth_le s k k'); auto with arith. }
    assert (H1 : a + g * (b - a) <= b) by Lqa.nra.
    assert (H2 : a' <= a' + g' * (b' - a')) by Lqa.nra.
    Lqa.lra.
Qed.



(** ** Constant columns under "iqr" *)

Lemma all_false_of_nth (l : list bool) :
  (forall i, nth i l false = false) -> Forall (fun b => b = false) l.
Proof.
  induction l as [|b r IH]; intros H; constructor.
  - exact (H 0%nat).
  - apply IH. intros i. exact (H (S i)).
Qed.

Lemma In_dropna (xs : list (option Q)) (v : Q) :
  In (Some v) xs <-> In v (dropna xs).
Proof.
  induction xs as [|[x|] r IH]; simpl; [tauto| |].
  - rewrite <- IH. split.
    + intros [H|H]; [injection H as <-; now left | now right].
    + intros [<-|H]; [now left | now right].
  - rewrite <- IH. split.
    + intros [H|H]; [discriminate | exact H].
    + intros H. now right.
Qed.

(** A quantile of numbers that all equal [k] is [k]. *)
Lemma quantile_constant (p : Q) (xs : list (option Q)) (k r : Q) :
  0 <= p <= 1 ->
  (forall v, In v (dropna xs) -> v == k) ->
  quantile p xs = Some r -> r == k.
Proof.
  intros Hp Hk Hq.
  destruct (quantile_linear p xs r Hp Hq)
    as [s [i [a [b [Hperm [_ [_ [Ha [Hb ->]]]]]]]]].
  assert (Hak : a == k).
  { apply Hk. apply (Permutation_in _ Hperm).
    eapply nth_error_In. exact Ha. }
  assert (Hbk : b == k).
  { destruct Hb as [Hb|[_ ->]]; [|exact Hak].
    apply Hk. apply (Permutation_in _ Hperm).
    eapply nth_error_In. exact Hb. }
  rewrite Hak, Hbk. ring.
Qed.

Lemma iqr_fence_constant (xs : list (option Q)) (k : Q) :
  (forall v, In v (dropna xs) -> v == k) ->
  Forall (fun b => b = false) (iqr_fence xs).
Proof.
  intros Hk. apply all_false_of_nth. intros i.
  destruct (nth i (iqr_fence xs) false) eqn:E; [|reflexivity].
  apply iqr_fence_nth in E as [v [q1 [q3 [Hv [H1 [H3 Hout]]]]]].
  assert (Hvk : v == k).
  { apply Hk, In_dropna. eapply nth_error_In. exact Hv. }
  assert (H1k : q1 == k)
    by (apply (quantile_constant (1 # 4) xs); [split; discriminate|auto..]).
  assert (H3k : q3 == k)
    by (apply (quantile_constant (3 # 4) xs); [split; discriminate|auto..]).
  rewrite Hvk, H1k, H3k in Hout. destruct Hout; Lqa.lra.
Qed.

(** X6.  Under "iqr" a table whose numeric columns each hold one repeated
    number (NaN cells aside) gets no row back. *)
Theorem iqr_quiet_on_constant_columns (rng : Type) (e : Env rng) (t : Q) :
  (forall c, In c (columns (select_dtypes_number (self_df e))) ->
             exists k, forall v, In v (dropna (cells c)) -> v == k) ->
  detect_outliers "iqr" t e
  = (Returned (iloc (select_dtypes_number (self_df e)) []), e).
Proof.
  intros Hconst.
  unfold detect_outliers, bind, get_df, ret. simpl.
  rewrite getitem_mask_iloc. f_equal. f_equal. f_equal.
  apply (no_flag_no_row _ (fun c => iqr_fence (cells c))).
  intros c Hc. destruct (Hconst c Hc) as [k Hk].
  now apply (iqr_fence_constant _ k).
Qed.

Lemma iqr_quiet_on_constant_columns_witness :
  (forall c, In c (columns (select_dtypes_number (drop (drop sample_df "x") "y"))) ->
             exists k, forall v, In v (dropna (cells c)) -> v == k) /\
  detect_outliers "iqr" 3 (env_of tt (drop (drop sample_df "x") "y"))
  = (Returned (iloc (select_dtypes_number (drop (drop sample_df "x") "y")) []),
     env_of tt (drop (drop sample_df "x") "y")).
Proof.
  assert (H : forall c,
             In c (columns (select_dtypes_number
                              (drop (drop sample_df "x") "y"))) ->
             exists k, forall v, In v (dropna (cells c)) -> v == k).
  { intros c [<-|[]]. exists 5. simpl.
    intros v [<-|[<-|[<-|[<-|[<-|[]]]]]]; reflexivity. }
  split; [exact H|].
  exact (iqr_quiet_on_constant_columns unit
           (env_of tt (drop (drop sample_df "x") "y")) 3 H).
Defined.

(** ** A change of unit leaves the outliers where they are *)

Lemma Qltb_compat (x x' y y' : Q) :
  (x < y <-> x' < y') -> Qltb x y = Qltb x' y'.
Proof.
  intros H. destruct (Qltb x y) eqn:E1, (Qltb x' y') eqn:E2;
    try reflexivity.
  - apply Qltb_lt, H, Qltb_lt in E1. congruence.
  - apply Qltb_lt, H, Qltb_lt in E2. congruence.
Qed.

Lemma Qsum_map_ext (f g : Q -> Q) (vs : list Q) :
  (forall v, In v vs -> f v == g v) ->
  Qsum (map f vs) == Qsum (map g vs).
Proof.
  induction vs as [|a r IH]; intros H; simpl; [reflexivity|].
  rewrite (H a) by now left. rewrite IH; [reflexivity|].
  intros v Hv. apply H. now right.
Qed.

Lemma Qsum_affine (k c : Q) (vs : list Q) :
  Qsum (map (fun v => k * v + c) vs) == k * Qsum vs + count vs * c.
Proof.
  induction vs as [|a r IH].
  - simpl. unfold count. simpl. ring.
  - simpl map. simpl Qsum. rewrite IH, count_cons. ring.
Qed.

Lemma Qsum_scale (k : Q) (f : Q -> Q) (vs : list Q) :
  Qsum (map (fun v => k * f v) vs) == k * Qsum (map f vs).
Proof.
  induction vs as [|a r IH]; simpl; [ring|]. rewrite IH. ring.
Qed.

Lemma count_map {A : Type} (f : A -> Q) (g : A -> Q) (vs : list A) :
  count (map f vs) = count (map g vs).
Proof. unfold count. now rewrite !length_map. Qed.

Lemma mean_affine (k c : Q) (vs : list Q) :
  vs <> [] ->
  mean (map (fun v => k * v + c) vs) == k * mean vs + c.
Proof.
  intros Hne. unfold mean. rewrite Qsum_affine.
  replace (count (map (fun v => k * v + c) vs)) with (count vs)
    by (unfold count; now rewrite length_map).
  destruct vs as [|a r]; [contradiction|].
  pose proof (count_pos a r) as Hpos.
  generalize dependent (count (a :: r)). generalize (Qsum (a :: r)).
  intros S n Hpos. field. Lqa.lra.
Qed.

Lemma variance_affine (k c : Q) (vs : list Q) :
  vs <> [] ->
  variance (map (fun v => k * v + c) vs) == (k * k) * variance vs.
Proof.
  intros Hne.
  set (m := mean vs).
  set (m' := mean (map (fun v => k * v + c) vs)).
  change (Qsum (map (fun v => (v - m') * (v - m'))
                    (map (fun v => k * v + c) vs))
          / count (map (fun v => (v - m') * (v - m'))
                       (map (fun v => k * v + c) vs))
          == (k * k) * (Qsum (map (fun v => (v - m) * (v - m)) vs)
                        / count (map (fun v => (v - m) * (v - m)) vs))).
  rewrite map_map.
  replace (count (map (fun x => (k * x + c - m') * (k * x + c - m')) vs))
    with (count vs) by (unfold count; now rewrite length_map).
  replace (count (map (fun v => (v - m) * (v - m)) vs))
    with (count vs) by (unfold count; now rewrite length_map).
  rewrite (Qsum_map_ext _ (fun v => (k * k) * ((v - m) * (v - m)))).
  - rewrite (Qsum_scale (k * k) (fun v => (v - m) * (v - m))).
    destruct vs as [|a r]; [contradiction|].
    pose proof (count_pos a r) as Hpos.
    generalize dependent (count (a :: r)).
    generalize (Qsum (map (fun v => (v - m) * (v - m)) (a :: r))).
    intros T n Hpos. field. Lqa.lra.
  - intros v _. unfold m'. rewrite (mean_affine k c vs Hne).
    fold m. ring.
Qed.

Lemma all_numbers_rescale (k c : Q) (xs : list (option Q)) :
  all_numbers (rescale k c xs)
  = option_map (map (fun v => k * v + c)) (all_numbers xs).
Proof.
  unfold rescale. induction xs as [|[x|] r IH]; simpl; try reflexivity.
  rewrite IH. now destruct (all_numbers r).
Qed.

(** The z-score mask of a column does not change when its numbers are
    rescaled by [v |-> k * v + c] with [k] not zero. *)
Lemma zscore_exceeds_rescale (t k c : Q) (xs : list (option Q)) :
  ~ k == 0 ->
  zscore_exceeds t (rescale k c xs) = zscore_exceeds t xs.
Proof.
  intros Hk. unfold zscore_exceeds, stats_zscore.
  rewrite all_numbers_rescale.
  destruct (all_numbers xs) as [vs|] eqn:Hall; simpl.
  - destruct vs as [|a r].
    { reflexivity. }
    set (vs := a :: r) in *.
    assert (Hne : vs <> []) by discriminate.
    pose proof (variance_affine k c vs Hne) as Hvar.
    pose proof (mean_affine k c vs Hne) as Hmean.
    assert (Hkk : 0 < k * k).
    { destruct (Qlt_le_dec k 0) as [H|H].
      - setoid_replace (k * k) with ((- k) * (- k)) by ring.
        apply Qmult_lt_0_compat; Lqa.lra.
      - assert (0 < k).
        { apply Qle_lteq in H as [H|H]; [exact H|].
          exfalso. apply Hk. now symmetry. }
        now apply Qmult_lt_0_compat. }
    assert (Hz : Qeq_bool (variance (map (fun v => k * v + c) vs)) 0
                 = Qeq_bool (variance vs) 0).
    { destruct (Qeq_bool (variance vs) 0) eqn:E.
      - apply Qeq_bool_iff in E. apply Qeq_bool_iff.
        rewrite Hvar, E. ring.
      - destruct (Qeq_bool (variance (map (fun v => k * v + c) vs)) 0)
          eqn:E'; [|reflexivity].
        apply Qeq_bool_iff in E'. rewrite Hvar in E'.
        assert (Hv0 : variance vs == 0).
        { pose proof (variance_nonneg vs).
          destruct (Qlt_le_dec 0 (variance vs)) as [Hp|Hn];
            [|Lqa.lra].
          pose proof (Qmult_lt_0_compat _ _ Hkk Hp). Lqa.lra. }
        apply Qeq_bool_iff in Hv0. congruence. }
    rewrite Hz. destruct (Qeq_bool (variance vs) 0).
    + now rewrite !map_map.
    + rewrite !map_map. apply map_ext. intros v.
      unfold np_abs, zval_gt.
      set (d := v - mean vs).
      set (d' := k * v + c - mean (map (fun v0 => k * v0 + c) vs)).
      assert (Hd : d' == k * d) by (unfold d, d'; rewrite Hmean; ring).
      pose proof (Qabs_nonneg d) as Ha. pose proof (Qabs_nonneg d') as Ha'.
      assert (E1 : Qltb (Qabs d) 0 = false).
      { destruct (Qltb (Qabs d) 0) eqn:E; [|reflexivity].
        apply Qltb_lt in E. Lqa.lra. }
      assert (E1' : Qltb (Qabs d') 0 = false).
      { destruct (Qltb (Qabs d') 0) eqn:E; [|reflexivity].
        apply Qltb_lt in E. Lqa.lra. }
      rewrite E1, E1'. f_equal.
      apply Qltb_compat. rewrite !Qabs_square, Hvar, Hd.
      pose proof (variance_nonneg vs) as Hv.
      set (s2 := variance vs) in *.
      setoid_replace (t * t * (k * k * s2)) with ((k * k) * (t * t * s2))
        by ring.
      setoid_replace (k * d * (k * d)) with ((k * k) * (d * d)) by ring.
      apply Qmult_lt_l. exact Hkk.
  - unfold rescale. now rewrite !map_map.
Qed.

Lemma Qle_bool_rescale (k c x y : Q) :
  0 < k -> Qle_bool (k * x + c) (k * y + c) = Qle_bool x y.
Proof.
  intros Hk.
  destruct (Qle_bool x y) eqn:E.
  - apply Qle_bool_iff in E. apply Qle_bool_iff. Lqa.nra.
  - destruct (Qle_bool (k * x + c) (k * y + c)) eqn:E'; [|reflexivity].
    apply Qle_bool_iff in E'.
    assert (H : x <= y).
    { destruct (Qlt_le_dec y x) as [Hlt|Hle]; [|exact Hle].
      exfalso. Lqa.nra. }
    apply Qle_bool_iff in H. congruence.
Qed.

Lemma Qltb_rescale (k c x y : Q) :
  0 < k -> Qltb (k * x + c) (k * y + c) = Qltb x y.
Proof.
  intros Hk. unfold Qltb. now rewrite Qle_bool_rescale.
Qed.

Lemma insert_sorted_rescale (k c x : Q) (s : list Q) :
  0 < k ->
  insert_sorted (k * x + c) (map (fun v => k * v + c) s)
  = map (fun v => k * v + c) (insert_sorted x s).
Proof.
  intros Hk. induction s as [|y r IH]; simpl; [reflexivity|].
  rewrite Qle_bool_rescale by exact Hk.
  destruct (Qle_bool x y); simpl; [reflexivity|]. now rewrite IH.
Qed.

Lemma sort_ascending_rescale (k c : Q) (vs : list Q) :
  0 < k ->
  sort_ascending (map (fun v => k * v + c) vs)
  = map (fun v => k * v + c) (sort_ascending vs).
Proof.
  intros Hk. induction vs as [|a r IH]; simpl; [reflexivity|].
  now rewrite IH, insert_sorted_rescale.
Qed.

Lemma dropna_rescale (k c : Q) (xs : list (option Q)) :
  dropna (rescale k c xs) = map (fun v => k * v + c) (dropna xs).
Proof.
  unfold rescale. induction xs as [|[x|] r IH]; simpl; try reflexivity;
    now rewrite IH.
Qed.

Lemma interpolate_rescale (k c p : Q) (s : list Q) :
  match interpolate p s with
  | Some r => exists r', interpolate p (map (fun v => k * v + c) s) = Some r'
                         /\ r' == k * r + c
  | None => interpolate p (map (fun v => k * v + c) s) = None
  end.
Proof.
  destruct s as [|x0 s']; [reflexivity|].
  set (s := x0 :: s').
  assert (Hs : interpolate p s
               = Some (let h := inject_Z (Z.of_nat (List.length s - 1)) * p in
                       let lo := Z.to_nat (Qfloor h) in
                       let g := h - inject_Z (Qfloor h) in
                       let a := nth lo s x0 in
                       let b := nth (S lo) s a in
                       a + g * (b - a))) by reflexivity.
  assert (Hs' : interpolate p (map (fun v => k * v + c) s)
               = Some (let h := inject_Z (Z.of_nat (List.length s - 1)) * p in
                       let lo := Z.to_nat (Qfloor h) in
                       let g := h - inject_Z (Qfloor h) in
                       let a := nth lo (map (fun v => k * v + c) s)
                                    (k * x0 + c) in
                       let b := nth (S lo) (map (fun v => k * v + c) s) a in
                       a + g * (b - a))).
  { unfold s. simpl map. unfold interpolate. cbv zeta.
    simpl List.length. now rewrite length_map. }
  rewrite Hs. eexists. split; [exact Hs'|].
  cbv zeta.
  rewrite (map_nth (fun v => k * v + c)).
  rewrite (map_nth (fun v => k * v + c)). ring.
Qed.

Lemma quantile_rescale (k c p : Q) (xs : list (option Q)) :
  0 < k ->
  match quantile p xs with
  | Some r => exists r', quantile p (rescale k c xs) = Some r'
                         /\ r' == k * r + c
  | None => quantile p (rescale k c xs) = None
  end.
Proof.
  intros Hk. unfold quantile.
  rewrite dropna_rescale, sort_ascending_rescale by exact Hk.
  apply interpolate_rescale.
Qed.

(** The fence mask of a column does not change when its numbers are
    rescaled by [v |-> k * v + c] with [k] positive. *)
Lemma iqr_fence_rescale (k c : Q) (xs : list (option Q)) :
  0 < k -> iqr_fence (rescale k c xs) = iqr_fence xs.
Proof.
  intros Hk. unfold iqr_fence.
  pose proof (quantile_rescale k c (1 # 4) xs Hk) as H1.
  pose proof (quantile_rescale k c (3 # 4) xs Hk) as H3.
  destruct (quantile (1 # 4) xs) as [q1|].
  2: { rewrite H1. unfold rescale. rewrite map_map. apply map_ext.
       intros [v|]; simpl;
         repeat match goal with
                | |- context [quantile (3 # 4) ?l] =>
                    destruct (quantile (3 # 4) l)
                end; reflexivity. }
  destruct (quantile (3 # 4) xs) as [q3|].
  2: { rewrite H3. unfold rescale. rewrite map_map. apply map_ext.
       intros [v|]; simpl;
         repeat match goal with
                | |- context [quantile (1 # 4) ?l] =>
                    destruct (quantile (1 # 4) l)
                end; reflexivity. }
  destruct H1 as [q1' [-> E1]], H3 as [q3' [-> E3]].
  unfold rescale. rewrite map_map. apply map_ext.
  intros [v|]; [|reflexivity]. simpl.
  f_equal; apply Qltb_compat; rewrite E1, E3; split; intros H;
    Lqa.nra.
Qed.

Lemma select_dtypes_rescale (unit : string -> Q * Q) (df : DataFrame) :
  select_dtypes_number (rescale_frame unit df)
  = rescale_frame unit (select_dtypes_number df).
Proof.
  unfold select_dtypes_number, rescale_frame. simpl. f_equal.
  induction (columns df) as [|c r IH]; simpl; [reflexivity|].
  destruct c as [n [xs|xs|xs]]; simpl; now rewrite IH.
Qed.

Lemma masks_rescale (unit : string -> Q * Q) (df : DataFrame)
  (flags : list (option Q) -> list bool) :
  (forall c xs, values c = NumCol xs ->
                flags (rescale (fst (unit (name c))) (snd (unit (name c))) xs)
                = flags xs) ->
  map (fun c => flags (cells c)) (columns (rescale_frame unit df))
  = map (fun c => flags (cells c)) (columns df).
Proof.
  intros H. unfold rescale_frame. simpl. rewrite map_map.
  apply map_ext. intros c. unfold cells.
  destruct (values c) as [xs|xs|xs] eqn:E; simpl; try now rewrite E.
  now apply H.
Qed.



(** * Further properties of [feature_importance] *)

(** X8.  A table without rows is turned away with the no-features line, also
    when it has numeric feature columns: [X.empty] holds for a frame
    without rows. *)
Theorem empty_table_reports_no_features (L : Learner) (e : Env rng)
  (target_column : string) :
  target_is_numeric (self_df e) target_column ->
  nrows (self_df e) = 0%nat ->
  feature_importance target_column e
  = (Returned None, after_print e no_features).
Proof.
  intros [c [Hc Hn]] Hrows.
  apply (path_no_features e target_column c Hc Hn).
  unfold empty, features, drop, getitem_list, nrows in *. simpl.
  now rewrite Hrows.
Qed.

Lemma empty_table_reports_no_features_witness :
  target_is_numeric (iloc sample_df []) "y" /\
  nrows (iloc sample_df []) = 0%nat /\
  feature_importance "y" (env_of 0%nat (iloc sample_df []))
  = (Returned None, after_print (env_of 0%nat (iloc sample_df [])) no_features).
Proof.
  assert (H : target_is_numeric (iloc sample_df []) "y")
    by (eexists; split; reflexivity).
  split; [exact H|]. split; [reflexivity|].
  exact (empty_table_reports_no_features sample_learner
           (env_of 0%nat (iloc sample_df [])) "y" H eq_refl).
Defined.

Lemma fitted_ranking_names (L : Learner) (df : DataFrame)
  (target_column : string) (y : list (option Q))
  (ranking : ImportanceRanking) :
  fitted_ranking df target_column y = Returned ranking ->
  Permutation (map fst ranking)
              (map name (columns (get_dummies (features df target_column)))).
Proof.
  unfold fitted_ranking.
  set (X := get_dummies (features df target_column)).
  destruct (fst (shuffle_split (1 # 5) (nrows X) (RandomState 42)))
    as [[train test]|x]; [|discriminate].
  destruct (fst (forest_importances 100 (iloc X train) (take train y)
                   (RandomState 42)))
    as [importances|x]; [|discriminate].
  destruct (List.length (columns X) =? List.length importances)%nat
    eqn:Hlen; [|discriminate].
  intros [= <-]. apply Nat.eqb_eq in Hlen.
  rewrite (Permutation_map fst (sort_values_permutes _)).
  rewrite map_fst_combine; [reflexivity|]. now rewrite length_map.
Qed.

(** X9.  With distinct column names the ranked features are the numeric
    columns other than the target, each once: the target, the text
    columns and the bool columns are never ranked.  The chart shows the
    first ten of them, or all when there are fewer. *)
Theorem ranked_features_are_numeric (L : Learner) (e : Env rng)
  (target_column : string) (c : Column) (ranking : ImportanceRanking) :
  NoDup (map name (columns (self_df e))) ->
  getitem (self_df e) target_column = [c] ->
  is_number (values c) = true ->
  empty (features (self_df e) target_column) = false ->
  fitted_ranking (self_df e) target_column (cells c) = Returned ranking ->
  let numeric_features :=
    filter (fun c => negb (String.eqb (name c) target_column))
           (filter (fun c => is_number (values c)) (columns (self_df e))) in
  Permutation (map fst ranking) (map name numeric_features) /\
  ~ In target_column (map fst ranking) /\
  feature_importance target_column e
  = (Returned None,
     after_show e {| title := top10_title target_column;
                     bars := firstn 10 ranking |}) /\
  List.length (firstn 10 ranking)
  = Nat.min 10 (List.length numeric_features).
Proof.
  intros Hnd Hc Hn He Hfit numeric_features.
  pose proof (fitted_ranking_names L _ _ _ _ Hfit) as Hperm.
  destruct (features_numeric_only (self_df e) target_column Hnd)
    as [Hcols Hdum].
  rewrite Hdum, Hcols in Hperm. fold numeric_features in Hperm.
  split; [exact Hperm|]. split; [|split].
  - intros Hin. apply (Permutation_in _ Hperm) in Hin.
    apply in_map_iff in Hin as [c' [Hname Hc']].
    unfold numeric_features in Hc'. apply filter_In in Hc' as [_ Hne].
    apply negb_true_iff, String.eqb_neq in Hne. contradiction.
  - rewrite (path_fit e target_column c Hc Hn He). now rewrite Hfit.
  - rewrite length_firstn. f_equal.
    rewrite <- (length_map fst ranking), <- (length_map name numeric_features).
    now apply Permutation_length.
Qed.

Lemma sample_df_names_distinct : NoDup (map name (columns sample_df)).
Proof.
  simpl. repeat constructor; simpl; intuition discriminate.
Qed.

Lemma ranked_features_are_numeric_witness :
  NoDup (map name (columns sample_df)) /\
  getitem sample_df "y" = [sample_target] /\
  is_number (values sample_target) = true /\
  empty (features sample_df "y") = false /\
  fitted_ranking sample_df "y" (cells sample_target)
    = Returned [("k", 2 # 3); ("x", 1 # 3)] /\
  Permutation
    (map fst [("k", 2 # 3); ("x", 1 # 3)])
    (map name
       (filter (fun c => negb (String.eqb (name c) "y"))
               (filter (fun c => is_number (values c))
                       (columns sample_df)))) /\
  ~ In "y" (map fst [("k", 2 # 3); ("x", 1 # 3)]) /\
  feature_importance "y" (env_of 0%nat sample_df)
  = (Returned None,
     after_show (env_of 0%nat sample_df)
       {| title := top10_title "y";
          bars := firstn 10 [("k", 2 # 3); ("x", 1 # 3)] |}) /\
  List.length (firstn 10 [("k", 2 # 3); ("x", 1 # 3)])
  = Nat.min 10
      (List.length
         (filter (fun c => negb (String.eqb (name c) "y"))
                 (filter (fun c => is_number (values c))
                         (columns sample_df)))).
Proof.
  split; [exact sample_df_names_distinct|].
  split; [reflexivity|]. split; [reflexivity|]. split; [reflexivity|].
  split; [reflexivity|].
  exact (ranked_features_are_numeric sample_learner (env_of 0%nat sample_df)
           "y" sample_target [("k", 2 # 3); ("x", 1 # 3)]
           sample_df_names_distinct eq_refl eq_refl eq_refl eq_refl).
Defined.

(** * [DataCleaner] *)

Lemma mem_In (x : string) (l : list string) :
  DataCleaner.mem x l = true <-> In x l.
Proof.
  unfold DataCleaner.mem. rewrite existsb_exists. split.
  - intros [y [Hy Heq]]. apply String.eqb_eq in Heq. now subst.
  - intros H. exists x. split; [exact H|apply String.eqb_refl].
Qed.

Lemma mem_valid (table : DataFrame) (names : list string) (c : Column) :
  In c (columns table) ->
  DataCleaner.mem (name c)
    (filter (fun col => DataCleaner.mem col (DataCleaner.column_names table))
            names)
  = DataCleaner.mem (name c) names.
Proof.
  intros Hc.
  destruct (DataCleaner.mem (name c) names) eqn:E.
  - apply mem_In. apply filter_In. split; [now apply mem_In|].
    apply mem_In. unfold DataCleaner.column_names. now apply in_map.
  - destruct (DataCleaner.mem (name c) (filter _ names)) eqn:E';
      [|reflexivity].
    apply mem_In, filter_In in E' as [E' _]. apply mem_In in E'. congruence.
Qed.

Lemma drop_valid_labels (table : DataFrame) (names : list string) :
  DataCleaner.drop_column_labels table
    (filter (fun col => DataCleaner.mem col (DataCleaner.column_names table))
            names)
  = DataCleaner.drop_column_labels table names.
Proof.
  unfold DataCleaner.drop_column_labels. f_equal.
  apply filter_ext_in. intros c Hc. now rewrite mem_valid.
Qed.

Lemma drop_columns_success (format_list : list string -> string)
  (names : list string) (s : DataCleaner.state) :
  (exists n, In n names /\
             In n (DataCleaner.column_names (DataCleaner.df s))) ->
  exists line : string,
    DataCleaner.drop_columns format_list (DataCleaner.Names names) s
    = (Done (DataCleaner.drop_column_labels (DataCleaner.df s) names),
       {| DataCleaner.df :=
            DataCleaner.drop_column_labels (DataCleaner.df s) names;
          DataCleaner.changes_log := DataCleaner.changes_log s ++ [line];
          DataCleaner.logged := DataCleaner.logged s ++ [(INFO, line)] |}).
Proof.
  intros [n [Hn Hcol]]. unfold DataCleaner.drop_columns.
  destruct (filter _ names) as [|v r] eqn:E.
  - exfalso.
    assert (H : In n (filter
               (fun col => DataCleaner.mem col
                  (DataCleaner.column_names (DataCleaner.df s))) names)).
    { apply filter_In. split; [exact Hn|now apply mem_In]. }
    rewrite E in H. exact H.
  - rewrite <- E. eexists. rewrite drop_valid_labels. reflexivity.
Qed.

Lemma drop_columns_failure (format_list : list string -> string)
  (names : list string) (s : DataCleaner.state) :
  (forall n, In n names ->
             ~ In n (DataCleaner.column_names (DataCleaner.df s))) ->
  DataCleaner.drop_columns format_list (DataCleaner.Names names) s
  = (Failed (Other (ValueError none_found)),
     DataCleaner.log ERROR none_found s).
Proof.
  intros Hnone. unfold DataCleaner.drop_columns.
  rewrite filter_none; [reflexivity|].
  intros n Hn. destruct (DataCleaner.mem n _) eqn:E; [|reflexivity].
  apply mem_In in E. exfalso. now apply (Hnone n).
Qed.

(** X10.  [drop_columns] with a list of names of which one at least is a column:
    the columns carrying a listed name go, the others stay in their order
    with the rows as they were, names that are no column are passed over,
    and one line is added to the changes log.  With no listed name a
    column, the call raises [ValueError] and leaves table and changes log
    as they were. *)
Theorem drop_columns_drops_what_exists
  (format_list : list string -> string) (names : list string)
  (s : DataCleaner.state) :
  ((exists n, In n names /\
              In n (DataCleaner.column_names (DataCleaner.df s))) ->
   exists (s' : DataCleaner.state) (line : string),
     DataCleaner.drop_columns format_list (DataCleaner.Names names) s
       = (Done (DataCleaner.df s'), s') /\
     DataCleaner.df s'
       = {| index := index (DataCleaner.df s);
            columns := filter (fun c => negb (DataCleaner.mem (name c) names))
                              (columns (DataCleaner.df s)) |} /\
     DataCleaner.changes_log s'
       = (DataCleaner.changes_log s ++ [line])%list) /\
  ((forall n, In n names ->
              ~ In n (DataCleaner.column_names (DataCleaner.df s))) ->
   exists s' : DataCleaner.state,
     DataCleaner.drop_columns format_list (DataCleaner.Names names) s
       = (Failed (Other (ValueError none_found)), s') /\
     DataCleaner.df s' = DataCleaner.df s /\
     DataCleaner.changes_log s' = DataCleaner.changes_log s).
Proof.
  split.
  - intros H. destruct (drop_columns_success format_list names s H)
      as [line Hrun].
    eexists (DataCleaner.Build_state _ _ _). exists line.
    split; [exact Hrun|]. split; reflexivity.
  - intros H. rewrite (drop_columns_failure format_list names s H).
    eexists. split; [reflexivity|]. split; reflexivity.
Qed.

Lemma drop_columns_drops_what_exists_witness :
  (exists n, In n ["x"; "price"] /\
             In n (DataCleaner.column_names (DataCleaner.df sample_cleaner)))
  /\
  (exists (s' : DataCleaner.state) (line : string),
     DataCleaner.drop_columns (String.concat ", ")
       (DataCleaner.Names ["x"; "price"]) sample_cleaner
       = (Done (DataCleaner.df s'), s') /\
     DataCleaner.df s'
       = {| index := index (DataCleaner.df sample_cleaner);
            columns :=
              filter (fun c => negb (DataCleaner.mem (name c) ["x"; "price"]))
                     (columns (DataCleaner.df sample_cleaner)) |} /\
     DataCleaner.changes_log s'
       = (DataCleaner.changes_log sample_cleaner ++ [line])%list) /\
  (forall n, In n ["price"] ->
             ~ In n (DataCleaner.column_names (DataCleaner.df sample_cleaner)))
  /\
  (exists s' : DataCleaner.state,
     DataCleaner.drop_columns (String.concat ", ")
       (DataCleaner.Names ["price"]) sample_cleaner
       = (Failed (Other (ValueError none_found)), s') /\
     DataCleaner.df s' = DataCleaner.df sample_cleaner /\
     DataCleaner.changes_log s' = DataCleaner.changes_log sample_cleaner).
Proof.
  assert (H1 : exists n, In n ["x"; "price"] /\
                 In n (DataCleaner.column_names
                         (DataCleaner.df sample_cleaner))).
  { exists "x". split; now left. }
  assert (H2 : forall n, In n ["price"] ->
                 ~ In n (DataCleaner.column_names
                           (DataCleaner.df sample_cleaner))).
  { intros n [<-|[]]. simpl. intros [H|[H|[H|[H|[]]]]]; discriminate H. }
  split; [exact H1|]. split.
  - exact (proj1 (drop_columns_drops_what_exists (String.concat ", ")
                    ["x"; "price"] sample_cleaner) H1).
  - split; [exact H2|].
    exact (proj2 (drop_columns_drops_what_exists (String.concat ", ")
                    ["price"] sample_cleaner) H2).
Defined.

(** X11.  Asking a second time for the columns just dropped raises
    [ValueError]: none of them is a column any more. *)
Theorem drop_columns_twice_fails
  (format_list : list string -> string) (names : list string)
  (s s' : DataCleaner.state) (table : DataFrame) :
  DataCleaner.drop_columns format_list (DataCleaner.Names names) s
    = (Done table, s') ->
  DataCleaner.drop_columns format_list (DataCleaner.Names names) s'
    = (Failed (Other (ValueError none_found)),
       DataCleaner.log ERROR none_found s').
Proof.
  intros Hrun. apply drop_columns_failure.
  intros n Hn Hcol.
  assert (Hdf : DataCleaner.df s'
                = DataCleaner.drop_column_labels (DataCleaner.df s) names).
  { unfold DataCleaner.drop_columns in Hrun.
    destruct (filter _ names) as [|v r] eqn:E; [discriminate|].
    rewrite <- E in Hrun. injection Hrun as _ <-. simpl.
    apply drop_valid_labels. }
  rewrite Hdf in Hcol. unfold DataCleaner.column_names in Hcol.
  apply in_map_iff in Hcol as [c [<- Hc]]. simpl in Hc.
  apply filter_In in Hc as [_ Hc]. apply negb_true_iff in Hc.
  apply mem_In in Hn. congruence.
Qed.

Lemma drop_columns_twice_fails_witness :
  DataCleaner.drop_columns (String.concat ", ")
    (DataCleaner.Names ["x"; "price"]) sample_cleaner
  = (Done (DataCleaner.drop_column_labels sample_df ["x"]),
     {| DataCleaner.df := DataCleaner.drop_column_labels sample_df ["x"];
        DataCleaner.changes_log := ["Dropped columns: x."];
        DataCleaner.logged := [(INFO, "Dropped columns: x.")] |}) /\
  DataCleaner.drop_columns (String.concat ", ")
    (DataCleaner.Names ["x"; "price"])
    {| DataCleaner.df := DataCleaner.drop_column_labels sample_df ["x"];
       DataCleaner.changes_log := ["Dropped columns: x."];
       DataCleaner.logged := [(INFO, "Dropped columns: x.")] |}
  = (Failed (Other (ValueError none_found)),
     DataCleaner.log ERROR none_found
       {| DataCleaner.df := DataCleaner.drop_column_labels sample_df ["x"];
          DataCleaner.changes_log := ["Dropped columns: x."];
          DataCleaner.logged := [(INFO, "Dropped columns: x.")] |}).
Proof.
  split; [reflexivity|].
  exact (drop_columns_twice_fails (String.concat ", ") ["x"; "price"]
           sample_cleaner _ _ eq_refl).
Defined.

(** ** [drop_rows] *)

Lemma label_absent (l : Z) (labels : list Z) :
  ~ In l labels -> existsb (Z.eqb l) labels = false.
Proof.
  intros H. destruct (existsb (Z.eqb l) labels) eqn:E; [|reflexivity].
  apply existsb_exists in E as [x [Hx Heq]]. apply Z.eqb_eq in Heq.
  subst. contradiction.
Qed.

Lemma In_firstn_inv {A : Type} (k : nat) (l : list A) (x : A) :
  In x (firstn k l) -> In x l.
Proof.
  revert l. induction k as [|k IH]; intros [|a r]; simpl; try tauto.
  intros [H|H]; [now left|right; now apply IH].
Qed.

Lemma In_skipn_inv {A : Type} (s : nat) (l : list A) (x : A) :
  In x (skipn s l) -> In x l.
Proof.
  revert l. induction s as [|s IH]; intros [|a r]; simpl; try tauto.
  intros H. right. now apply IH.
Qed.

(** With distinct labels, dropping the labels found at positions
    [s .. s + k - 1] keeps what is before and what is after. *)
Lemma drop_slice {A : Type} (labels : list Z) (xs : list A) (s k : nat) :
  NoDup labels ->
  List.length xs = List.length labels ->
  mask_select
    (map (fun l => negb (existsb (Z.eqb l) (firstn k (skipn s labels))))
         labels) xs
  = (firstn s xs ++ skipn (s + k) xs)%list.
Proof.
  intros Hnd. revert xs s k.
  induction Hnd as [|a r Ha Hr IH]; intros xs s k Hlen.
  - destruct xs; [|discriminate]. simpl.
    now rewrite firstn_nil, skipn_nil.
  - destruct xs as [|x xs']; [discriminate|]. injection Hlen as Hlen.
    destruct s as [|s'].
    + destruct k as [|k'].
      * simpl. f_equal. rewrite mask_select_all; [reflexivity| |].
        -- apply Forall_forall. intros b Hb.
           now apply in_map_iff in Hb as [l [<- _]].
        -- now rewrite length_map.
      * simpl. rewrite Z.eqb_refl. simpl.
        specialize (IH xs' 0%nat k' Hlen). simpl in IH.
        rewrite <- IH. f_equal.
        apply map_ext_in. intros l Hl.
        destruct (Z.eqb_spec l a) as [->|Hne]; [contradiction|reflexivity].
    + simpl. rewrite label_absent.
      * simpl. f_equal. now apply IH.
      * intros Hin. apply Ha.
        now apply In_skipn_inv with s', In_firstn_inv with k.
Qed.

Lemma mask_select_filter {A : Type} (f : A -> bool) (l : list A) :
  mask_select (map f l) l = filter f l.
Proof.
  induction l as [|a r IH]; simpl; [reflexivity|].
  destruct (f a); now rewrite IH.
Qed.

Lemma valid_range (start_idx end_idx : Z) (n : nat) :
  (0 <= start_idx <= end_idx)%Z -> (end_idx < Z.of_nat n)%Z ->
  ((0 <=? start_idx) && (start_idx <=? end_idx)
   && (end_idx <? Z.of_nat n))%Z = true.
Proof.
  intros [H1 H2] H3.
  apply andb_true_iff. split; [apply andb_true_iff; split|].
  - now apply Z.leb_le.
  - now apply Z.leb_le.
  - now apply Z.ltb_lt.
Qed.

Lemma NoDup_firstn_skipn {A : Type} (l : list A) (a b : nat) :
  NoDup l -> (a <= b)%nat -> NoDup (firstn a l ++ skipn b l).
Proof.
  intros Hnd. revert a b. induction Hnd as [|x r Hx Hr IH]; intros a b Hab.
  - rewrite firstn_nil, skipn_nil. constructor.
  - destruct b as [|b'].
    + assert (a = 0%nat) by lia. subst a. simpl. now constructor.
    + destruct a as [|a']; simpl.
      * apply (IH 0%nat b'). lia.
      * constructor; [|apply IH; lia].
        intros Hin. apply Hx. apply in_app_or in Hin as [Hin|Hin].
        -- now apply In_firstn_inv with a'.
        -- now apply In_skipn_inv with b'.
Qed.

Lemma on_rows_ext_aligned (f g : forall A : Type, list A -> list A)
  (table : DataFrame) :
  aligned table ->
  (forall (A : Type) (xs : list A),
      List.length xs = nrows table -> f A xs = g A xs) ->
  on_rows f table = on_rows g table.
Proof.
  intros Hal H. unfold on_rows. rewrite H by reflexivity. f_equal.
  apply map_ext_in. intros c Hc. f_equal.
  unfold aligned in Hal. rewrite Forall_forall in Hal. specialize (Hal c Hc).
  destruct (values c); simpl in *; now rewrite H.
Qed.

Lemma aligned_on_rows (f : forall A : Type, list A -> list A)
  (table : DataFrame) (n : nat) :
  aligned table ->
  (forall (A : Type) (xs : list A),
      List.length xs = nrows table -> List.length (f A xs) = n) ->
  aligned (on_rows f table).
Proof.
  intros Hal H. unfold aligned, on_rows, nrows in *. simpl.
  rewrite Forall_forall in *. intros c Hc.
  apply in_map_iff in Hc as [c' [<- Hc']]. simpl.
  specialize (Hal c' Hc'). rewrite (H _ (index table)) by reflexivity.
  destruct (values c'); simpl in *; now apply H.
Qed.

(** X12.  [drop_rows((start, end))] on a table with distinct index labels and
    [0 <= start <= end < rows]: the rows at positions [start] to [end],
    both included, go and the others stay in their order under their
    labels; the index stays distinct, and the changes log gets its line. *)
Theorem drop_rows_by_position (s : DataCleaner.state)
  (start_idx end_idx : Z) :
  NoDup (index (DataCleaner.df s)) ->
  aligned (DataCleaner.df s) ->
  (0 <= start_idx <= end_idx)%Z ->
  (end_idx < Z.of_nat (nrows (DataCleaner.df s)))%Z ->
  exists s' : DataCleaner.state,
    DataCleaner.drop_rows (DataCleaner.Range start_idx end_idx) s
      = (Done (DataCleaner.df s'), s') /\
    DataCleaner.df s'
      = on_rows (fun A xs => (firstn (Z.to_nat start_idx) xs
                              ++ skipn (S (Z.to_nat end_idx)) xs)%list)
                (DataCleaner.df s) /\
    (nrows (DataCleaner.df s')
     + (Z.to_nat end_idx - Z.to_nat start_idx + 1)
     = nrows (DataCleaner.df s))%nat /\
    NoDup (index (DataCleaner.df s')) /\
    aligned (DataCleaner.df s') /\
    DataCleaner.changes_log s'
      = (DataCleaner.changes_log s
         ++ [("Dropped rows from index " ++ str_int start_idx ++ " to "
              ++ str_int end_idx ++ ".")%string])%list.
Proof.
  intros Hnd Hal Hord Hlt.
  set (a := Z.to_nat start_idx). set (b := Z.to_nat end_idx).
  assert (Hab : (a <= b)%nat) by (unfold a, b; lia).
  assert (Hbn : (b < nrows (DataCleaner.df s))%nat) by (unfold b; lia).
  assert (Hk : (Z.to_nat (end_idx + 1) - Z.to_nat start_idx = S b - a)%nat)
    by (unfold a, b; lia).
  assert (Htable :
    DataCleaner.drop_row_labels (DataCleaner.df s)
      (firstn (Z.to_nat (end_idx + 1) - Z.to_nat start_idx)
              (skipn (Z.to_nat start_idx) (index (DataCleaner.df s))))
    = on_rows (fun A xs => (firstn a xs ++ skipn (S b) xs)%list)
              (DataCleaner.df s)).
  { unfold DataCleaner.drop_row_labels, getitem_mask.
    apply on_rows_ext_aligned; [exact Hal|].
    intros A xs Hlen. rewrite Hk. fold a.
    rewrite drop_slice by assumption.
    replace (a + (S b - a))%nat with (S b) by lia. reflexivity. }
  unfold DataCleaner.drop_rows. rewrite valid_range by assumption.
  eexists (DataCleaner.Build_state _ _ _).
  split; [reflexivity|].
  cbn [DataCleaner.df DataCleaner.changes_log]. rewrite Htable.
  split; [reflexivity|].
  split; [|split; [|split; [|reflexivity]]].
  - unfold nrows, on_rows. cbn [index].
    rewrite length_app, length_firstn, length_skipn.
    unfold nrows in Hbn. lia.
  - unfold on_rows. cbn [index]. apply NoDup_firstn_skipn; [exact Hnd|lia].
  - apply (aligned_on_rows _ _
             (a + (nrows (DataCleaner.df s) - S b))%nat Hal).
    intros A xs Hlen.
    rewrite length_app, length_firstn, length_skipn. lia.
Qed.

Lemma sample_cleaner_distinct : NoDup (index (DataCleaner.df sample_cleaner)).
Proof.
  simpl. repeat constructor; simpl; intuition discriminate.
Qed.

Lemma sample_cleaner_aligned : aligned (DataCleaner.df sample_cleaner).
Proof. repeat constructor. Qed.

Lemma drop_rows_by_position_witness :
  NoDup (index (DataCleaner.df sample_cleaner)) /\
  aligned (DataCleaner.df sample_cleaner) /\
  (0 <= 1 <= 2)%Z /\
  (2 < Z.of_nat (nrows (DataCleaner.df sample_cleaner)))%Z /\
  exists s' : DataCleaner.state,
    DataCleaner.drop_rows (DataCleaner.Range 1 2) sample_cleaner
      = (Done (DataCleaner.df s'), s') /\
    DataCleaner.df s'
      = on_rows (fun A xs => (firstn (Z.to_nat 1) xs
                              ++ skipn (S (Z.to_nat 2)) xs)%list)
                (DataCleaner.df sample_cleaner) /\
    (nrows (DataCleaner.df s') + (Z.to_nat 2 - Z.to_nat 1 + 1)
     = nrows (DataCleaner.df sample_cleaner))%nat /\
    NoDup (index (DataCleaner.df s')) /\
    aligned (DataCleaner.df s') /\
    DataCleaner.changes_log s'
      = (DataCleaner.changes_log sample_cleaner
         ++ [("Dropped rows from index " ++ str_int 1 ++ " to "
              ++ str_int 2 ++ ".")%string])%list.
Proof.
  assert (H1 : (0 <= 1 <= 2)%Z) by lia.
  assert (H2 : (2 < Z.of_nat (nrows (DataCleaner.df sample_cleaner)))%Z)
    by reflexivity.
  split; [exact sample_cleaner_distinct|].
  split; [exact sample_cleaner_aligned|].
  split; [exact H1|]. split; [exact H2|].
  exact (drop_rows_by_position sample_cleaner 1 2 sample_cleaner_distinct
           sample_cleaner_aligned H1 H2).
Defined.

Lemma drop_rows_inversion (s s' : DataCleaner.state)
  (start_idx end_idx : Z) (table : DataFrame) :
  DataCleaner.drop_rows (DataCleaner.Range start_idx end_idx) s
    = (Done table, s') ->
  (0 <= start_idx <= end_idx)%Z /\
  (end_idx < Z.of_nat (nrows (DataCleaner.df s)))%Z /\
  table = DataCleaner.drop_row_labels (DataCleaner.df s)
            (firstn (Z.to_nat (end_idx + 1) - Z.to_nat start_idx)
                    (skipn (Z.to_nat start_idx)
                           (index (DataCleaner.df s)))) /\
  DataCleaner.df s' = table.
Proof.
  unfold DataCleaner.drop_rows.
  destruct ((0 <=? start_idx) && (start_idx <=? end_idx)
            && (end_idx <? Z.of_nat (nrows (DataCleaner.df s))))%Z eqn:E;
    [|discriminate].
  apply andb_true_iff in E as [E E3]. apply andb_true_iff in E as [E1 E2].
  apply Z.leb_le in E1, E2. apply Z.ltb_lt in E3.
  intros [= <- <-]. simpl. repeat split; assumption.
Qed.

(** X13.  [drop_rows] goes through exactly when [0 <= start <= end < rows]:
    a negative index, an end before the start or an end past the last row
    raises [ValueError], as does every range on a table without rows; the
    table and the changes log are then as they were. *)
Theorem drop_rows_bounds (s : DataCleaner.state) (start_idx end_idx : Z) :
  ((exists table s',
       DataCleaner.drop_rows (DataCleaner.Range start_idx end_idx) s
       = (Done table, s')) <->
   (0 <= start_idx <= end_idx)%Z /\
   (end_idx < Z.of_nat (nrows (DataCleaner.df s)))%Z) /\
  (~ ((0 <= start_idx <= end_idx)%Z /\
      (end_idx < Z.of_nat (nrows (DataCleaner.df s)))%Z) ->
   DataCleaner.drop_rows (DataCleaner.Range start_idx end_idx) s
   = (Failed (Other (ValueError out_of_bounds)),
      DataCleaner.log ERROR out_of_bounds s)) /\
  (nrows (DataCleaner.df s) = 0%nat ->
   DataCleaner.drop_rows (DataCleaner.Range start_idx end_idx) s
   = (Failed (Other (ValueError out_of_bounds)),
      DataCleaner.log ERROR out_of_bounds s)).
Proof.
  assert (Hfail :
    ~ ((0 <= start_idx <= end_idx)%Z /\
       (end_idx < Z.of_nat (nrows (DataCleaner.df s)))%Z) ->
    DataCleaner.drop_rows (DataCleaner.Range start_idx end_idx) s
    = (Failed (Other (ValueError out_of_bounds)),
       DataCleaner.log ERROR out_of_bounds s)).
  { intros Hbad. unfold DataCleaner.drop_rows.
    destruct ((0 <=? start_idx) && (start_idx <=? end_idx)
              && (end_idx <? Z.of_nat (nrows (DataCleaner.df s))))%Z eqn:E;
      [|reflexivity].
    exfalso. apply Hbad.
    apply andb_true_iff in E as [E E3]. apply andb_true_iff in E as [E1 E2].
    apply Z.leb_le in E1, E2. apply Z.ltb_lt in E3. tauto. }
  split; [|split].
  - split.
    + intros [table [s' Hrun]].
      apply drop_rows_inversion in Hrun. tauto.
    + intros [Hord Hlt]. unfold DataCleaner.drop_rows.
      rewrite valid_range by assumption. eauto.
  - exact Hfail.
  - intros Hzero. apply Hfail. rewrite Hzero. simpl. lia.
Qed.

Lemma drop_rows_bounds_witness :
  (~ ((0 <= -1 <= 2)%Z /\
      (2 < Z.of_nat (nrows (DataCleaner.df sample_cleaner)))%Z)) /\
  DataCleaner.drop_rows (DataCleaner.Range (-1) 2) sample_cleaner
  = (Failed (Other (ValueError out_of_bounds)),
     DataCleaner.log ERROR out_of_bounds sample_cleaner).
Proof.
  assert (H : ~ ((0 <= -1 <= 2)%Z /\
                 (2 < Z.of_nat (nrows (DataCleaner.df sample_cleaner)))%Z))
    by lia.
  split; [exact H|].
  exact (proj1 (proj2 (drop_rows_bounds sample_cleaner (-1) 2)) H).
Defined.

Lemma filter_length_le {A : Type} (f : A -> bool) (l : list A) :
  (List.length (filter f l) <= List.length l)%nat.
Proof.
  induction l as [|a r IH]; simpl; [lia|]. destruct (f a); simpl; lia.
Qed.

Lemma firstn_skipn_split {A : Type} (l : list A) (s k : nat) :
  l = (firstn s l ++ firstn k (skipn s l) ++ skipn k (skipn s l))%list.
Proof.
  rewrite (firstn_skipn k (skipn s l)). now rewrite firstn_skipn.
Qed.

(** X14.  [drop_rows] removes rows by label: every row whose label is one of
    the labels found at positions [start] to [end] goes, also a row
    outside that range when labels repeat, so at least [end - start + 1]
    rows go and none of those labels is left. *)
Theorem drop_rows_by_label (s s' : DataCleaner.state)
  (start_idx end_idx : Z) (table : DataFrame) :
  DataCleaner.drop_rows (DataCleaner.Range start_idx end_idx) s
    = (Done table, s') ->
  let dropped :=
    firstn (Z.to_nat end_idx + 1 - Z.to_nat start_idx)
           (skipn (Z.to_nat start_idx) (index (DataCleaner.df s))) in
  List.length dropped = (Z.to_nat end_idx + 1 - Z.to_nat start_idx)%nat /\
  index table
    = filter (fun l => negb (existsb (Z.eqb l) dropped))
             (index (DataCleaner.df s)) /\
  (forall l, In l dropped -> ~ In l (index table)) /\
  (nrows table + (Z.to_nat end_idx + 1 - Z.to_nat start_idx)
   <= nrows (DataCleaner.df s))%nat.
Proof.
  intros Hrun dropped.
  apply drop_rows_inversion in Hrun as [Hord [Hlt [-> _]]].
  replace (Z.to_nat (end_idx + 1)) with (Z.to_nat end_idx + 1)%nat by lia.
  fold dropped.
  set (a := Z.to_nat start_idx) in *.
  set (k := (Z.to_nat end_idx + 1 - a)%nat) in *.
  assert (Hak : (a + k <= nrows (DataCleaner.df s))%nat)
    by (unfold k, a; lia).
  assert (Hlen : List.length dropped = k).
  { unfold dropped. rewrite length_firstn, length_skipn.
    unfold nrows in Hak. lia. }
  assert (Hidx : index (DataCleaner.drop_row_labels (DataCleaner.df s) dropped)
                 = filter (fun l => negb (existsb (Z.eqb l) dropped))
                          (index (DataCleaner.df s))).
  { unfold DataCleaner.drop_row_labels, getitem_mask, on_rows. simpl.
    apply mask_select_filter. }
  split; [exact Hlen|]. split; [exact Hidx|]. split.
  - intros l Hl Hin. rewrite Hidx in Hin.
    apply filter_In in Hin as [_ Hin]. apply negb_true_iff in Hin.
    assert (Hex : existsb (Z.eqb l) dropped = true).
    { apply existsb_exists. exists l. split; [exact Hl|apply Z.eqb_refl]. }
    congruence.
  - unfold nrows at 1. rewrite Hidx.
    rewrite (firstn_skipn_split (index (DataCleaner.df s)) a k) at 1.
    fold dropped. rewrite !filter_app, !length_app.
    rewrite (filter_none _ dropped).
    + pose proof (filter_length_le
                    (fun l => negb (existsb (Z.eqb l) dropped))
                    (firstn a (index (DataCleaner.df s)))) as H1.
      pose proof (filter_length_le
                    (fun l => negb (existsb (Z.eqb l) dropped))
                    (skipn k (skipn a (index (DataCleaner.df s))))) as H2.
      rewrite length_firstn in H1. rewrite !length_skipn in H2.
      unfold nrows in *. simpl. lia.
    + intros l Hl. apply negb_false_iff, existsb_exists.
      exists l. split; [exact Hl|apply Z.eqb_refl].
Qed.

Lemma drop_rows_by_label_witness :
  DataCleaner.drop_rows (DataCleaner.Range 0 0)
    (DataCleaner.init repeated_labels [])
  = (Done repeated_labels_left,
     {| DataCleaner.df := repeated_labels_left;
        DataCleaner.changes_log := ["Dropped rows from index 0 to 0."];
        DataCleaner.logged := [(INFO, "Dropped rows from index 0 to 0.")] |})
  /\
  (nrows repeated_labels_left + (Z.to_nat 0 + 1 - Z.to_nat 0)
   <= nrows repeated_labels)%nat.
Proof.
  split; [reflexivity|].
  exact (proj2 (proj2 (proj2
           (drop_rows_by_label (DataCleaner.init repeated_labels []) _ 0 0 _
              eq_refl)))).
Defined.

(** ** Dropping columns and dropping rows *)

Lemma drop_columns_inversion (format_list : list string -> string)
  (names : list string) (s s' : DataCleaner.state) (table : DataFrame) :
  DataCleaner.drop_columns format_list (DataCleaner.Names names) s
    = (Done table, s') ->
  (exists n, In n names /\
             In n (DataCleaner.column_names (DataCleaner.df s))) /\
  table = DataCleaner.drop_column_labels (DataCleaner.df s) names /\
  DataCleaner.df s' = table.
Proof.
  unfold DataCleaner.drop_columns.
  destruct (filter _ names) as [|v r] eqn:E; [discriminate|].
  rewrite <- E. intros [= <- <-]. simpl.
  split; [|split; [now rewrite drop_valid_labels|reflexivity]].
  assert (Hv : In v (filter
             (fun col => DataCleaner.mem col
                (DataCleaner.column_names (DataCleaner.df s))) names))
    by (rewrite E; now left).
  apply filter_In in Hv as [Hv Hm]. apply mem_In in Hm. now exists v.
Qed.

Lemma drop_labels_commute (table : DataFrame) (names : list string)
  (labels : list Z) :
  DataCleaner.drop_row_labels (DataCleaner.drop_column_labels table names)
    labels
  = DataCleaner.drop_column_labels (DataCleaner.drop_row_labels table labels)
      names.
Proof.
  unfold DataCleaner.drop_row_labels, DataCleaner.drop_column_labels,
    getitem_mask, on_rows. simpl. f_equal.
  induction (columns table) as [|c r IH]; simpl; [reflexivity|].
  destruct (negb (DataCleaner.mem (name c) names)); simpl; now rewrite IH.
Qed.

(** X15.  Dropping columns and then rows leaves the table that dropping the
    same rows and then the same columns leaves: when the first order goes
    through, so does the second. *)
Theorem drop_columns_and_rows_commute
  (format_list : list string -> string) (names : list string)
  (start_idx end_idx : Z) (s s1 s2 : DataCleaner.state)
  (t1 t2 : DataFrame) :
  DataCleaner.drop_columns format_list (DataCleaner.Names names) s
    = (Done t1, s1) ->
  DataCleaner.drop_rows (DataCleaner.Range start_idx end_idx) s1
    = (Done t2, s2) ->
  exists (u1 : DataFrame) (r1 r2 : DataCleaner.state),
    DataCleaner.drop_rows (DataCleaner.Range start_idx end_idx) s
      = (Done u1, r1) /\
    DataCleaner.drop_columns format_list (DataCleaner.Names names) r1
      = (Done t2, r2) /\
    DataCleaner.df r2 = DataCleaner.df s2.
Proof.
  intros Hc Hr.
  apply drop_columns_inversion in Hc as [[n [Hn Hcol]] [-> Hs1]].
  apply drop_rows_inversion in Hr as [Hord [Hlt [-> Hs2]]].
  rewrite Hs1 in *.
  change (nrows (DataCleaner.drop_column_labels (DataCleaner.df s) names))
    with (nrows (DataCleaner.df s)) in Hlt.
  change (index (DataCleaner.drop_column_labels (DataCleaner.df s) names))
    with (index (DataCleaner.df s)) in *.
  set (labels := firstn (Z.to_nat (end_idx + 1) - Z.to_nat start_idx)
                        (skipn (Z.to_nat start_idx)
                               (index (DataCleaner.df s)))) in *.
  set (r1 := {| DataCleaner.df :=
                  DataCleaner.drop_row_labels (DataCleaner.df s) labels;
                DataCleaner.changes_log :=
                  DataCleaner.changes_log s
                  ++ [("Dropped rows from index " ++ str_int start_idx
                       ++ " to " ++ str_int end_idx ++ ".")%string];
                DataCleaner.logged :=
                  DataCleaner.logged s
                  ++ [(INFO, ("Dropped rows from index " ++ str_int start_idx
                              ++ " to " ++ str_int end_idx ++ ".")%string)]
             |}).
  assert (Hrun1 :
    DataCleaner.drop_rows (DataCleaner.Range start_idx end_idx) s
    = (Done (DataCleaner.drop_row_labels (DataCleaner.df s) labels), r1)).
  { unfold DataCleaner.drop_rows.
    now rewrite (valid_range _ _ _ Hord Hlt). }
  destruct (drop_columns_success format_list names r1) as [line Hrun2].
  { exists n. split; [exact Hn|].
    unfold r1, DataCleaner.column_names, DataCleaner.drop_row_labels,
      getitem_mask, on_rows in *. simpl. now rewrite map_map. }
  exists (DataCleaner.drop_row_labels (DataCleaner.df s) labels), r1.
  eexists. split; [exact Hrun1|].
  rewrite drop_labels_commute. split; [exact Hrun2|].
  simpl. now rewrite Hs2, drop_labels_commute.
Qed.

Lemma drop_columns_and_rows_commute_witness :
  exists (s1 s2 : DataCleaner.state) (t1 t2 : DataFrame),
    DataCleaner.drop_columns (String.concat ", ")
      (DataCleaner.Names ["k"]) sample_cleaner = (Done t1, s1) /\
    DataCleaner.drop_rows (DataCleaner.Range 0 1) s1 = (Done t2, s2) /\
    exists (u1 : DataFrame) (r1 r2 : DataCleaner.state),
      DataCleaner.drop_rows (DataCleaner.Range 0 1) sample_cleaner
        = (Done u1, r1) /\
      DataCleaner.drop_columns (String.concat ", ")
        (DataCleaner.Names ["k"]) r1 = (Done t2, r2) /\
      DataCleaner.df r2 = DataCleaner.df s2.
Proof.
  eexists. eexists. eexists. eexists.
  split; [reflexivity|]. split; [reflexivity|].
  exact (drop_columns_and_rows_commute (String.concat ", ") ["k"] 0 1
           sample_cleaner _ _ _ _ eq_refl eq_refl).
Defined.

(** * [DataLoader] *)

Example sample_extensions :
  map posix_splitext_ext
      ["data.csv"; "dir.d/data"; ".csv"; "a/b.tar.GZ"; "..json"; "x.y/"]
  = [".csv"; ""; ""; ".GZ"; ""; ""].
Proof. reflexivity. Qed.

Example sample_loader_built :
  DataLoader.init posix_splitext_ext lower_ascii unit sample_files
    "data.csv" None tt []
  = (Done sample_loader, DataLoader.logged sample_loader).
Proof. reflexivity. Qed.

Section LoaderProperties.

Variable splitext_ext : string -> string.
Variable lower : string -> string.
Variable format_list : list string -> string.
Variable kwargs : Type.

Lemma load_data_outcome (fs : DataLoader.FileSystem kwargs)
  (kw : kwargs) (s : DataLoader.state) :
  (exists table line,
      DataLoader._load_data kwargs fs kw s
      = (Done tt,
         {| DataLoader.file_path := DataLoader.file_path s;
            DataLoader.file_format := DataLoader.file_format s;
            DataLoader.df := Some table;
            DataLoader.selected_columns := Some table;
            DataLoader.logged := DataLoader.logged s ++ [(INFO, line)] |}) /\
      DataLoader.os_path_exists fs (DataLoader.file_path s) = true) \/
  (exists e s',
      DataLoader._load_data kwargs fs kw s = (Failed e, s') /\
      DataLoader.df s' = DataLoader.df s /\
      DataLoader.selected_columns s' = DataLoader.selected_columns s /\
      DataLoader.file_path s' = DataLoader.file_path s /\
      DataLoader.file_format s' = DataLoader.file_format s).
Proof.
  unfold DataLoader._load_data.
  destruct (DataLoader.os_path_exists fs (DataLoader.file_path s)) eqn:Hex;
    simpl.
  2: { right. eexists. eexists. split; [reflexivity|]. now repeat split. }
  destruct (String.eqb (DataLoader.file_format s) "csv").
  { destruct (DataLoader.read_csv fs _ kw) as [table|e].
    - left. eexists. eexists. split; reflexivity.
    - right. eexists. eexists. split; [reflexivity|]. now repeat split. }
  destruct (String.eqb (DataLoader.file_format s) "json").
  { destruct (DataLoader.read_json fs _ kw) as [table|e].
    - left. eexists. eexists. split; reflexivity.
    - right. eexists. eexists. split; [reflexivity|]. now repeat split. }
  destruct (String.eqb (DataLoader.file_format s) "parquet").
  { destruct (DataLoader.read_parquet fs _ kw) as [table|e].
    - left. eexists. eexists. split; reflexivity.
    - right. eexists. eexists. split; [reflexivity|]. now repeat split. }
  right. eexists. eexists. split; [reflexivity|]. now repeat split.
Qed.

Lemma init_loaded (fs : DataLoader.FileSystem kwargs) (path : string)
  (format : option string) (kw : kwargs) (earlier records : list LogRecord)
  (s : DataLoader.state) :
  DataLoader.init splitext_ext lower kwargs fs path format kw earlier
    = (Done s, records) ->
  loaded s.
Proof.
  unfold DataLoader.init.
  destruct (match format with
            | Some f => if String.eqb f "" then _ else _
            | None => _
            end) as [[f|e] recs]; [|discriminate].
  set (s0 := {| DataLoader.file_path := path; DataLoader.file_format := f;
                DataLoader.df := None; DataLoader.selected_columns := None;
                DataLoader.logged := recs |}).
  destruct (load_data_outcome fs kw s0)
    as [[table [line [Hrun _]]]|[e [s' [Hrun _]]]]; rewrite Hrun.
  - intros [= <- _]. split; discriminate.
  - discriminate.
Qed.

Lemma after_loaded (c : DataLoader.call kwargs) (s : DataLoader.state) :
  loaded s -> loaded (DataLoader.after format_list kwargs c s).
Proof.
  intros [Hdf Hsel]. destruct c as [names| | |fs kw]; simpl.
  - unfold DataLoader.select_columns.
    destruct (DataLoader.df s) as [table|] eqn:E; [|contradiction].
    destruct names as [[|n rest]|].
    + split; simpl; [try rewrite E; discriminate|discriminate].
    + destruct (filter _ (n :: rest)); simpl;
        (split; simpl; [try rewrite E; discriminate|discriminate]).
    + split; simpl; [try rewrite E; discriminate|discriminate].
  - unfold DataLoader.get_dataframe.
    destruct (DataLoader.df s) eqn:E; [|contradiction].
    simpl. split; [rewrite E; discriminate|exact Hsel].
  - unfold DataLoader.get_selected_columns.
    destruct (DataLoader.selected_columns s) eqn:E; [|contradiction].
    simpl. split; [exact Hdf|rewrite E; discriminate].
  - unfold DataLoader.reload_data.
    destruct (load_data_outcome fs kw s)
      as [[table [line [Hrun _]]]|[e [s' [Hrun [H1 [H2 _]]]]]];
      rewrite Hrun; simpl.
    + split; discriminate.
    + split; congruence.
Qed.

(** X16.  Once the constructor has returned, the loader holds a table and a
    selection through every later call, also a reload that fails: neither
    [get_dataframe] nor [get_selected_columns] nor [select_columns] ever
    raises the "not loaded" or "not set" [ValueError] they provide for. *)
Theorem loader_stays_loaded (fs : DataLoader.FileSystem kwargs)
  (path : string) (format : option string) (kw : kwargs)
  (earlier records : list LogRecord) (s0 : DataLoader.state)
  (calls : list (DataLoader.call kwargs)) :
  DataLoader.init splitext_ext lower kwargs fs path format kw earlier
    = (Done s0, records) ->
  let s := fold_left (fun s c => DataLoader.after format_list kwargs c s)
                     calls s0 in
  (exists table, DataLoader.get_dataframe s = (Done table, s)) /\
  (exists table, DataLoader.get_selected_columns s = (Done table, s)) /\
  (forall names, exists table s',
      DataLoader.select_columns format_list names s = (Done table, s')).
Proof.
  intros Hinit s.
  assert (Hloaded : loaded s).
  { subst s. apply init_loaded in Hinit. clear records. revert s0 Hinit.
    induction calls as [|c r IH]; intros s0 H0; simpl; [exact H0|].
    apply IH. now apply after_loaded. }
  destruct Hloaded as [Hdf Hsel]. split; [|split].
  - unfold DataLoader.get_dataframe.
    destruct (DataLoader.df s) as [table|]; [|contradiction]. now exists table.
  - unfold DataLoader.get_selected_columns.
    destruct (DataLoader.selected_columns s) as [table|]; [|contradiction].
    now exists table.
  - intros names. unfold DataLoader.select_columns.
    destruct (DataLoader.df s) as [table|]; [|contradiction].
    destruct names as [[|n rest]|].
    + eexists; eexists; reflexivity.
    + destruct (filter _ (n :: rest)); eexists; eexists; reflexivity.
    + eexists; eexists; reflexivity.
Qed.

End LoaderProperties.

Lemma loader_stays_loaded_witness :
  DataLoader.init posix_splitext_ext lower_ascii unit sample_files
    "data.csv" None tt []
  = (Done sample_loader, DataLoader.logged sample_loader) /\
  (exists table,
      DataLoader.get_dataframe
        (fold_left (fun s c => DataLoader.after (String.concat ", ") unit c s)
                   [DataLoader.SelectColumns unit (Some ["x"]);
                    DataLoader.ReloadData unit no_files tt]
                   sample_loader)
      = (Done table,
         fold_left (fun s c => DataLoader.after (String.concat ", ") unit c s)
                   [DataLoader.SelectColumns unit (Some ["x"]);
                    DataLoader.ReloadData unit no_files tt]
                   sample_loader)).
Proof.
  split; [reflexivity|].
  exact (proj1 (loader_stays_loaded posix_splitext_ext lower_ascii
                  (String.concat ", ") unit sample_files "data.csv" None tt
                  [] _ sample_loader
                  [DataLoader.SelectColumns unit (Some ["x"]);
                   DataLoader.ReloadData unit no_files tt]
                  eq_refl)).
Defined.

Section LoaderCalls.

Variable splitext_ext : string -> string.
Variable lower : string -> string.
Variable format_list : list string -> string.
Variable kwargs : Type.

(** X17.  A format passed to the constructor is lower-cased and used as it is,
    whatever the extension of the path: when it is none of "csv", "json"
    and "parquet" and the file exists, the constructor raises the
    [ValueError] of the branch its comment calls unreachable, and two
    error records are logged. *)
Theorem explicit_format_is_not_checked (fs : DataLoader.FileSystem kwargs)
  (path format : string) (kw : kwargs) (earlier : list LogRecord) :
  format <> "" ->
  lower format <> "csv" -> lower format <> "json" ->
  lower format <> "parquet" ->
  DataLoader.os_path_exists fs path = true ->
  DataLoader.init splitext_ext lower kwargs fs path (Some format) kw earlier
  = (Failed (Other (ValueError ("Unsupported file format: " ++ lower format))),
     (earlier
      ++ [(ERROR, "Unsupported file format: " ++ lower format)%string;
          (ERROR, "Failed to load data from '" ++ path
                  ++ "'. Error: Unsupported file format: "
                  ++ lower format)%string])%list).
Proof.
  intros Hne H1 H2 H3 Hex.
  apply String.eqb_neq in Hne, H1, H2, H3.
  unfold DataLoader.init. rewrite Hne.
  unfold DataLoader._load_data. simpl. rewrite Hex, H1, H2, H3. simpl.
  now rewrite <- app_assoc.
Qed.

(** X18.  [select_columns] with a non-empty list of names on a table whose
    column names are distinct: the selection holds the named columns that
    exist, in the order they were asked for, with every row; names that
    are no column are passed over without an error; the loaded table is
    not touched.  When no name is a column the selection is the empty
    frame, without rows. *)
Theorem select_columns_keeps_request_order (s : DataLoader.state)
  (table : DataFrame) (n : string) (rest : list string) :
  DataLoader.df s = Some table ->
  NoDup (map name (columns table)) ->
  let available :=
    filter (fun col => existsb (String.eqb col) (map name (columns table)))
           (n :: rest) in
  exists (selected : DataFrame) (s' : DataLoader.state),
    DataLoader.select_columns format_list (Some (n :: rest)) s
      = (Done selected, s') /\
    DataLoader.df s' = Some table /\
    DataLoader.selected_columns s' = Some selected /\
    map name (columns selected) = available /\
    (available <> [] -> index selected = index table /\
                        incl (columns selected) (columns table)) /\
    (available = [] -> selected = empty_frame).
Proof.
  intros Hdf Hnd available.
  assert (Hnames : forall l,
             (forall x, In x l -> In x (map name (columns table))) ->
             map name (flat_map (getitem table) l) = l).
  { induction l as [|x l IH]; intros Hl; simpl; [reflexivity|].
    rewrite map_app. rewrite IH by (intros y Hy; apply Hl; now right).
    destruct (proj1 (in_map_iff _ _ _) (Hl x (or_introl eq_refl)))
      as [c [Hname Hc]].
    rewrite <- Hname, (getitem_unique table c Hnd Hc). reflexivity. }
  assert (Havail : forall x, In x available ->
                             In x (map name (columns table))).
  { intros x Hx. unfold available in Hx. apply filter_In in Hx as [_ Hx].
    apply existsb_exists in Hx as [y [Hy Heq]].
    apply String.eqb_eq in Heq. now subst. }
  unfold DataLoader.select_columns. rewrite Hdf. fold available.
  destruct available as [|a r] eqn:E.
  - eexists. eexists. split; [reflexivity|]. simpl.
    split; [first [exact Hdf|reflexivity]|]. split; [reflexivity|]. split; [reflexivity|].
    split; [intros H; now contradiction H|reflexivity].
  - eexists. eexists. split; [reflexivity|]. simpl.
    split; [first [exact Hdf|reflexivity]|]. split; [reflexivity|].
    split; [now apply (Hnames (a :: r))|].
    split; [|discriminate]. intros _. split; [reflexivity|].
    intros c Hc. apply in_app_or in Hc as [Hc|Hc].
    + now apply getitem_In in Hc as [Hc _].
    + apply in_flat_map in Hc as [x [_ Hc]].
      now apply getitem_In in Hc as [Hc _].
Qed.


End LoaderCalls.

Lemma explicit_format_is_not_checked_witness :
  "XLSX" <> "" /\
  lower_ascii "XLSX" <> "csv" /\ lower_ascii "XLSX" <> "json" /\
  lower_ascii "XLSX" <> "parquet" /\
  DataLoader.os_path_exists sample_files "data.csv" = true /\
  DataLoader.init posix_splitext_ext lower_ascii unit sample_files
    "data.csv" (Some "XLSX") tt []
  = (Failed (Other (ValueError
       ("Unsupported file format: " ++ lower_ascii "XLSX"))),
     ([] ++ [(ERROR, "Unsupported file format: " ++ lower_ascii "XLSX")%string;
             (ERROR, "Failed to load data from '" ++ "data.csv"
                     ++ "'. Error: Unsupported file format: "
                     ++ lower_ascii "XLSX")%string])%list).
Proof.
  assert (H0 : "XLSX" <> "") by discriminate.
  assert (H1 : lower_ascii "XLSX" <> "csv") by discriminate.
  assert (H2 : lower_ascii "XLSX" <> "json") by discriminate.
  assert (H3 : lower_ascii "XLSX" <> "parquet") by discriminate.
  split; [exact H0|]. split; [exact H1|]. split; [exact H2|].
  split; [exact H3|]. split; [reflexivity|].
  exact (explicit_format_is_not_checked posix_splitext_ext lower_ascii unit
           sample_files "data.csv" "XLSX" tt [] H0 H1 H2 H3 eq_refl).
Defined.

Lemma select_columns_keeps_request_order_witness :
  DataLoader.df sample_loader = Some sample_df /\
  NoDup (map name (columns sample_df)) /\
  exists (selected : DataFrame) (s' : DataLoader.state),
    DataLoader.select_columns (String.concat ", ")
      (Some ["y"; "price"; "x"]) sample_loader
      = (Done selected, s') /\
    DataLoader.df s' = Some sample_df /\
    DataLoader.selected_columns s' = Some selected /\
    map name (columns selected)
      = filter (fun col => existsb (String.eqb col)
                                   (map name (columns sample_df)))
               ["y"; "price"; "x"] /\
    (filter (fun col => existsb (String.eqb col)
                                (map name (columns sample_df)))
            ["y"; "price"; "x"] <> [] ->
     index selected = index sample_df /\
     incl (columns selected) (columns sample_df)) /\
    (filter (fun col => existsb (String.eqb col)
                                (map name (columns sample_df)))
            ["y"; "price"; "x"] = [] ->
     selected = empty_frame).
Proof.
  split; [reflexivity|]. split; [exact sample_df_names_distinct|].
  exact (select_columns_keeps_request_order (String.concat ", ")
           sample_loader sample_df "y" ["price"; "x"] eq_refl
           sample_df_names_distinct).
Defined.

Example sample_selection :
  option_map (fun t => map name (columns t))
    (DataLoader.selected_columns
       (snd (DataLoader.select_columns (String.concat ", ")
               (Some ["y"; "price"; "x"]) sample_loader)))
  = Some ["y"; "x"].
Proof. reflexivity. Qed.


(** * [DataVisualizer] *)

Lemma draw_at (pre : DataVisualizer.Axes) (title : string)
  (a : option string) (tl : DataVisualizer.Axes) :
  DataVisualizer.draw (List.length pre) title (pre ++ a :: tl)%list
  = Some (pre ++ Some title :: tl)%list.
Proof.
  induction pre as [|x r IH]; simpl; [reflexivity|]. now rewrite IH.
Qed.

Lemma draw_columns_fill (numeric_cols : list string)
  (pre : DataVisualizer.Axes) (m : nat) :
  (List.length numeric_cols <= m)%nat ->
  DataVisualizer.draw_columns (List.length pre) numeric_cols
    (pre ++ repeat None m)%list
  = Some (pre
          ++ map (fun col => Some ("Distribution of " ++ col)%string)
                 numeric_cols
          ++ repeat None (m - List.length numeric_cols))%list.
Proof.
  revert pre m. induction numeric_cols as [|col rest IH]; intros pre m Hm.
  - simpl. now rewrite Nat.sub_0_r.
  - destruct m as [|m']; [simpl in Hm; lia|].
    simpl DataVisualizer.draw_columns. simpl repeat. rewrite draw_at.
    pose proof (IH (pre ++ [Some ("Distribution of " ++ col)%string])%list m')
      as H.
    rewrite length_app in H. simpl List.length in H.
    rewrite Nat.add_1_r in H. rewrite <- !app_assoc in H. simpl app in H.
    rewrite H by (simpl in Hm; lia). reflexivity.
Qed.

Lemma grid_fits (k : nat) :
  (1 <= k)%nat ->
  (k <= ((k - 1) / 3 + 1) * 3 < k + 3)%nat.
Proof.
  intros Hk. pose proof (Nat.div_mod_eq (k - 1) 3) as Hdiv.
  pose proof (Nat.mod_upper_bound (k - 1) 3) as Hmod. lia.
Qed.

Lemma draw_grid (cols : list string) :
  (1 <= List.length cols)%nat ->
  exists axes' : DataVisualizer.Axes,
    DataVisualizer.draw_columns 0 cols
      (repeat None (((List.length cols - 1) / 3 + 1) * 3)) = Some axes' /\
    firstn (List.length cols - 1 + 1) axes'
    = map (fun col => Some ("Distribution of " ++ col)%string) cols.
Proof.
  intros Hk. pose proof (grid_fits _ Hk) as Hfit.
  pose proof (draw_columns_fill cols []
                (((List.length cols - 1) / 3 + 1) * 3)) as Hdraw.
  cbn [List.length app] in Hdraw. eexists. split; [apply Hdraw; lia|].
  replace (List.length cols - 1 + 1)%nat with (List.length cols) by lia.
  rewrite <- (length_map (fun col => Some ("Distribution of " ++ col)%string)
                cols) at 1.
  rewrite firstn_app, Nat.sub_diag, firstn_all. simpl. apply app_nil_r.
Qed.

(** X20.  [visualize_data_distribution] on a table with [k >= 1] numeric
    columns: the grid of three columns has the fewest rows that hold [k]
    axes, every [axes[i]] of the loop exists, the axes left over (at most
    two) are deleted, and the figure shown has exactly one histogram per
    numeric column, in column order; no error is logged. *)
Theorem one_histogram_per_numeric_column (s : DataVisualizer.state) :
  let numeric_cols :=
    map name (columns (select_dtypes_number (DataVisualizer.df s))) in
  let k := List.length numeric_cols in
  let n_rows := ((k - 1) / 3 + 1)%nat in
  (1 <= k)%nat ->
  DataVisualizer.visualize_data_distribution s
  = {| DataVisualizer.df := DataVisualizer.df s;
       DataVisualizer.logged :=
         (DataVisualizer.logged s
          ++ [(INFO, "Data distribution plots displayed successfully.")])%list;
       DataVisualizer.shown :=
         (DataVisualizer.shown s
          ++ [map (fun col => Some ("Distribution of " ++ col)%string)
                  numeric_cols])%list |} /\
  (k <= n_rows * 3 < k + 3)%nat /\
  ((n_rows - 1) * 3 < k)%nat.
Proof.
  intros numeric_cols k n_rows Hk.
  pose proof (grid_fits k Hk) as Hfit. fold n_rows in Hfit.
  split; [|split; [exact Hfit|unfold n_rows in *; lia]].
  unfold DataVisualizer.visualize_data_distribution.
  subst n_rows. subst k. subst numeric_cols.
  remember (map name (columns (select_dtypes_number (DataVisualizer.df s))))
    as cols eqn:E.
  destruct (draw_grid cols Hk) as [axes' [Hdraw Hfirst]].
  destruct cols as [|c r]; [simpl in Hk; lia|].
  cbv zeta. rewrite Hdraw, Hfirst. reflexivity.
Qed.

Lemma one_histogram_per_numeric_column_witness :
  (1 <= List.length
          (map name (columns (select_dtypes_number sample_df))))%nat /\
  DataVisualizer.visualize_data_distribution sample_visualizer
  = {| DataVisualizer.df := sample_df;
       DataVisualizer.logged :=
         [(INFO, "Data distribution plots displayed successfully.")];
       DataVisualizer.shown :=
         [[Some "Distribution of x"; Some "Distribution of k";
           Some "Distribution of y"]] |}.
Proof.
  assert (H : (1 <= List.length
                      (map name (columns (select_dtypes_number
                         (DataVisualizer.df sample_visualizer)))))%nat)
    by (simpl; lia).
  split; [exact H|].
  exact (proj1 (one_histogram_per_numeric_column sample_visualizer H)).
Defined.
